(** * Party2go frontend: session lifecycle, role dispatch, venue queries
      and booking arithmetic of [frontend/src/App.js]

    The development embeds the parts of the single-page application that
    carry behaviour of their own:

    - [AuthProvider] (the session manager): the React state [token] and
      [user], the browser's [localStorage], the process-wide
      [axios.defaults.headers.common] and the effect that re-runs whenever
      [token] changes;
    - [Dashboard] (the role dispatch of the [/dashboard] route);
    - [VenueList.fetchVenues] and [HomePage.handleSearch] (the query string
      built with [URLSearchParams]);
    - [BookingForm.handleSubmit] and the pricing estimate of the form
      (binary64 arithmetic, [Number.prototype.toFixed]).

    JavaScript numbers are Rocq's primitive binary64 floats, strings are
    byte strings (the UTF-8 encoding of the JavaScript string), [null] in a
    nullable string is [None], and maps with string keys are [gmap]s. *)

From Stdlib Require Import ZArith String Ascii List Bool Floats DecimalString Sorted.
From stdpp Require Import gmap strings list fin_maps.

#[local] Set Warnings "-inexact-float,-register-all".
#[local] Open Scope string_scope.

(** ** JavaScript values *)

Module Js.

(** The scalar values a JSON payload can put in a field, with [undefined]
    for a field that is missing. *)
Inductive value : Type :=
| VUndefined
| VNull
| VBool (b : bool)
| VNumber (x : float)
| VString (s : string).

(** A numeric field that may be missing or [null]. *)
Inductive field (A : Type) : Type :=
| Missing
| Null
| Val (a : A).
Arguments Missing {A}.
Arguments Null {A}.
Arguments Val {A} a.

(** [ToBoolean] on strings: only the empty string is falsy. *)
Definition truthy_string (s : string) : bool :=
  match s with
  | EmptyString => false
  | String _ _ => true
  end.

(** [ToBoolean] on numbers: [+0], [-0] and [NaN] are falsy. *)
Definition truthy_number (x : float) : bool :=
  negb (PrimFloat.is_zero x || PrimFloat.is_nan x).

(** [ToBoolean] on a nullable string ([string | null]). *)
Definition truthy_nullable (t : option string) : bool :=
  match t with
  | Some s => truthy_string s
  | None => false
  end.

Definition ToBoolean (v : value) : bool :=
  match v with
  | VUndefined | VNull => false
  | VBool b => b
  | VNumber x => truthy_number x
  | VString s => truthy_string s
  end.

Definition truthy_field (p : field float) : bool :=
  match p with
  | Missing | Null => false
  | Val x => truthy_number x
  end.

(** [===]: no coercion; numbers compare as IEEE 754 does. *)
Definition strict_equals (a b : value) : bool :=
  match a, b with
  | VUndefined, VUndefined => true
  | VNull, VNull => true
  | VBool x, VBool y => Bool.eqb x y
  | VNumber x, VNumber y => PrimFloat.eqb x y
  | VString x, VString y => String.eqb x y
  | _, _ => false
  end.

End Js.

(** ** The session manager: [AuthProvider] *)

Module Auth.

(** The user profile of the API ([tokenData.user], the body of
    [GET /auth/me]). *)
Record User : Type := mkUser {
  user_id : string;
  user_name : string;
  user_email : string;
  role : Js.value
}.

(** The body of a successful [/auth/login] or [/auth/register]. *)
Record TokenData : Type := mkTokenData {
  access_token : string;
  td_user : User
}.

Inductive method : Type := GET | POST.

(** A request as axios sends it: the default headers are merged in at the
    time of the call. *)
Record request : Type := mkRequest {
  req_method : method;
  req_url : string;
  req_headers : gmap string string
}.

(** Why a request was rejected. *)
Inductive failure : Type :=
| HttpStatus (code : N)
| NetworkError
| TimedOut
| Cancelled.

Inductive response (A : Type) : Type :=
| Fulfilled (data : A)
| Rejected (error : failure).
Arguments Fulfilled {A} data.
Arguments Rejected {A} error.

(** Everything the provider reads or writes. [deps] is the dependency
    array [[token]] of the last committed render ([None] before the first
    commit); [sent] logs the requests issued so far, and [pending] counts
    the [/auth/me] requests whose promise has not settled. *)
Record world : Type := mkWorld {
  localStorage : gmap string string;
  defaults : gmap string string;
  token : option string;
  user : option User;
  deps : option (option string);
  sent : list request;
  pending : nat
}.

Definition set_localStorage (ls : gmap string string) (w : world) : world :=
  mkWorld ls (defaults w) (token w) (user w) (deps w) (sent w) (pending w).
Definition set_defaults (h : gmap string string) (w : world) : world :=
  mkWorld (localStorage w) h (token w) (user w) (deps w) (sent w) (pending w).
Definition setToken (t : option string) (w : world) : world :=
  mkWorld (localStorage w) (defaults w) t (user w) (deps w) (sent w) (pending w).
Definition setUser (u : option User) (w : world) : world :=
  mkWorld (localStorage w) (defaults w) (token w) u (deps w) (sent w) (pending w).
Definition set_deps (d : option (option string)) (w : world) : world :=
  mkWorld (localStorage w) (defaults w) (token w) (user w) d (sent w) (pending w).
Definition set_sent (l : list request) (w : world) : world :=
  mkWorld (localStorage w) (defaults w) (token w) (user w) (deps w) l (pending w).
Definition set_pending (n : nat) (w : world) : world :=
  mkWorld (localStorage w) (defaults w) (token w) (user w) (deps w) (sent w) n.

(** [`Bearer ${token}`] *)
Definition Bearer (t : string) : string := "Bearer " +:+ t.

Section WithBackend.

(** [process.env.REACT_APP_BACKEND_URL] *)
Variable BACKEND_URL : string.

Definition API : string := BACKEND_URL +:+ "/api".

(** [axios.get(url)] / [axios.post(url, _)]: the request leaves with the
    default headers of that moment. *)
Definition axios (m : method) (url : string) (w : world) : world :=
  set_sent (sent w ++ [mkRequest m url (defaults w)]) w.

(** [logout], lines 44-49. *)
Definition logout (w : world) : world :=
  let w := set_localStorage (delete "token" (localStorage w)) w in
  let w := setToken None w in
  let w := setUser None w in
  set_defaults (delete "Authorization" (defaults w)) w.

(** [login], lines 37-42. *)
Definition login (tokenData : TokenData) (w : world) : world :=
  let w := set_localStorage (<["token" := access_token tokenData]> (localStorage w)) w in
  let w := setToken (Some (access_token tokenData)) w in
  let w := setUser (Some (td_user tokenData)) w in
  set_defaults (<["Authorization" := Bearer (access_token tokenData)]> (defaults w)) w.

(** The request [fetchUserInfo] issues when the default headers are [h]. *)
Definition profile_request (h : gmap string string) : request :=
  mkRequest GET (API +:+ "/auth/me") h.

(** [fetchUserInfo], lines 28-35, up to its [await]: the request is
    issued. *)
Definition fetchUserInfo (w : world) : world :=
  set_pending (S (pending w)) (axios GET (API +:+ "/auth/me") w).

(** [fetchUserInfo] after its [await]: [setUser(response.data)] when the
    promise is fulfilled, the [catch] block when it is rejected. *)
Definition fetchUserInfo_settled (r : response User) (w : world) : world :=
  let w := set_pending (Nat.pred (pending w)) w in
  match r with
  | Fulfilled data => setUser (Some data) w
  | Rejected _ => logout w
  end.

(** The body of the effect, lines 22-25. *)
Definition effect (w : world) : world :=
  match token w with
  | Some t =>
      if Js.truthy_string t
      then fetchUserInfo (set_defaults (<["Authorization" := Bearer t]> (defaults w)) w)
      else w
  | None => w
  end.

(** A commit of React: [useEffect(_, [token])] runs its body after the
    first render and after every render whose [token] differs from the
    one of the render before. *)
Definition commit (w : world) : world :=
  match deps w with
  | Some d =>
      if decide (d = token w) then w
      else effect (set_deps (Some (token w)) w)
  | None => effect (set_deps (Some (token w)) w)
  end.

(** Process start: [useState(null)],
    [useState(localStorage.getItem('token'))], first render, commit. *)
Definition mount (ls h : gmap string string) : world :=
  commit (mkWorld ls h (ls !! "token") None None [] 0).

(** The first render, before any effect has run. *)
Definition initial (ls h : gmap string string) : world :=
  mkWorld ls h (ls !! "token") None None [] 0.

(** The effects of the components below the provider that the first commit
    mounts ([fetchFeaturedVenues], [fetchVenues], [fetchVenue]): each issues
    its request. *)
Definition child_effects (children : list (method * string)) (w : world) : world :=
  fold_left (fun w r => axios (fst r) (snd r) w) children w.

(** A page load. React runs the effects of a commit children first, so the
    requests of the page leave before the effect of the provider has
    written the header; [mount] is the load of a page that requests
    nothing. *)
Definition load (children : list (method * string)) (ls h : gmap string string) : world :=
  commit (child_effects children (initial ls h)).

(** What can happen to a mounted provider. *)
Inductive event : Type :=
| Login (tokenData : TokenData)
| Logout
| ProfileSettled (r : response User)
| Request (m : method) (url : string).

(** An event handler runs to completion, then React renders and
    commits. *)
Definition handle (e : event) (w : world) : world :=
  commit
    match e with
    | Login tokenData => login tokenData w
    | Logout => logout w
    | ProfileSettled r => fetchUserInfo_settled r w
    | Request m url => axios m url w
    end.

(** The handler of an event alone, before React commits. *)
Definition handler (e : event) (w : world) : world :=
  match e with
  | Login tokenData => login tokenData w
  | Logout => logout w
  | ProfileSettled r => fetchUserInfo_settled r w
  | Request m url => axios m url w
  end.

(** A profile promise settles only while one is outstanding. *)
Definition enabled (e : event) (w : world) : Prop :=
  match e with
  | ProfileSettled _ => 0 < pending w
  | _ => True
  end.

(** The worlds between two events: the one a page load leaves, and the
    ones the events lead to from there. *)
Inductive reachable (ls h : gmap string string) : world -> Prop :=
| reach_mount children : reachable ls h (load children ls h)
| reach_step w e :
    reachable ls h w -> enabled e w -> reachable ls h (handle e w).

Definition run (es : list event) (w : world) : world :=
  fold_left (fun w e => handle e w) es w.


(** [isAuthenticated: !!token], line 52. *)
Definition isAuthenticated (w : world) : bool :=
  Js.truthy_nullable (token w).

(** The session holds nothing: no persisted token, no token or user in
    memory, no default [Authorization] header. *)
Definition cleared (w : world) : Prop :=
  localStorage w !! "token" = None
  /\ token w = None
  /\ user w = None
  /\ defaults w !! "Authorization" = None.

End WithBackend.

End Auth.

(** ** The [/dashboard] route: [Dashboard] *)

Module Router.

(** What [Dashboard] returns: a redirect or one of the three views. *)
Inductive element : Type :=
| Navigate (to : string)
| UserDashboard
| OwnerDashboard
| AdminDashboard.

(** [Dashboard], lines 981-989; its argument is the [user] of the
    context. *)
Definition Dashboard (user : option Auth.User) : element :=
  match user with
  | None => Navigate "/login"
  | Some user =>
      if Js.strict_equals (Auth.role user) (Js.VString "venue_owner") then OwnerDashboard
      else if Js.strict_equals (Auth.role user) (Js.VString "admin") then AdminDashboard
      else UserDashboard
  end.

(** The aggregate each view fetches when it mounts ([fetchDashboardData],
    lines 1001, 1096 and 1208), as a path below [API]. *)
Definition fetchDashboardData (e : element) : option string :=
  match e with
  | Navigate _ => None
  | UserDashboard => Some "/dashboard/user"
  | OwnerDashboard => Some "/dashboard/owner"
  | AdminDashboard => Some "/dashboard/admin"
  end.

(** The heading of each view (lines 1017, 1113 and 1224, without the
    emoji). *)
Definition heading (e : element) : option string :=
  match e with
  | Navigate _ => None
  | UserDashboard => Some "My Dashboard"
  | OwnerDashboard => Some "Venue Owner Dashboard"
  | AdminDashboard => Some "Admin Dashboard"
  end.

End Router.

(** ** Query strings: [URLSearchParams], [fetchVenues], [handleSearch] *)

Module Query.

(** A [URLSearchParams] object: its list of name-value pairs. *)
Abbreviation params := (list (string * string)).

(** [params.append(name, value)] *)
Definition append (name value : string) (p : params) : params :=
  (p ++ [(name, value)])%list.

Definition between (lo hi : N) (c : ascii) : bool :=
  (lo <=? N_of_ascii c)%N && (N_of_ascii c <=? hi)%N.

(** The bytes the [application/x-www-form-urlencoded] serializer leaves
    as they are: ASCII letters and digits, [*], [-], [.] and [_]. *)
Definition unreserved (c : ascii) : bool :=
  between 48 57 c || between 65 90 c || between 97 122 c
  || Ascii.eqb c "*" || Ascii.eqb c "-" || Ascii.eqb c "." || Ascii.eqb c "_".

Definition hex_digit (n : N) : ascii :=
  match n with
  | 0 => "0" | 1 => "1" | 2 => "2" | 3 => "3" | 4 => "4" | 5 => "5"
  | 6 => "6" | 7 => "7" | 8 => "8" | 9 => "9" | 10 => "A" | 11 => "B"
  | 12 => "C" | 13 => "D" | 14 => "E" | _ => "F"
  end%N%char.

(** [%XX], two upper-case hexadecimal digits. *)
Definition percent_encode_byte (c : ascii) : string :=
  String "%" (String (hex_digit (N_of_ascii c / 16))
               (String (hex_digit (N_of_ascii c mod 16)) "")).

Definition encode_byte (c : ascii) : string :=
  if Ascii.eqb c " " then "+"
  else if unreserved c then String c ""
  else percent_encode_byte c.

Fixpoint urlencode (s : string) : string :=
  match s with
  | EmptyString => ""
  | String c s' => encode_byte c +:+ urlencode s'
  end.

(** The serializer of the URL standard: tuples joined by [&], each one
    [name=value]. *)
Fixpoint serialize (output : string) (tuples : params) : string :=
  match tuples with
  | [] => output
  | (name, value) :: tuples' =>
      let output := if Js.truthy_string output then output +:+ "&" else output in
      serialize (output +:+ urlencode name +:+ "=" +:+ urlencode value) tuples'
  end.

(** [params.toString()] *)
Definition toString (p : params) : string := serialize "" p.

(** The text of one tuple, and whether a byte occurs in a text. *)
Definition tuple_text (t : string * string) : string :=
  urlencode (fst t) +:+ "=" +:+ urlencode (snd t).

Fixpoint occurs (c : ascii) (s : string) : bool :=
  match s with
  | EmptyString => false
  | String c' s' => Ascii.eqb c' c || occurs c s'
  end.

(** *** The parser of the URL standard, which a server applies *)

(** The text before the first [sep], and the text after it when there is
    one. *)
Fixpoint cut (sep : ascii) (s : string) : string * option string :=
  match s with
  | EmptyString => ("", None)
  | String c s' =>
      if Ascii.eqb c sep then ("", Some s')
      else let (a, b) := cut sep s' in (String c a, b)
  end.

Fixpoint split (sep : ascii) (s : string) : list string :=
  match s with
  | EmptyString => [""]
  | String c s' =>
      if Ascii.eqb c sep then "" :: split sep s'
      else match split sep s' with
           | [] => [String c ""]
           | x :: l => String c x :: l
           end
  end.

Definition hex_value (c : ascii) : option N :=
  if between 48 57 c then Some (N_of_ascii c - 48)%N
  else if between 65 70 c then Some (N_of_ascii c - 55)%N
  else if between 97 102 c then Some (N_of_ascii c - 87)%N
  else None.

Fixpoint percent_decode (s : string) : string :=
  match s with
  | EmptyString => ""
  | String c t =>
      if Ascii.eqb c "%" then
        match t with
        | String a (String b rest) =>
            match hex_value a, hex_value b with
            | Some x, Some y => String (ascii_of_N (16 * x + y)) (percent_decode rest)
            | _, _ => String c (percent_decode t)
            end
        | _ => String c (percent_decode t)
        end
      else String c (percent_decode t)
  end.

Fixpoint plus_to_space (s : string) : string :=
  match s with
  | EmptyString => ""
  | String c s' => String (if Ascii.eqb c "+" then " "%char else c) (plus_to_space s')
  end.

Definition decode (s : string) : string := percent_decode (plus_to_space s).

Definition parse_tuple (bytes : string) : string * string :=
  match cut "=" bytes with
  | (name, Some value) => (decode name, decode value)
  | (name, None) => (decode name, "")
  end.

Definition parse (query : string) : params :=
  map parse_tuple (filter (fun bytes => Js.truthy_string bytes = true) (split "&" query)).

(** *** The filters of [VenueList] *)

(** An object with string values: its own properties in the order in
    which JavaScript enumerates them, the array indices first, ascending,
    then the other names in the order of their creation. *)
Abbreviation object := (list (string * string)).

Fixpoint digits_value (acc : N) (s : string) : option N :=
  match s with
  | EmptyString => Some acc
  | String c s' =>
      if between 48 57 c then digits_value (10 * acc + (N_of_ascii c - 48))%N s'
      else None
  end.

(** A property name that is an array index: the decimal text, without a
    leading zero, of an integer below [2^32 - 1]. *)
Definition array_index (key : string) : option N :=
  match key with
  | EmptyString => None
  | String c rest =>
      if Ascii.eqb c "0" && Js.truthy_string rest then None
      else match digits_value 0 key with
           | Some n => if (n <? 4294967295)%N then Some n else None
           | None => None
           end
  end.

(** Whether [key] is an own property. *)
Definition has (key : string) (o : object) : bool :=
  existsb (fun entry => String.eqb (fst entry) key) o.

(** The value of the own property [key] is replaced where it is. *)
Fixpoint replace (key value : string) (o : object) : object :=
  match o with
  | [] => []
  | (k, v) :: o' =>
      if String.eqb k key then (k, value) :: o' else (k, v) :: replace key value o'
  end.

(** A new array index goes after the smaller indices. *)
Fixpoint insert_index (n : N) (key value : string) (o : object) : object :=
  match o with
  | [] => [(key, value)]
  | (k, v) :: o' =>
      match array_index k with
      | Some m =>
          if (m <? n)%N then (k, v) :: insert_index n key value o'
          else (key, value) :: o
      | None => (key, value) :: o
      end
  end.

(** [{ ...o, [key]: value }]: an existing key keeps its place; a new one
    goes last, unless it is an array index. *)
Definition assign (key value : string) (o : object) : object :=
  if has key o then replace key value o
  else match array_index key with
       | Some n => insert_index n key value o
       | None => (o ++ [(key, value)])%list
       end.

Definition Object_entries (o : object) : list (string * string) := o.

(** The initial state [filters], lines 275-281. *)
Definition initial_filters : object :=
  [("location", ""); ("event_type", ""); ("min_price", "");
   ("max_price", ""); ("min_capacity", "")].

Definition filter_keys : list string :=
  ["location"; "event_type"; "min_price"; "max_price"; "min_capacity"].

(** A filter mapping: the five keys, each with a string. *)
Definition filters_of (location event_type min_price max_price min_capacity : string) : object :=
  [("location", location); ("event_type", event_type); ("min_price", min_price);
   ("max_price", max_price); ("min_capacity", min_capacity)].

(** [handleFilterChange], lines 304-306. *)
Definition handleFilterChange (key value : string) (prev : object) : object :=
  assign key value prev.

(** The states of [filters] that the inputs of the page can produce. *)
Inductive filters_state : object -> Prop :=
| filters_initial : filters_state initial_filters
| filters_changed key value prev :
    filters_state prev -> key ∈ filter_keys ->
    filters_state (handleFilterChange key value prev).

(** The [URLSearchParams] that [fetchVenues] fills, lines 290-293. *)
Definition fetchVenues_params (filters : object) : params :=
  fold_left
    (fun params '(key, value) =>
       if Js.truthy_string value then append key value params else params)
    (Object_entries filters) [].

(** The query string of [fetchVenues], [params.toString()]. *)
Definition fetchVenues_query (filters : object) : string :=
  toString (fetchVenues_params filters).

(** The URL [fetchVenues] requests, line 295. *)
Definition fetchVenues_url (BACKEND_URL : string) (filters : object) : string :=
  Auth.API BACKEND_URL +:+ "/venues?" +:+ fetchVenues_query filters.

(** [handleSearch] of the home page, lines 146-151: the path it
    navigates to. *)
Definition handleSearch (searchLocation eventType : string) : string :=
  let params := [] in
  let params := if Js.truthy_string searchLocation
                then append "location" searchLocation params else params in
  let params := if Js.truthy_string eventType
                then append "event_type" eventType params else params in
  "/venues?" +:+ toString params.

End Query.

(** ** Booking: [BookingForm] and the price shown by [VenueDetail] *)

Module Booking.

#[local] Open Scope float_scope.

(** The fields of a venue the booking code reads. *)
Record Venue : Type := mkVenue {
  id : string;
  name : string;
  price_per_hour : Js.field float;
  price_per_day : Js.field float
}.

(** The state [formData] of the form, lines 603-610. *)
Record FormData : Type := mkFormData {
  form_name : string;
  form_email : string;
  event_date : string;
  event_type : string;
  guests : string;
  message : string
}.

(** The object [bookingData] posted to [/api/bookings], lines 620-628. *)
Record BookingData : Type := mkBookingData {
  formData : FormData;
  venue_id : string;
  venue_name : string;
  booked_price_per_hour : float;
  total_amount : float;
  service_fee : float;
  owner_payout : float
}.

(** [a || b] on two optional numbers. *)
Definition or_field (a b : Js.field float) : Js.field float :=
  if Js.truthy_field a then a else b.

(** [a || d] with a number literal on the right. *)
Definition or_number (a : Js.field float) (d : float) : float :=
  match a with
  | Js.Val x => if Js.truthy_number x then x else d
  | Js.Missing | Js.Null => d
  end.

(** [venue.price_per_hour || venue.price_per_day || 100], lines 526, 619,
    755, 759 and 763. *)
Definition pricePerHour (venue : Venue) : float :=
  or_number (or_field (price_per_hour venue) (price_per_day venue)) 100.

(** [bookingData] as [handleSubmit] builds it, lines 619-628. *)
Definition handleSubmit (venue : Venue) (formData : FormData) : BookingData :=
  let pricePerHour := pricePerHour venue in
  {| formData := formData;
     venue_id := id venue;
     venue_name := name venue;
     booked_price_per_hour := pricePerHour;
     total_amount := pricePerHour * 4;
     service_fee := pricePerHour * 4 * 0.025;
     owner_payout := pricePerHour * 4 * 0.975 |}.

(** The request [handleSubmit] sends, line 630. *)
Definition handleSubmit_request (BACKEND_URL : string) (w : Auth.world) : Auth.world :=
  Auth.axios Auth.POST (BACKEND_URL +:+ "/api/bookings")%string w.

(** *** [Number.prototype.toFixed] *)

(** What [toFixed] returns: a text, or for a finite number of magnitude
    [10^21] or more the text of [Number::toString], which is left
    symbolic. *)
Inductive rendered : Type :=
| Text (s : string)
| NumberToString (x : float).

(** The decimal digits of a natural number, ["0"] for zero. *)
Definition digits (n : Z) : string :=
  DecimalString.NilZero.string_of_uint (N.to_uint (Z.to_N n)).

Fixpoint zeros (k : nat) : string :=
  match k with
  | O => ""%string
  | S k => String "0" (zeros k)
  end.

(** Steps 10.c-10.e of [toFixed]: pad the digits to [f + 1] characters,
    then put the point before the last [f]. *)
Definition point (f : nat) (m : string) : string :=
  let m := (zeros (S f - String.length m) +:+ m)%string in
  let k := String.length m in
  match f with
  | O => m
  | S _ => (substring 0 (k - f) m +:+ "." +:+ substring (k - f) f m)%string
  end.

(** The integer [n] for which [n / 10^f - m * 2^e] is closest to zero,
    the larger one when there are two. *)
Definition nearest (f : nat) (m : positive) (e : Z) : Z :=
  let scaled := (Z.pos m * 10 ^ Z.of_nat f)%Z in
  if (0 <=? e)%Z then (scaled * 2 ^ e)%Z
  else ((2 * scaled + 2 ^ (- e)) / 2 ^ (1 - e))%Z.

(** [10^21 <= m * 2^e] *)
Definition huge (m : positive) (e : Z) : bool :=
  if (0 <=? e)%Z then (10 ^ 21 <=? Z.pos m * 2 ^ e)%Z
  else (10 ^ 21 * 2 ^ (- e) <=? Z.pos m)%Z.

(** [x.toFixed(f)] for [0 <= f <= 100]. *)
Definition toFixed (f : nat) (x : float) : rendered :=
  match Prim2SF x with
  | S754_nan => Text "NaN"
  | S754_infinity s => Text (if s then "-Infinity" else "Infinity")
  | S754_zero _ => Text (point f (digits 0))
  | S754_finite s m e =>
      if huge m e then NumberToString x
      else Text ((if s then "-" else "") +:+ point f (digits (nearest f m e)))%string
  end.

(** The three lines of the pricing estimate, lines 755, 759 and 763. *)
Definition base_rate (venue : Venue) : rendered :=
  toFixed 2 (pricePerHour venue * 4).
Definition fee_estimate (venue : Venue) : rendered :=
  toFixed 2 (pricePerHour venue * 4 * 0.025).
Definition total_estimate (venue : Venue) : rendered :=
  toFixed 2 (pricePerHour venue * 4 * 1.025).

(** The number [VenueDetail] shows as the hourly price, line 526. *)
Definition starting_price (venue : Venue) : float := pricePerHour venue.

End Booking.


(** ** Sign-in pages: [LoginPage] and [RegisterPage] *)

Module Pages.

(** A value of a JSON body: a scalar, a list or an object; [undefined]
    stands for a field that is missing. *)
Inductive json : Type :=
| Scalar (v : Js.value)
| Array (items : list json)
| Object (members : list (string * json)).

(** [ToBoolean]: lists and objects are truthy, the empty ones too. *)
Definition ToBoolean (v : json) : bool :=
  match v with
  | Scalar s => Js.ToBoolean s
  | Array _ | Object _ => true
  end.

(** A rejected axios call as the [catch] blocks read it: the value of
    [error.response?.data?.detail], which is [undefined] when the response,
    its body or the field is missing. *)
Inductive api_error : Type :=
| ErrorResponse (status : N) (detail : json)
| NoResponse.

Inductive outcome (A : Type) : Type :=
| Succeeded (data : A)
| Failed (error : api_error).
Arguments Succeeded {A} data.
Arguments Failed {A} error.

Definition detail_of (error : api_error) : json :=
  match error with
  | ErrorResponse _ detail => detail
  | NoResponse => Scalar Js.VUndefined
  end.

(** [a || b] on values. *)
Definition or_value (a b : json) : json :=
  if ToBoolean a then a else b.

(** What React puts into the page for a child [{value}]: the text of a
    string, a number, nothing for a boolean, [null] or [undefined], the
    children of a list one after the other; an object is not a valid child
    and makes the render throw, which is [None] here. *)
Inductive node : Type :=
| TextNode (s : string)
| NumberNode (x : float).

Fixpoint children (v : json) : option (list node) :=
  match v with
  | Scalar (Js.VString s) => Some [TextNode s]
  | Scalar (Js.VNumber x) => Some [NumberNode x]
  | Scalar (Js.VUndefined | Js.VNull | Js.VBool _) => Some []
  | Array items =>
      (fix all (items : list json) : option (list node) :=
         match items with
         | [] => Some []
         | item :: items' =>
             match children item, all items' with
             | Some a, Some b => Some (a ++ b)%list
             | _, _ => None
             end
         end) items
  | Object _ => None
  end.

(** The red box of an error: what it holds, or that the render throws. *)
Inductive box : Type :=
| Box (content : list node)
| Crash.

Inductive page_kind : Type := LoginPage | RegisterPage.

(** Lines 912 and 806. *)
Definition endpoint (k : page_kind) : string :=
  match k with
  | LoginPage => "/auth/login"
  | RegisterPage => "/auth/register"
  end.

(** Lines 916 and 810. *)
Definition fallback (k : page_kind) : string :=
  match k with
  | LoginPage => "Login failed"
  | RegisterPage => "Registration failed"
  end.

(** The state of a sign-in page ([loading], [error]), the path the router
    shows and the session it works on. *)
Record page : Type := mkPage {
  kind : page_kind;
  loading : bool;
  error : json;
  location : string;
  session : Auth.world
}.

Section WithBackend.

Variable BACKEND_URL : string.

(** The page as the router mounts it over a session. *)
Definition open_page (k : page_kind) (path : string) (w : Auth.world) : page :=
  mkPage k false (Scalar (Js.VString "")) path w.

(** [handleSubmit], lines 906-921 and 800-815, up to its [await]. *)
Definition handleSubmit (p : page) : page :=
  mkPage (kind p) true (Scalar (Js.VString "")) (location p)
    (Auth.handle BACKEND_URL
       (Auth.Request Auth.POST (Auth.API BACKEND_URL +:+ endpoint (kind p)))
       (session p)).

(** [handleSubmit] after its [await]: [login(response.data)] and
    [navigate('/dashboard')], or the [catch] block; [finally] resets
    [loading]. *)
Definition handleSubmit_settled (r : outcome Auth.TokenData) (p : page) : page :=
  match r with
  | Succeeded data =>
      mkPage (kind p) false (error p) "/dashboard"
        (Auth.handle BACKEND_URL (Auth.Login data) (session p))
  | Failed e =>
      mkPage (kind p) false
        (or_value (detail_of e) (Scalar (Js.VString (fallback (kind p)))))
        (location p) (session p)
  end.

(** [{error && <div>{error}</div>}], lines 874-878 and 955-959: no box
    while [error] is falsy, which the pages only make it as [''] . *)
Definition error_box (p : page) : option box :=
  if ToBoolean (error p)
  then Some match children (error p) with
            | Some content => Box content
            | None => Crash
            end
  else None.

End WithBackend.

End Pages.

(** ** The venue page: [VenueDetail] *)

Module Detail.

(** The state of the component, the [id] of the route and the URLs it has
    requested. *)
Record state : Type := mkState {
  id : string;
  venue : option Booking.Venue;
  loading : bool;
  error : string;
  showBookingForm : bool;
  fetched : list string
}.

Inductive event : Type :=
| RouteId (id : string)
| Settled (r : Auth.response Booking.Venue)
| BookThisVenue
| CloseBooking.

Inductive view : Type :=
| Loading
| NotFound (message : string)
| Details (venue : Booking.Venue) (booking_form : bool).

Section WithBackend.

Variable BACKEND_URL : string.

(** Line 455. *)
Definition fetchVenue_url (id : string) : string :=
  BACKEND_URL +:+ "/api/venues/" +:+ id.

(** First render and the effect on [[id]], lines 442-451. *)
Definition mount (id : string) : state :=
  mkState id None true "" false [fetchVenue_url id].

(** The effect runs again when the [id] of the route changes; a response
    settles [fetchVenue], lines 453-463; the button of the page and the
    [onClose] of the form set [showBookingForm]. *)
Definition handle (e : event) (s : state) : state :=
  match e with
  | RouteId i =>
      if String.eqb i (id s) then s
      else mkState i (venue s) (loading s) (error s) (showBookingForm s)
             (fetched s ++ [fetchVenue_url i])
  | Settled (Auth.Fulfilled data) =>
      mkState (id s) (Some data) false (error s) (showBookingForm s) (fetched s)
  | Settled (Auth.Rejected _) =>
      mkState (id s) (venue s) false "Venue not found" (showBookingForm s) (fetched s)
  | BookThisVenue =>
      mkState (id s) (venue s) (loading s) (error s) true (fetched s)
  | CloseBooking =>
      mkState (id s) (venue s) (loading s) (error s) false (fetched s)
  end.

Definition run (es : list event) (s : state) : state :=
  fold_left (fun s e => handle e s) es s.

End WithBackend.

(** An event that is not a response. *)
Definition not_settled (e : event) : Prop :=
  match e with Settled _ => False | _ => True end.

(** An event that is not a rejected response. *)
Definition not_rejected (e : event) : Prop :=
  match e with Settled (Auth.Rejected _) => False | _ => True end.

(** What the component returns, lines 465-600. *)
Definition render (s : state) : view :=
  if loading s then Loading
  else match venue s with
       | Some v => if Js.truthy_string (error s) then NotFound (error s)
                   else Details v (showBookingForm s)
       | None => NotFound (error s)
       end.

(** [venue.event_types?.join(', ') || 'All events'], line 558. *)
Definition event_types_label (event_types : Js.field (list string)) : string :=
  match event_types with
  | Js.Val l =>
      if Js.truthy_string (String.concat ", " l) then String.concat ", " l
      else "All events"
  | Js.Missing | Js.Null => "All events"
  end.

(** [venue.capacity || 'Contact for details'], line 562. *)
Definition capacity_label (capacity : Js.field float) : float + string :=
  match capacity with
  | Js.Val x => if Js.truthy_number x then inl x else inr "Contact for details"
  | Js.Missing | Js.Null => inr "Contact for details"
  end.

End Detail.

(** ** Venue cards and the venue list: [HomePage], [VenueList] *)

Module Listing.

(** The fields of a venue the cards read. *)
Record Venue : Type := mkVenue {
  id : string;
  name : string;
  rating : Js.field float;
  total_reviews : Js.field float;
  event_types : Js.field (list string)
}.

(** [venue.rating || 4.5], lines 237, 415 and 568. *)
Definition rating_shown (rating : Js.field float) : float :=
  Booking.or_number rating 4.5%float.

(** [venue.total_reviews || 12], line 237. *)
Definition reviews_shown (total_reviews : Js.field float) : float :=
  Booking.or_number total_reviews 12%float.

(** [venue.event_types?.slice(0, 3)], line 406: the chips of a card. *)
Definition chips (v : Venue) : list string :=
  match event_types v with
  | Js.Val l => take 3 l
  | Js.Missing | Js.Null => []
  end.

(** [response.data.slice(0, 6)], line 140. *)
Definition featured (data : list Venue) : list Venue := take 6 data.

(** The state of [VenueList] and the URLs it has requested. *)
Record state : Type := mkState {
  venues : list Venue;
  loading : bool;
  filters : Query.object;
  requested : list string
}.

(** The inputs of the filter bar, lines 332-366: there is none for
    [min_capacity]. *)
Inductive input : Type := Location | EventType | MinPrice | MaxPrice.

Definition input_key (i : input) : string :=
  match i with
  | Location => "location"
  | EventType => "event_type"
  | MinPrice => "min_price"
  | MaxPrice => "max_price"
  end.

Inductive event : Type :=
| Typed (i : input) (value : string)
| ApplyFilters
| Settled (r : Auth.response (list Venue)).

Inductive view : Type :=
| Spinner
| Grid (cards : list Venue) (no_venues_found : bool).

Section WithBackend.

Variable BACKEND_URL : string.

(** [fetchVenues], lines 287-302, up to its [await]. *)
Definition fetchVenues (s : state) : state :=
  mkState (venues s) true (filters s)
    (requested s ++ [Query.fetchVenues_url BACKEND_URL (filters s)]).

(** First render and the effect on [[]], lines 273-285. *)
Definition mount : state :=
  fetchVenues (mkState [] true Query.initial_filters []).

Definition handle (e : event) (s : state) : state :=
  match e with
  | Typed i value =>
      mkState (venues s) (loading s)
        (Query.handleFilterChange (input_key i) value (filters s)) (requested s)
  | ApplyFilters => fetchVenues s
  | Settled (Auth.Fulfilled data) => mkState data false (filters s) (requested s)
  | Settled (Auth.Rejected _) => mkState (venues s) false (filters s) (requested s)
  end.

Definition run (es : list event) (s : state) : state :=
  fold_left (fun s e => handle e s) es s.

(** What the filter bar can make of the list: [min_capacity] stays empty
    in the filters and in the filters of every URL requested. *)
Definition list_invariant (s : state) : Prop :=
  (exists location event_type min_price max_price,
      filters s = Query.filters_of location event_type min_price max_price "")
  /\ Forall
       (fun url =>
          exists location event_type min_price max_price,
            url = Query.fetchVenues_url BACKEND_URL
                    (Query.filters_of location event_type min_price max_price ""))
       (requested s).

End WithBackend.

(** Lines 312-321 and 427-432. *)
Definition render (s : state) : view :=
  if loading s then Spinner
  else Grid (venues s) (Nat.eqb (length (venues s)) 0).

End Listing.

(** ** The dashboards: [UserDashboard], [OwnerDashboard] *)

Module Dashboards.

(** The classes of the status badge, lines 1069-1071, 1182-1184 and
    1275-1277. *)
Definition payment_badge (payment_status : Js.value) : string :=
  if Js.strict_equals payment_status (Js.VString "paid")
  then "bg-green-100 text-green-800"
  else "bg-yellow-100 text-yellow-800".

(** [dashboardData?.field || 0], lines 1023, 1027, 1127-1139. *)
Definition stat {D : Type} (field : D -> Js.field float) (dashboardData : option D) : float :=
  Booking.or_number
    match dashboardData with
    | Some d => field d
    | None => Js.Missing
    end 0%float.

(** *** The user's dashboard *)

(** A booking of the user, with the fields the table computes from. *)
Record UserBooking : Type := mkUserBooking {
  ub_id : Js.value;
  ub_event_date : Js.value;
  ub_total_amount : Js.value;
  ub_payment_status : Js.value
}.

Record UserData : Type := mkUserData {
  ud_total_bookings : Js.field float;
  ud_total_spent : Js.field float;
  ud_bookings : Js.field (list UserBooking)
}.

(** The state of a dashboard component. *)
Record state (D : Type) : Type := mkState {
  dashboardData : option D;
  loading : bool
}.
Arguments mkState {D} dashboardData loading.
Arguments dashboardData {D} s.
Arguments loading {D} s.

(** [useState(null)], [useState(true)]. *)
Definition mount {D : Type} : state D := mkState None true.

(** [fetchDashboardData] after its [await], lines 999-1009, 1094-1104. *)
Definition settled {D : Type} (r : Auth.response D) (s : state D) : state D :=
  match r with
  | Auth.Fulfilled data => mkState (Some data) false
  | Auth.Rejected _ => mkState (dashboardData s) false
  end.

(** A row of the user's table: the booking and the classes of its badge. *)
Definition user_row (b : UserBooking) : UserBooking * string :=
  (b, payment_badge (ub_payment_status b)).

Inductive user_view : Type :=
| UserLoading
| UserPage (total_bookings total_spent : float) (upcoming : nat)
    (rows : list (UserBooking * string)).

Section WithClock.

(** The time value of [new Date(x)], [None] for an invalid date, and the
    time value of the [k]-th [new Date()] of a render: the callback of the
    filter reads the clock once per booking. *)
Variable timeValue : Js.value -> option Z.
Variable clock : nat -> Z.

(** [new Date(b.event_date) > new Date()], line 1032, when the clock reads
    [now]. *)
Definition is_upcoming (now : Z) (b : UserBooking) : bool :=
  match timeValue (ub_event_date b) with
  | Some t => (now <? t)%Z
  | None => false
  end.

(** [bookings.filter(b => new Date(b.event_date) > new Date())], from the
    [k]-th reading of the clock on. *)
Fixpoint upcoming_from (k : nat) (l : list UserBooking) : list UserBooking :=
  match l with
  | [] => []
  | b :: l' =>
      if is_upcoming (clock k) b then b :: upcoming_from (S k) l'
      else upcoming_from (S k) l'
  end.

(** [dashboardData?.bookings?.filter(...).length || 0], line 1032. *)
Definition upcoming_events (dashboardData : option UserData) : nat :=
  match dashboardData with
  | Some d =>
      match ud_bookings d with
      | Js.Val l => length (upcoming_from 0 l)
      | Js.Missing | Js.Null => 0
      end
  | None => 0
  end.

(** [dashboardData?.bookings?.map(...)], line 1054. *)
Definition user_rows (dashboardData : option UserData) : list (UserBooking * string) :=
  match dashboardData with
  | Some d =>
      match ud_bookings d with
      | Js.Val l => map user_row l
      | Js.Missing | Js.Null => []
      end
  | None => []
  end.

(** What [UserDashboard] returns, lines 1011-1084. *)
Definition UserDashboard (s : state UserData) : user_view :=
  if loading s then UserLoading
  else UserPage (stat ud_total_bookings (dashboardData s))
         (stat ud_total_spent (dashboardData s))
         (upcoming_events (dashboardData s))
         (user_rows (dashboardData s)).

End WithClock.

(** *** The owner's dashboard *)

Record OwnerVenue : Type := mkOwnerVenue {
  ov_id : Js.value;
  ov_name : Js.value
}.

Record OwnerBooking : Type := mkOwnerBooking {
  ob_id : Js.value;
  ob_venue_id : Js.value;
  ob_total_amount : Js.value;
  ob_owner_payout : Js.value;
  ob_payment_status : Js.value
}.

Record OwnerData : Type := mkOwnerData {
  od_total_venues : Js.field float;
  od_total_bookings : Js.field float;
  od_total_earnings : Js.field float;
  od_total_fees_paid : Js.field float;
  od_venues : Js.field (list OwnerVenue);
  od_bookings : Js.field (list OwnerBooking)
}.

(** [venues.find(v => v.id === venue_id)?.name], line 1169. *)
Fixpoint find_venue_name (venues : list OwnerVenue) (venue_id : Js.value) : Js.value :=
  match venues with
  | [] => Js.VUndefined
  | v :: venues' =>
      if Js.strict_equals (ov_id v) venue_id then ov_name v
      else find_venue_name venues' venue_id
  end.

(** A row of the owner's table: the booking, the name of its venue and the
    classes of its badge. *)
Record owner_row : Type := mkOwnerRow {
  row_booking : OwnerBooking;
  row_venue_name : Js.value;
  row_badge : string
}.

(** [dashboardData?.bookings?.slice(0, 10).map(...)], lines 1162-1188;
    [None] when the callback throws, which it does on
    [dashboardData.venues.find] if [venues] is not there. *)
Definition owner_rows (dashboardData : option OwnerData) : option (list owner_row) :=
  match dashboardData with
  | Some d =>
      match od_bookings d with
      | Js.Val l =>
          match take 10 l, od_venues d with
          | [], _ => Some []
          | shown, Js.Val venues =>
              Some (map (fun b => mkOwnerRow b (find_venue_name venues (ob_venue_id b))
                                    (payment_badge (ob_payment_status b)))
                      shown)
          | _ :: _, (Js.Missing | Js.Null) => None
          end
      | Js.Missing | Js.Null => Some []
      end
  | None => Some []
  end.

Inductive owner_view : Type :=
| OwnerLoading
| OwnerCrash
| OwnerPage (total_venues total_bookings total_earnings total_fees_paid : float)
    (rows : list owner_row).

(** What [OwnerDashboard] returns, lines 1106-1195. *)
Definition OwnerDashboard (s : state OwnerData) : owner_view :=
  if loading s then OwnerLoading
  else match owner_rows (dashboardData s) with
       | Some rows =>
           OwnerPage (stat od_total_venues (dashboardData s))
             (stat od_total_bookings (dashboardData s))
             (stat od_total_earnings (dashboardData s))
             (stat od_total_fees_paid (dashboardData s))
             rows
       | None => OwnerCrash
       end.

End Dashboards.

(** ** The booking form as a component: [BookingForm] *)

Module BookingUI.

Inductive field_name : Type :=
| Name | Email | EventDate | EventType | Guests | Message.

(** [setFormData({...formData, field: value})], lines 683-743. *)
Definition set_field (f : field_name) (value : string) (d : Booking.FormData)
  : Booking.FormData :=
  match f with
  | Name =>
      Booking.mkFormData value (Booking.form_email d) (Booking.event_date d)
        (Booking.event_type d) (Booking.guests d) (Booking.message d)
  | Email =>
      Booking.mkFormData (Booking.form_name d) value (Booking.event_date d)
        (Booking.event_type d) (Booking.guests d) (Booking.message d)
  | EventDate =>
      Booking.mkFormData (Booking.form_name d) (Booking.form_email d) value
        (Booking.event_type d) (Booking.guests d) (Booking.message d)
  | EventType =>
      Booking.mkFormData (Booking.form_name d) (Booking.form_email d)
        (Booking.event_date d) value (Booking.guests d) (Booking.message d)
  | Guests =>
      Booking.mkFormData (Booking.form_name d) (Booking.form_email d)
        (Booking.event_date d) (Booking.event_type d) value (Booking.message d)
  | Message =>
      Booking.mkFormData (Booking.form_name d) (Booking.form_email d)
        (Booking.event_date d) (Booking.event_type d) (Booking.guests d) value
  end.

(** The inputs marked [required], lines 681, 691, 704 and 713: none of
    them is empty. *)
Definition required_filled (d : Booking.FormData) : bool :=
  Js.truthy_string (Booking.form_name d)
  && Js.truthy_string (Booking.form_email d)
  && Js.truthy_string (Booking.event_date d)
  && Js.truthy_string (Booking.event_type d).

(** The state of one mounted [BookingForm], lines 603-612. *)
Record form : Type := mkForm {
  formData : Booking.FormData;
  loading : bool;
  success : bool
}.

(** The booking dialog of a venue page: the form that is mounted while
    [showBookingForm] is set (lines 591-596), the alerts raised and the
    bookings posted so far, and the number of requests whose form was closed
    before the answer came. *)
Record state : Type := mkState {
  shown : option form;
  alerts : nat;
  posted : list Booking.BookingData;
  orphans : nat
}.

(** [Open] is the button of the page (line 576), [Close] the [onClose] of
    the form (lines 594, 651, 668 and 774). [Submit valid] is a click on the
    submit button, or Enter in a field, with the verdict of the browser's
    validation of the inputs. [Settled] is the answer to the request of the
    mounted form, [Late] the answer to a request of a form closed since. *)
Inductive event : Type :=
| Open
| Close
| Edit (f : field_name) (value : string)
| Submit (valid : bool)
| Settled (r : Auth.response unit)
| Late (r : Auth.response unit).

Inductive view : Type :=
| Hidden
| BookingRequestSent
| Form (formData : Booking.FormData) (submit_disabled : bool).

(** [useState] of lines 603-612. *)
Definition blank : form :=
  mkForm (Booking.mkFormData "" "" "" "" "" "") false false.

(** The venue page before the dialog is opened, and with the dialog just
    opened. *)
Definition closed : state := mkState None 0 [] 0.
Definition open_form : state := mkState (Some blank) 0 [] 0.

(** Lines 591, 639-659 and 661-788. *)
Definition render (s : state) : view :=
  match shown s with
  | None => Hidden
  | Some f => if success f then BookingRequestSent else Form (formData f) (loading f)
  end.

(** An event that leaves the mounted form mounted. *)
Definition keeps_form (e : event) : Prop :=
  match e with Close => False | _ => True end.

Section WithVenue.

Variable venue : Booking.Venue.

(** The check of the browser on the value of an input of [type="email"],
    line 690. *)
Variable valid_email : string -> bool.

(** The inputs and the submit button exist while the form is shown and not
    replaced by the confirmation; the button is disabled while [loading],
    and the browser does not raise the [submit] event when its validation
    fails. [handleSubmit], lines 614-637, runs otherwise. Closing the
    dialog unmounts the form: its state is gone, a request it has under way
    is not, and the answer then finds no form to update, but still raises
    the [alert] of the [catch] block. *)
Definition handle (e : event) (s : state) : state :=
  match e, shown s with
  | Open, None => mkState (Some blank) (alerts s) (posted s) (orphans s)
  | Close, Some f =>
      mkState None (alerts s) (posted s)
        (if loading f then S (orphans s) else orphans s)
  | Edit field value, Some f =>
      if success f then s
      else mkState (Some (mkForm (set_field field value (formData f)) (loading f) (success f)))
             (alerts s) (posted s) (orphans s)
  | Submit valid, Some f =>
      if success f || loading f || negb valid then s
      else mkState (Some (mkForm (formData f) true (success f))) (alerts s)
             (posted s ++ [Booking.handleSubmit venue (formData f)]) (orphans s)
  | Settled (Auth.Fulfilled _), Some f =>
      if loading f
      then mkState (Some (mkForm (formData f) false true)) (alerts s) (posted s) (orphans s)
      else s
  | Settled (Auth.Rejected _), Some f =>
      if loading f
      then mkState (Some (mkForm (formData f) false (success f))) (S (alerts s))
             (posted s) (orphans s)
      else s
  | Late (Auth.Fulfilled _), _ =>
      mkState (shown s) (alerts s) (posted s) (Nat.pred (orphans s))
  | Late (Auth.Rejected _), _ =>
      match orphans s with
      | O => s
      | S n => mkState (shown s) (S (alerts s)) (posted s) n
      end
  | (Open | Close | Edit _ _ | Submit _ | Settled _), _ => s
  end.

Definition run (es : list event) (s : state) : state :=
  fold_left (fun s e => handle e s) es s.

(** What the browser guarantees of a validation that passes: no required
    input is empty (lines 681, 691, 704 and 713) and the address passes its
    check (line 690). It may fail for other reasons, such as a text in the
    number input that is no number. *)
Definition enabled (e : event) (s : state) : Prop :=
  match e, shown s with
  | Submit true, Some f =>
      required_filled (formData f) = true
      /\ valid_email (Booking.form_email (formData f)) = true
  | _, _ => True
  end.

Fixpoint enabled_all (es : list event) (s : state) : Prop :=
  match es with
  | [] => True
  | e :: es' => enabled e s /\ enabled_all es' (handle e s)
  end.

(** The states of the dialog. *)
Inductive reachable : state -> Prop :=
| reach_closed : reachable closed
| reach_step s e : reachable s -> enabled e s -> reachable (handle e s).

(** What is known of a booking that was posted. *)
Definition complete (b : Booking.BookingData) : Prop :=
  b = Booking.handleSubmit venue (Booking.formData b)
  /\ required_filled (Booking.formData b) = true
  /\ valid_email (Booking.form_email (Booking.formData b)) = true.

End WithVenue.

End BookingUI.

(** ** The bytes of a query string *)

Module Wire.

(** The bytes a serialized query is made of: the unreserved ones, [%] of an
    escape, [+] for a space, and the separators [=] and [&]. *)
Definition query_byte (c : ascii) : bool :=
  Query.unreserved c || Ascii.eqb c "%" || Ascii.eqb c "+"
  || Ascii.eqb c "=" || Ascii.eqb c "&".

Fixpoint all_bytes (p : ascii -> bool) (s : string) : bool :=
  match s with
  | EmptyString => true
  | String c s' => p c && all_bytes p s'
  end.

End Wire.

(** ** Binary64 numbers *)

Module Floating.

(** A number is regular when it is finite and not zero, or infinite. *)
Definition regular (x : spec_float) : Prop :=
  match x with
  | S754_finite _ _ _ | S754_infinity _ => True
  | S754_zero _ | S754_nan => False
  end.

End Floating.

(** ** Sample data for the scenarios *)

Module Sample.

Definition backend : string := "http://localhost:8001".

Definition ann : Auth.User :=
  Auth.mkUser "u-1" "Ann" "ann@example.com" (Js.VString "user").

Definition olga : Auth.User :=
  Auth.mkUser "u-2" "Olga" "olga@example.com" (Js.VString "venue_owner").

Definition adam : Auth.User :=
  Auth.mkUser "u-3" "Adam" "adam@example.com" (Js.VString "admin").

(** A profile without a [role] field. *)
Definition norole : Auth.User :=
  Auth.mkUser "u-4" "Nora" "nora@example.com" Js.VUndefined.

(** The body of a successful login of Ann. *)
Definition ann_login : Auth.TokenData := Auth.mkTokenData "abc" ann.

(** A browser that kept the token of an earlier visit. *)
Definition stored : gmap string string := {["token" := "abc"]}.

(** The default headers of a fresh axios instance. *)
Definition fresh_headers : gmap string string :=
  {["Accept" := "application/json, text/plain, */*"]}.

(** The check of [type="email"] as the HTML standard words it: one or more
    of the characters of an atom or a dot, [@], and labels of letters,
    digits and hyphens, at most 63 long and neither starting nor ending with
    a hyphen, joined by dots. *)
Definition alnum (c : ascii) : bool :=
  Query.between 48 57 c || Query.between 65 90 c || Query.between 97 122 c.

Definition atext (c : ascii) : bool :=
  alnum c || Query.occurs c ".!#$%&'*+/=?^_`{|}~-".

Fixpoint last_char (s : string) (c : ascii) : ascii :=
  match s with
  | EmptyString => c
  | String c' s' => last_char s' c'
  end.

Definition label (l : string) : bool :=
  match l with
  | EmptyString => false
  | String c rest =>
      alnum c && alnum (last_char rest c)
      && Wire.all_bytes (fun x => alnum x || Ascii.eqb x "-") l
      && Nat.leb (String.length l) 63
  end.

Definition valid_email (s : string) : bool :=
  match Query.cut "@" s with
  | (local, Some domain) =>
      Js.truthy_string local && Wire.all_bytes atext local
      && forallb label (Query.split "." domain)
  | (_, None) => false
  end.

(** The time values of three dates, in milliseconds, and a clock that
    starts on 1 November 2026 and advances by a millisecond per reading. *)
Definition timeValue (v : Js.value) : option Z :=
  match v with
  | Js.VString s =>
      if String.eqb s "2030-01-01" then Some 1893456000000%Z
      else if String.eqb s "2020-01-01" then Some 1577836800000%Z
      else if String.eqb s "2026-11-01" then Some 1793491200000%Z
      else None
  | _ => None
  end.

Definition clock (k : nat) : Z := (1793491200000 + Z.of_nat k)%Z.

End Sample.

(** * Properties *)

(** ** The session manager *)

Section AuthFacts.

Import Auth.

Variable BACKEND_URL : string.

#[local] Abbreviation mount := (Auth.mount BACKEND_URL).
#[local] Abbreviation handle := (Auth.handle BACKEND_URL).
#[local] Abbreviation commit := (Auth.commit BACKEND_URL).
#[local] Abbreviation effect := (Auth.effect BACKEND_URL).
#[local] Abbreviation reachable := (Auth.reachable BACKEND_URL).
#[local] Abbreviation API := (Auth.API BACKEND_URL).

(** Unfolds the setters of [world] so that the fields can be read off. *)
Ltac world_fields :=
  cbv [logout login fetchUserInfo_settled axios
       set_defaults setUser setToken set_localStorage set_deps set_sent set_pending
       localStorage defaults token user deps sent pending] in *.

Lemma logout_cleared w : cleared (logout w).
Proof.
  unfold cleared, logout; cbn.
  repeat split; apply lookup_delete_eq.
Qed.

Lemma logout_logout w : logout (logout w) = logout w.
Proof.
  destruct w as [ls h t u d s p]. world_fields.
  f_equal; apply delete_delete_eq.
Qed.

(** The effect does nothing when the token is falsy. *)
Lemma effect_falsy w : Js.truthy_nullable (token w) = false -> effect w = w.
Proof.
  unfold Auth.effect. destruct (token w) as [t|]; cbn; [|reflexivity].
  intros ->. reflexivity.
Qed.

Lemma effect_truthy w t :
  token w = Some t -> Js.truthy_string t = true ->
  effect w =
    fetchUserInfo BACKEND_URL (set_defaults (<["Authorization" := Bearer t]> (defaults w)) w).
Proof.
  unfold Auth.effect. intros -> ->. reflexivity.
Qed.

(** A commit leaves a world without token as it is, up to the recorded
    dependency. *)
Lemma commit_no_token w :
  token w = None -> commit w = set_deps (Some None) w.
Proof.
  intros Ht. unfold Auth.commit. rewrite Ht.
  destruct (deps w) as [d|] eqn:Hd.
  - destruct (decide (d = None)) as [->|_].
    + destruct w; cbn in *; subst; reflexivity.
    + apply effect_falsy. cbn. rewrite Ht. reflexivity.
  - apply effect_falsy. cbn. rewrite Ht. reflexivity.
Qed.

Lemma cleared_set_deps d w : cleared w -> cleared (set_deps d w).
Proof. intros H; exact H. Qed.

Lemma handle_logout w : handle Logout w = set_deps (Some None) (logout w).
Proof. unfold Auth.handle. apply commit_no_token. reflexivity. Qed.

Lemma handle_rejected w e :
  handle (ProfileSettled (Rejected e)) w
  = set_deps (Some None) (logout (set_pending (Nat.pred (pending w)) w)).
Proof. unfold Auth.handle. apply commit_no_token. reflexivity. Qed.

(** The effect and the commit write the default headers and the request
    log only. *)
Lemma effect_frame w :
  token (effect w) = token w /\ localStorage (effect w) = localStorage w
  /\ user (effect w) = user w /\ deps (effect w) = deps w.
Proof.
  unfold Auth.effect. destruct (token w) as [t|] eqn:Ht; [|tauto].
  destruct (Js.truthy_string t); [|tauto].
  cbn. tauto.
Qed.

Lemma commit_frame w :
  token (commit w) = token w /\ localStorage (commit w) = localStorage w
  /\ user (commit w) = user w.
Proof.
  unfold Auth.commit.
  destruct (deps w) as [d|]; [destruct (decide (d = token w)); [tauto|]|];
    destruct (effect_frame (set_deps (Some (token w)) w)) as (-> & -> & -> & _);
    cbn; tauto.
Qed.

Lemma commit_token w : token (commit w) = token w.
Proof. apply commit_frame. Qed.

Lemma commit_localStorage w : localStorage (commit w) = localStorage w.
Proof. apply commit_frame. Qed.

Lemma commit_user w : user (commit w) = user w.
Proof. apply commit_frame. Qed.

(** After every commit the recorded dependency is the current token. *)
Lemma commit_deps w : deps (commit w) = Some (token (commit w)).
Proof.
  rewrite commit_token. unfold Auth.commit.
  destruct (deps w) as [d|] eqn:Hd;
    [destruct (decide (d = token w)) as [->|_]; [exact Hd|]|];
    destruct (effect_frame (set_deps (Some (token w)) w)) as (_ & _ & _ & ->);
    reflexivity.
Qed.

Lemma reachable_deps ls h w : reachable ls h w -> deps w = Some (token w).
Proof. intros [children|w' e _ _]; apply commit_deps. Qed.

(** The requests of the children change the request log only. *)
Lemma child_effects_spec children w :
  Auth.child_effects children w
  = set_sent (sent w
              ++ map (fun r => mkRequest (fst r) (snd r) (defaults w)) children) w.
Proof.
  revert w. induction children as [|[m url] children IH]; intros w.
  - cbn. rewrite app_nil_r. destruct w; reflexivity.
  - cbn [Auth.child_effects fold_left map fst snd].
    change (fold_left _ children ?x) with (Auth.child_effects children x).
    rewrite IH. world_fields. rewrite <- app_assoc. reflexivity.
Qed.

(** The persisted token and the token in memory agree in every reachable
    world. *)
Lemma reachable_persisted ls h w :
  reachable ls h w -> localStorage w !! "token" = token w.
Proof.
  induction 1 as [children|w e Hw IH He].
  - unfold Auth.load. rewrite commit_localStorage, commit_token, child_effects_spec.
    reflexivity.
  - unfold Auth.handle. rewrite commit_localStorage, commit_token.
    destruct e as [td| |[data|err]|m url]; cbn.
    + apply lookup_insert_eq.
    + apply lookup_delete_eq.
    + exact IH.
    + apply lookup_delete_eq.
    + exact IH.
Qed.

(** *** Process start *)

Lemma mount_truthy ls h t :
  ls !! "token" = Some t -> Js.truthy_string t = true ->
  mount ls h
  = mkWorld ls (<["Authorization" := Bearer t]> h) (Some t) None (Some (Some t))
      [profile_request BACKEND_URL (<["Authorization" := Bearer t]> h)] 1.
Proof.
  intros Hls Ht. unfold Auth.mount, Auth.commit; cbn [deps token].
  rewrite Hls. erewrite effect_truthy by (cbn; eauto).
  reflexivity.
Qed.

Lemma load_truthy children ls h t :
  ls !! "token" = Some t -> Js.truthy_string t = true ->
  Auth.load BACKEND_URL children ls h
  = mkWorld ls (<["Authorization" := Bearer t]> h) (Some t) None (Some (Some t))
      (map (fun r => mkRequest (fst r) (snd r) h) children
       ++ [profile_request BACKEND_URL (<["Authorization" := Bearer t]> h)]) 1.
Proof.
  intros Hls Ht. unfold Auth.load. rewrite child_effects_spec.
  unfold Auth.commit, Auth.initial; cbn [deps token set_sent].
  rewrite Hls. erewrite effect_truthy by (cbn; eauto).
  reflexivity.
Qed.

Lemma load_falsy children ls h :
  Js.truthy_nullable (ls !! "token") = false ->
  Auth.load BACKEND_URL children ls h
  = mkWorld ls h (ls !! "token") None (Some (ls !! "token"))
      (map (fun r => mkRequest (fst r) (snd r) h) children) 0.
Proof.
  intros Hf. unfold Auth.load. rewrite child_effects_spec.
  unfold Auth.commit, Auth.initial; cbn [deps token set_sent].
  rewrite effect_falsy by exact Hf. reflexivity.
Qed.

Lemma mount_falsy ls h :
  Js.truthy_nullable (ls !! "token") = false ->
  mount ls h = mkWorld ls h (ls !! "token") None (Some (ls !! "token")) [] 0.
Proof.
  intros Hf. unfold Auth.mount, Auth.commit; cbn [deps token].
  rewrite effect_falsy by exact Hf. reflexivity.
Qed.

(** C7. On process start the provider reads the persisted token. When the
    token is present (non-null and non-empty, which is what [if (token)]
    tests) the default [Authorization] header becomes [Bearer <token>] and
    exactly one request, [GET /auth/me], is issued with that header; when
    it is not, the headers are untouched and no request is issued. So,
    starting without an [Authorization] header, the header is set if and
    only if a token is present, and a profile fetch is issued if and only
    if a token is present. *)
Theorem restore_iff_token_present ls h :
  h !! "Authorization" = None ->
  token (mount ls h) = ls !! "token"
  /\ (forall t, ls !! "token" = Some t -> Js.truthy_string t = true ->
       defaults (mount ls h) !! "Authorization" = Some (Bearer t)
       /\ sent (mount ls h) = [profile_request BACKEND_URL (defaults (mount ls h))]
       /\ pending (mount ls h) = 1)
  /\ (Js.truthy_nullable (ls !! "token") = false ->
       defaults (mount ls h) = h /\ sent (mount ls h) = [] /\ pending (mount ls h) = 0)
  /\ (ls !! "token" = None -> defaults (mount ls h) = h /\ sent (mount ls h) = [])
  /\ (is_Some (defaults (mount ls h) !! "Authorization")
       <-> Js.truthy_nullable (ls !! "token") = true)
  /\ (sent (mount ls h) <> [] <-> Js.truthy_nullable (ls !! "token") = true).
Proof.
  intros Hh.
  assert (Hfalsy : Js.truthy_nullable (ls !! "token") = false ->
                   defaults (mount ls h) = h /\ sent (mount ls h) = []
                   /\ pending (mount ls h) = 0).
  { intros Hf. rewrite (mount_falsy _ _ Hf). auto. }
  split; [unfold Auth.mount; apply commit_token|].
  split.
  { intros t Hls Ht. rewrite (mount_truthy _ _ _ Hls Ht); cbn.
    rewrite lookup_insert_eq. auto. }
  split; [exact Hfalsy|].
  split.
  { intros Hnone. destruct Hfalsy as (? & ? & _); [rewrite Hnone; reflexivity|auto]. }
  destruct (Js.truthy_nullable (ls !! "token")) eqn:Hp.
  - destruct (ls !! "token") as [t|] eqn:Hls; [|discriminate].
    cbn in Hp. rewrite (mount_truthy _ _ _ Hls Hp); cbn.
    rewrite lookup_insert_eq. split; split; eauto; discriminate.
  - destruct (Hfalsy eq_refl) as (-> & -> & _). rewrite Hh.
    split; split; try discriminate; try congruence.
    intros [x Hx]; discriminate.
Qed.

(** *** Logout *)

(** C5. From any session state whatsoever, [logout()] leaves the session
    cleared: no persisted token, token and user [null] in memory, no default
    [Authorization] header; and logging out twice is the same as logging out
    once. Both hold for the function itself and for the whole event (the
    function followed by React's commit), which issues no request. *)
Theorem logout_clears_and_is_idempotent w :
  cleared (logout w)
  /\ logout (logout w) = logout w
  /\ cleared (handle Logout w)
  /\ handle Logout (handle Logout w) = handle Logout w
  /\ sent (handle Logout w) = sent w.
Proof.
  split; [apply logout_cleared|].
  split; [apply logout_logout|].
  rewrite !handle_logout.
  split; [apply cleared_set_deps, logout_cleared|].
  split; [|reflexivity].
  change (logout (set_deps (Some None) (logout w)))
    with (set_deps (Some None) (logout (logout w))).
  rewrite logout_logout. reflexivity.
Qed.

(** [logout] touches nothing but the token entry and the [Authorization]
    header. *)
Lemma logout_frame w k :
  (k <> "token" -> localStorage (logout w) !! k = localStorage w !! k)
  /\ (k <> "Authorization" -> defaults (logout w) !! k = defaults w !! k).
Proof.
  world_fields. split; intros Hk; apply lookup_delete_ne; congruence.
Qed.

(** *** Profile fetch failure *)

(** Whatever the state, a rejected profile fetch ends in a cleared session,
    and the result does not depend on the error. *)
Lemma rejected_clears w err :
  cleared (handle (ProfileSettled (Rejected err)) w)
  /\ isAuthenticated (handle (ProfileSettled (Rejected err)) w) = false
  /\ sent (handle (ProfileSettled (Rejected err)) w) = sent w
  /\ forall err', handle (ProfileSettled (Rejected err')) w
                  = handle (ProfileSettled (Rejected err)) w.
Proof.
  rewrite handle_rejected.
  split; [apply cleared_set_deps, logout_cleared|].
  split; [reflexivity|].
  split; [reflexivity|].
  intros err'. rewrite handle_rejected. reflexivity.
Qed.

(** C1. A session is restored from a persisted token [t] (present, so that
    the profile fetch is issued). If that fetch is rejected, for whatever
    reason, the session is torn down entirely: the persisted token is
    removed, token and user are [null] in memory and the default
    [Authorization] header is deleted; the resulting state is the same for
    every error, and the teardown issues no further request. The session is
    cleared as well when the rejection arrives after other events [es]. *)
Theorem profile_failure_tears_down_restored_session ls h t err :
  ls !! "token" = Some t -> Js.truthy_string t = true ->
  sent (mount ls h) = [profile_request BACKEND_URL (<["Authorization" := Bearer t]> h)]
  /\ enabled (ProfileSettled (Rejected err)) (mount ls h)
  /\ cleared (handle (ProfileSettled (Rejected err)) (mount ls h))
  /\ isAuthenticated (handle (ProfileSettled (Rejected err)) (mount ls h)) = false
  /\ sent (handle (ProfileSettled (Rejected err)) (mount ls h)) = sent (mount ls h)
  /\ (forall err', handle (ProfileSettled (Rejected err')) (mount ls h)
                   = handle (ProfileSettled (Rejected err)) (mount ls h))
  /\ (forall es, cleared (handle (ProfileSettled (Rejected err))
                            (Auth.run BACKEND_URL es (mount ls h)))).
Proof.
  intros Hls Ht.
  destruct (rejected_clears (mount ls h) err) as (Hc & Ha & Hs & Hu).
  split; [rewrite (mount_truthy _ _ _ Hls Ht); reflexivity|].
  split; [rewrite (mount_truthy _ _ _ Hls Ht); cbn; lia|].
  do 4 (split; [assumption|]).
  intros es. apply rejected_clears.
Qed.

(** *** Login *)

(** In a committed world, requests leave with the default headers and
    change nothing else. *)
Lemma handle_request w m url :
  deps w = Some (token w) -> handle (Request m url) w = axios m url w.
Proof.
  intros Hd. unfold Auth.handle, Auth.commit. cbn [axios set_sent deps token].
  rewrite Hd. destruct (decide (token w = token w)); [reflexivity|congruence].
Qed.


(** What the event of a login does to a committed world. *)
Lemma handle_login w tokenData :
  deps w = Some (token w) ->
  handle (Login tokenData) w
  = if decide (token w = Some (access_token tokenData)) then login tokenData w
    else if Js.truthy_string (access_token tokenData)
         then fetchUserInfo BACKEND_URL
                (set_deps (Some (Some (access_token tokenData))) (login tokenData w))
         else set_deps (Some (Some (access_token tokenData))) (login tokenData w).
Proof.
  intros Hd. unfold Auth.handle, Auth.commit.
  replace (deps (login tokenData w)) with (Some (token w)) by (rewrite <- Hd; reflexivity).
  replace (token (login tokenData w)) with (Some (access_token tokenData)) by reflexivity.
  destruct (decide (token w = Some (access_token tokenData))) as [E|N].
  - reflexivity.
  - unfold Auth.effect. cbn [token set_deps login set_defaults setUser setToken set_localStorage].
    destruct (Js.truthy_string (access_token tokenData)); [|reflexivity].
    world_fields. rewrite insert_insert_eq. reflexivity.
Qed.


(** While a session is active its token is the one every request carries:
    in every reachable world a non-empty token is the bearer of the default
    [Authorization] header. *)
Lemma reachable_bearer ls h w t :
  reachable ls h w -> token w = Some t -> Js.truthy_string t = true ->
  defaults w !! "Authorization" = Some (Bearer t).
Proof.
  intros Hr. revert t. induction Hr as [children|w e Hw IH He]; intros t Ht Hs.
  - unfold Auth.load in Ht. rewrite commit_token, child_effects_spec in Ht. cbn in Ht.
    rewrite (load_truthy _ _ _ _ Ht Hs). cbn. apply lookup_insert_eq.
  - pose proof (reachable_deps _ _ _ Hw) as Hd.
    destruct e as [td| |[data|err]|m url].
    + unfold Auth.handle in Ht. rewrite commit_token in Ht. cbn in Ht.
      injection Ht as <-.
      rewrite (handle_login _ _ Hd).
      destruct (decide _); [apply lookup_insert_eq|].
      destruct (Js.truthy_string _); apply lookup_insert_eq.
    + rewrite handle_logout in Ht. discriminate.
    + unfold Auth.handle, Auth.commit in *.
      cbn [fetchUserInfo_settled setUser set_pending deps token] in *.
      rewrite Hd in *. rewrite decide_True in * by reflexivity.
      apply IH; assumption.
    + rewrite handle_rejected in Ht. discriminate.
    + rewrite (handle_request _ _ _ Hd) in *. apply IH; assumption.
Qed.

End AuthFacts.

(** *** The scenarios of the session manager on sample data *)

Lemma restore_iff_token_present_witness :
  Sample.fresh_headers !! "Authorization" = None
  /\ Auth.sent (Auth.mount Sample.backend Sample.stored Sample.fresh_headers)
     = [Auth.mkRequest Auth.GET "http://localhost:8001/api/auth/me"
          (<["Authorization" := "Bearer abc"]> Sample.fresh_headers)]
  /\ Auth.sent (Auth.mount Sample.backend ∅ Sample.fresh_headers) = [].
Proof.
  pose proof (restore_iff_token_present Sample.backend Sample.stored
                Sample.fresh_headers eq_refl) as (_ & Hp & _).
  pose proof (restore_iff_token_present Sample.backend ∅
                Sample.fresh_headers eq_refl) as (_ & _ & _ & Ha & _).
  destruct (Hp "abc" eq_refl eq_refl) as (_ & Hs & _).
  destruct (Ha eq_refl) as (_ & Hn).
  split; [reflexivity|]. split; [|exact Hn].
  rewrite Hs. reflexivity.
Defined.

Lemma profile_failure_tears_down_restored_session_witness :
  Sample.stored !! "token" = Some "abc"
  /\ Auth.cleared
       (Auth.handle Sample.backend (Auth.ProfileSettled (Auth.Rejected (Auth.HttpStatus 401)))
          (Auth.mount Sample.backend Sample.stored Sample.fresh_headers))
  /\ Auth.handle Sample.backend (Auth.ProfileSettled (Auth.Rejected Auth.NetworkError))
       (Auth.mount Sample.backend Sample.stored Sample.fresh_headers)
     = Auth.handle Sample.backend (Auth.ProfileSettled (Auth.Rejected (Auth.HttpStatus 401)))
         (Auth.mount Sample.backend Sample.stored Sample.fresh_headers).
Proof.
  pose proof (profile_failure_tears_down_restored_session Sample.backend Sample.stored
                Sample.fresh_headers "abc" (Auth.HttpStatus 401) eq_refl eq_refl)
    as (_ & _ & Hc & _ & _ & Hu & _).
  split; [reflexivity|]. split; [exact Hc|]. apply Hu.
Defined.



(** ** The role dispatch *)

Section RouterFacts.

Import Router.

Lemma strict_equals_string v s :
  Js.strict_equals v (Js.VString s) = true <-> v = Js.VString s.
Proof.
  destruct v as [| |b|x|s']; cbn; try (split; [discriminate|congruence]).
  rewrite String.eqb_eq. split; congruence.
Qed.

Lemma Dashboard_owner u :
  Auth.role u = Js.VString "venue_owner" -> Dashboard (Some u) = OwnerDashboard.
Proof. unfold Dashboard. intros ->. reflexivity. Qed.

Lemma Dashboard_admin u :
  Auth.role u = Js.VString "admin" -> Dashboard (Some u) = AdminDashboard.
Proof. unfold Dashboard. intros ->. reflexivity. Qed.

Lemma Dashboard_otherwise u :
  Auth.role u <> Js.VString "venue_owner" -> Auth.role u <> Js.VString "admin" ->
  Dashboard (Some u) = UserDashboard.
Proof.
  intros Ho Ha. unfold Dashboard.
  destruct (Js.strict_equals (Auth.role u) (Js.VString "venue_owner")) eqn:Eo.
  - apply strict_equals_string in Eo. contradiction.
  - destruct (Js.strict_equals (Auth.role u) (Js.VString "admin")) eqn:Ea; [|reflexivity].
    apply strict_equals_string in Ea. contradiction.
Qed.

(** C2, as the code has it. The dispatch of the dashboard route covers the
    three roles and nothing else comes out of it: for every session the
    result is the redirect to [/login] or one of the three views; a [user]
    role gives exactly the personal view (the bookings of
    [/dashboard/user]), a [venue_owner] role the owner view
    ([/dashboard/owner]), an [admin] role the admin view
    ([/dashboard/admin]), three different views; and a session without a
    user, as every session is right after [logout], is always redirected to
    [/login], while a session with one never is, whether it holds a token or
    not. *)
Theorem dashboard_dispatch_is_exhaustive (w : Auth.world) (u : Auth.User) :
  (Auth.user w = None -> Dashboard (Auth.user w) = Navigate "/login")
  /\ (Auth.user w = Some u ->
      (Auth.role u = Js.VString "user" -> Dashboard (Auth.user w) = UserDashboard)
      /\ (Auth.role u = Js.VString "venue_owner" -> Dashboard (Auth.user w) = OwnerDashboard)
      /\ (Auth.role u = Js.VString "admin" -> Dashboard (Auth.user w) = AdminDashboard)
      /\ Dashboard (Auth.user w) <> Navigate "/login")
  /\ (Dashboard (Auth.user w) = Navigate "/login"
      \/ Dashboard (Auth.user w) = UserDashboard
      \/ Dashboard (Auth.user w) = OwnerDashboard
      \/ Dashboard (Auth.user w) = AdminDashboard)
  /\ fetchDashboardData UserDashboard = Some "/dashboard/user"
  /\ fetchDashboardData OwnerDashboard = Some "/dashboard/owner"
  /\ fetchDashboardData AdminDashboard = Some "/dashboard/admin"
  /\ UserDashboard <> OwnerDashboard /\ UserDashboard <> AdminDashboard
  /\ OwnerDashboard <> AdminDashboard
  /\ Dashboard (Auth.user (Auth.logout w)) = Navigate "/login".
Proof.
  split; [intros ->; reflexivity|].
  split.
  { intros ->. repeat split.
    - intros Hr. apply Dashboard_otherwise; rewrite Hr; discriminate.
    - apply Dashboard_owner.
    - apply Dashboard_admin.
    - unfold Dashboard.
      destruct (Js.strict_equals _ _); [discriminate|].
      destruct (Js.strict_equals _ _); discriminate. }
  split.
  { unfold Dashboard. destruct (Auth.user w) as [v|]; [|auto].
    destruct (Js.strict_equals _ _); [auto|].
    destruct (Js.strict_equals _ _); auto. }
  repeat split; discriminate.
Qed.

(** C8. Whatever the role of an authenticated user, if it is neither
    ['venue_owner'] nor ['admin'] (an empty, a missing or an unexpected
    role included) the dashboard shows the personal view: the dispatch is
    total and the user view is its fall-through branch. *)
Theorem dashboard_defaults_to_user_view (w : Auth.world) (u : Auth.User) :
  Auth.user w = Some u ->
  Auth.role u <> Js.VString "venue_owner" ->
  Auth.role u <> Js.VString "admin" ->
  Dashboard (Auth.user w) = UserDashboard.
Proof. intros -> Ho Ha. apply Dashboard_otherwise; assumption. Qed.

(** The converse: only those roles reach the user view. *)
Lemma user_view_only_by_fall_through u :
  Dashboard (Some u) = UserDashboard ->
  Auth.role u <> Js.VString "venue_owner" /\ Auth.role u <> Js.VString "admin".
Proof.
  intros H. split; intros Hr.
  - rewrite (Dashboard_owner _ Hr) in H. discriminate.
  - rewrite (Dashboard_admin _ Hr) in H. discriminate.
Qed.

(** C9. The redirect of the dashboard is decided on the user, not on the
    token: in every state with a non-empty token and no user yet, the
    dashboard redirects to [/login] although [isAuthenticated] is true. *)
Theorem dashboard_redirects_while_user_is_null (w : Auth.world) (t : string) :
  Auth.token w = Some t -> Js.truthy_string t = true -> Auth.user w = None ->
  Dashboard (Auth.user w) = Navigate "/login" /\ Auth.isAuthenticated w = true.
Proof.
  intros Ht Hs Hu. unfold Auth.isAuthenticated. rewrite Ht, Hu. cbn. auto.
Qed.

End RouterFacts.

(** The redirect follows the user, not [isAuthenticated]: a profile that
    arrives after a logout leaves a user without a token, and the dashboard
    shows a view then. *)
Lemma late_profile_after_logout :
  Auth.isAuthenticated
    (Auth.run Sample.backend [Auth.Logout; Auth.ProfileSettled (Auth.Fulfilled Sample.ann)]
       (Auth.mount Sample.backend Sample.stored Sample.fresh_headers)) = false
  /\ Router.Dashboard
       (Auth.user
          (Auth.run Sample.backend [Auth.Logout; Auth.ProfileSettled (Auth.Fulfilled Sample.ann)]
             (Auth.mount Sample.backend Sample.stored Sample.fresh_headers)))
     = Router.UserDashboard.
Proof. split; reflexivity. Qed.

(** C2 as stated fails: after a restore, a logout and the answer to the
    profile fetch that the logout left outstanding, the session is
    unauthenticated (no token in memory or in the storage, no header) and
    the dashboard route shows the personal view, not the redirect. *)
Lemma unauthenticated_session_is_shown_a_dashboard :
  Auth.reachable Sample.backend Sample.stored Sample.fresh_headers
    (Auth.run Sample.backend [Auth.Logout; Auth.ProfileSettled (Auth.Fulfilled Sample.ann)]
       (Auth.mount Sample.backend Sample.stored Sample.fresh_headers))
  /\ Auth.token
       (Auth.run Sample.backend [Auth.Logout; Auth.ProfileSettled (Auth.Fulfilled Sample.ann)]
          (Auth.mount Sample.backend Sample.stored Sample.fresh_headers)) = None
  /\ Auth.localStorage
       (Auth.run Sample.backend [Auth.Logout; Auth.ProfileSettled (Auth.Fulfilled Sample.ann)]
          (Auth.mount Sample.backend Sample.stored Sample.fresh_headers)) !! "token" = None
  /\ Auth.isAuthenticated
       (Auth.run Sample.backend [Auth.Logout; Auth.ProfileSettled (Auth.Fulfilled Sample.ann)]
          (Auth.mount Sample.backend Sample.stored Sample.fresh_headers)) = false
  /\ Router.Dashboard
       (Auth.user
          (Auth.run Sample.backend [Auth.Logout; Auth.ProfileSettled (Auth.Fulfilled Sample.ann)]
             (Auth.mount Sample.backend Sample.stored Sample.fresh_headers)))
     = Router.UserDashboard
  /\ Router.Dashboard
       (Auth.user
          (Auth.run Sample.backend [Auth.Logout; Auth.ProfileSettled (Auth.Fulfilled Sample.ann)]
             (Auth.mount Sample.backend Sample.stored Sample.fresh_headers)))
     <> Router.Navigate "/login".
Proof.
  split.
  { apply (Auth.reach_step Sample.backend Sample.stored Sample.fresh_headers
             (Auth.handle Sample.backend Auth.Logout
                (Auth.mount Sample.backend Sample.stored Sample.fresh_headers))
             (Auth.ProfileSettled (Auth.Fulfilled Sample.ann))).
    - apply (Auth.reach_step Sample.backend Sample.stored Sample.fresh_headers
               (Auth.mount Sample.backend Sample.stored Sample.fresh_headers) Auth.Logout).
      + exact (Auth.reach_mount Sample.backend Sample.stored Sample.fresh_headers []).
      + exact I.
    - vm_compute. constructor. }
  split; [reflexivity|]. split; [reflexivity|]. split; [reflexivity|].
  split; [reflexivity|discriminate].
Qed.

Lemma dashboard_defaults_to_user_view_witness :
  Router.Dashboard (Some Sample.norole) = Router.UserDashboard
  /\ Router.Dashboard (Some (Auth.mkUser "u-5" "Eve" "eve@example.com" (Js.VString "")))
     = Router.UserDashboard
  /\ Router.Dashboard (Some (Auth.mkUser "u-6" "Sam" "sam@example.com" (Js.VString "superuser")))
     = Router.UserDashboard
  /\ Router.Dashboard (Some (Auth.mkUser "u-7" "Max" "max@example.com" (Js.VString "Admin")))
     = Router.UserDashboard.
Proof.
  pose (w u := Auth.mkWorld ∅ ∅ (Some "abc") (Some u) (Some (Some "abc")) [] 0).
  split; [|split; [|split]].
  - apply (dashboard_defaults_to_user_view (w Sample.norole) Sample.norole);
      [reflexivity|discriminate|discriminate].
  - apply (dashboard_defaults_to_user_view (w _) _ eq_refl); discriminate.
  - apply (dashboard_defaults_to_user_view (w _) _ eq_refl); discriminate.
  - apply (dashboard_defaults_to_user_view (w _) _ eq_refl); discriminate.
Defined.

(** The state right after a restore, before the profile has arrived, is
    such a state. *)
Lemma dashboard_redirects_while_user_is_null_witness :
  Auth.token (Auth.mount Sample.backend Sample.stored Sample.fresh_headers) = Some "abc"
  /\ Auth.user (Auth.mount Sample.backend Sample.stored Sample.fresh_headers) = None
  /\ Router.Dashboard (Auth.user (Auth.mount Sample.backend Sample.stored Sample.fresh_headers))
     = Router.Navigate "/login"
  /\ Auth.isAuthenticated (Auth.mount Sample.backend Sample.stored Sample.fresh_headers) = true.
Proof.
  split; [reflexivity|]. split; [reflexivity|].
  apply (dashboard_redirects_while_user_is_null
           (Auth.mount Sample.backend Sample.stored Sample.fresh_headers) "abc");
    reflexivity.
Defined.

(** ** Query strings *)

Section QueryFacts.

Import Query.

#[local] Arguments String.append !s1 s2 : simpl nomatch.

Lemma append_assoc (a b c : string) : (a +:+ b) +:+ c = a +:+ (b +:+ c).
Proof. induction a as [|x a IH]; cbn; [reflexivity|]. f_equal. exact IH. Qed.

Lemma append_empty_r (a : string) : a +:+ "" = a.
Proof. induction a as [|x a IH]; cbn; [reflexivity|]. f_equal. exact IH. Qed.

Lemma occurs_append c a b : occurs c (a +:+ b) = occurs c a || occurs c b.
Proof.
  induction a as [|x a IH]; cbn; [reflexivity|].
  rewrite IH. apply orb_assoc.
Qed.

(** Every byte of the 256 is encoded without [&] and [=], and decoded
    back. *)
Lemma encode_byte_clean c :
  occurs "&" (encode_byte c) = false /\ occurs "=" (encode_byte c) = false.
Proof. destruct c as [[] [] [] [] [] [] [] []]; split; reflexivity. Qed.

Lemma decode_encode_byte c r :
  decode (encode_byte c +:+ r) = String c (decode r).
Proof. destruct c as [[] [] [] [] [] [] [] []]; reflexivity. Qed.

Lemma urlencode_clean s :
  occurs "&" (urlencode s) = false /\ occurs "=" (urlencode s) = false.
Proof.
  induction s as [|c s [IH1 IH2]]; cbn [urlencode]; [split; reflexivity|].
  rewrite !occurs_append, IH1, IH2.
  destruct (encode_byte_clean c) as [-> ->]. split; reflexivity.
Qed.

Lemma decode_urlencode s : decode (urlencode s) = s.
Proof.
  induction s as [|c s IH]; cbn [urlencode]; [reflexivity|].
  rewrite decode_encode_byte, IH. reflexivity.
Qed.

Lemma tuple_text_clean t :
  occurs "&" (tuple_text t) = false /\ Js.truthy_string (tuple_text t) = true.
Proof.
  unfold tuple_text. split.
  - rewrite !occurs_append.
    destruct (urlencode_clean (fst t)) as [-> _].
    destruct (urlencode_clean (snd t)) as [-> _]. reflexivity.
  - destruct (urlencode (fst t)); reflexivity.
Qed.

Lemma cut_append sep a b :
  occurs sep a = false -> cut sep (a +:+ String sep b) = (a, Some b).
Proof.
  induction a as [|x a IH]; cbn; intros H.
  - rewrite Ascii.eqb_refl. reflexivity.
  - apply orb_false_iff in H as [Hx Ha]. rewrite Hx, (IH Ha). reflexivity.
Qed.

Lemma parse_tuple_text t : parse_tuple (tuple_text t) = t.
Proof.
  unfold parse_tuple, tuple_text. cbn [String.append].
  rewrite cut_append by apply urlencode_clean.
  rewrite !decode_urlencode. destruct t; reflexivity.
Qed.

Lemma split_clean sep a : occurs sep a = false -> split sep a = [a].
Proof.
  induction a as [|x a IH]; cbn; intros H; [reflexivity|].
  apply orb_false_iff in H as [Hx Ha]. rewrite Hx, (IH Ha). reflexivity.
Qed.

Lemma split_append sep a b :
  occurs sep a = false -> split sep (a +:+ String sep b) = a :: split sep b.
Proof.
  induction a as [|x a IH]; cbn; intros H.
  - rewrite Ascii.eqb_refl. reflexivity.
  - apply orb_false_iff in H as [Hx Ha]. rewrite Hx, (IH Ha). reflexivity.
Qed.

(** [toString] joins the texts of the tuples with [&]. *)
Lemma serialize_concat output tuples :
  serialize output tuples
  = match tuples with
    | [] => output
    | _ :: _ =>
        (if Js.truthy_string output then output +:+ "&" else output)
        +:+ String.concat "&" (map tuple_text tuples)
    end.
Proof.
  revert output. induction tuples as [|[name value] tuples IH]; intros output;
    [reflexivity|].
  cbn [serialize]. rewrite IH.
  set (pre := if Js.truthy_string output then output +:+ "&" else output).
  change (urlencode name +:+ "=" +:+ urlencode value) with (tuple_text (name, value)).
  destruct tuples as [|t tuples]; [reflexivity|].
  replace (Js.truthy_string (pre +:+ tuple_text (name, value))) with true.
  - cbn [map String.concat]. rewrite !append_assoc. reflexivity.
  - unfold tuple_text. destruct pre; [|reflexivity].
    cbn. destruct (urlencode name); reflexivity.
Qed.

Lemma toString_concat tuples :
  toString tuples = String.concat "&" (map tuple_text tuples).
Proof.
  unfold toString. rewrite serialize_concat. destruct tuples; reflexivity.
Qed.

Lemma split_concat tuples :
  tuples <> [] ->
  split "&" (String.concat "&" (map tuple_text tuples)) = map tuple_text tuples.
Proof.
  induction tuples as [|t tuples IH]; [congruence|]. intros _.
  destruct tuples as [|t' tuples].
  - cbn. apply split_clean, tuple_text_clean.
  - cbn [map String.concat] in *.
    change ("&" +:+ ?x) with (String "&" x).
    rewrite split_append by apply tuple_text_clean.
    rewrite IH by discriminate. reflexivity.
Qed.

(** The parser of the URL standard reads back exactly the tuples that were
    serialized. *)
Lemma parse_toString tuples : parse (toString tuples) = tuples.
Proof.
  unfold parse. rewrite toString_concat.
  destruct tuples as [|t tuples]; [reflexivity|].
  rewrite split_concat by discriminate.
  induction (t :: tuples) as [|x l IH]; [reflexivity|].
  cbn [map]. rewrite filter_cons_True by apply tuple_text_clean.
  cbn [map]. rewrite parse_tuple_text. f_equal. exact IH.
Qed.

(** The loop of [fetchVenues] keeps the entries with a non-empty value, in
    the order of the object. *)
Lemma fetchVenues_params_filter filters :
  fetchVenues_params filters
  = filter (fun entry => Js.truthy_string (snd entry) = true) filters.
Proof.
  unfold fetchVenues_params, Object_entries.
  enough (H : forall acc : params,
             fold_left
               (fun params '(key, value) =>
                  if Js.truthy_string value then append key value params else params)
               filters acc
             = (acc ++ filter (fun entry => Js.truthy_string (snd entry) = true) filters)%list)
    by apply (H []).
  induction filters as [|[key value] filters IH]; intros acc; cbn [fold_left].
  - rewrite app_nil_r. reflexivity.
  - rewrite IH. destruct (Js.truthy_string value) eqn:Hv.
    + rewrite filter_cons_True by exact Hv. unfold append.
      rewrite <- app_assoc. reflexivity.
    + rewrite filter_cons_False by (cbn; congruence). reflexivity.
Qed.

Lemma sublist_map {A B : Type} (f : A -> B) (l k : list A) :
  sublist l k -> sublist (map f l) (map f k).
Proof. induction 1; cbn [map]; constructor; assumption. Qed.

Lemma has_spec key o : has key o = true <-> key ∈ map fst o.
Proof.
  unfold has. induction o as [|[k v] o IH]; cbn [existsb map fst].
  - split; [discriminate|inversion 1].
  - rewrite orb_true_iff, IH, elem_of_cons, String.eqb_eq.
    split; intros [H|H]; auto.
Qed.

Lemma assign_present key value o :
  key ∈ map fst o -> assign key value o = replace key value o.
Proof. intros H. apply has_spec in H. unfold assign. rewrite H. reflexivity. Qed.

Lemma assign_absent key value o :
  key ∉ map fst o ->
  assign key value o
  = match array_index key with
    | Some n => insert_index n key value o
    | None => (o ++ [(key, value)])%list
    end.
Proof.
  intros H. unfold assign. destruct (has key o) eqn:E; [|reflexivity].
  apply has_spec in E. contradiction.
Qed.

(** [handleFilterChange] on one of the keys of the object replaces the value
    in place: the keys and their order stay. *)
Lemma assign_keys key value o :
  key ∈ map fst o -> map fst (assign key value o) = map fst o.
Proof.
  intros Hin. rewrite (assign_present _ _ _ Hin).
  induction o as [|[k v] o IH]; cbn [map fst replace]; [reflexivity|].
  destruct (String.eqb k key) eqn:E; [reflexivity|].
  cbn [map fst]. f_equal. apply IH.
  apply elem_of_cons in Hin as [->|Hin]; [|exact Hin].
  rewrite String.eqb_refl in E. discriminate.
Qed.

Lemma assign_lookup key value o :
  key ∈ map fst o -> (key, value) ∈ assign key value o.
Proof.
  intros Hin. rewrite (assign_present _ _ _ Hin).
  induction o as [|[k v] o IH]; cbn [map fst replace] in *.
  - inversion Hin.
  - destruct (String.eqb k key) eqn:E.
    + apply String.eqb_eq in E as ->. apply list_elem_of_here.
    + apply list_elem_of_further, IH.
      apply elem_of_cons in Hin as [->|Hin]; [|exact Hin].
      rewrite String.eqb_refl in E. discriminate.
Qed.

(** Every state of [filters] that the inputs of the page can produce has the
    five keys in their fixed order. *)
Lemma filters_state_keys o : filters_state o -> map fst o = filter_keys.
Proof.
  induction 1 as [|key value prev _ IH Hk]; [reflexivity|].
  unfold handleFilterChange. rewrite assign_keys; [exact IH|].
  rewrite IH. exact Hk.
Qed.

Lemma filters_state_shape o :
  filters_state o ->
  exists location event_type min_price max_price min_capacity,
    o = filters_of location event_type min_price max_price min_capacity.
Proof.
  intros H. apply filters_state_keys in H.
  destruct o as [|[k1 v1] [|[k2 v2] [|[k3 v3] [|[k4 v4] [|[k5 v5] [|? ?]]]]]];
    try discriminate.
  injection H as -> -> -> -> ->. unfold filters_of. eauto 6.
Qed.

(** C4. For every filter mapping over the keys [location], [event_type],
    [min_price], [max_price] and [min_capacity], the query string of
    [fetchVenues] is made of exactly the pairs whose value is not empty, in
    the fixed order of the keys: its tuples are the entries with a non-empty
    value, it is their [name=value] texts joined by [&], and parsing it gives
    those pairs back and no other. The filters [location = "Austin"],
    [event_type = "wedding"], the others empty, give exactly
    [location=Austin&event_type=wedding]. *)
Theorem query_has_exactly_the_nonempty_filters
    (location event_type min_price max_price min_capacity : string) :
  fetchVenues_params (filters_of location event_type min_price max_price min_capacity)
  = filter (fun entry => Js.truthy_string (snd entry) = true)
      (filters_of location event_type min_price max_price min_capacity)
  /\ fetchVenues_query (filters_of location event_type min_price max_price min_capacity)
     = String.concat "&"
         (map tuple_text
            (filter (fun entry => Js.truthy_string (snd entry) = true)
               (filters_of location event_type min_price max_price min_capacity)))
  /\ parse (fetchVenues_query
              (filters_of location event_type min_price max_price min_capacity))
     = filter (fun entry => Js.truthy_string (snd entry) = true)
         (filters_of location event_type min_price max_price min_capacity)
  /\ (forall key value,
       (key, value) ∈ parse (fetchVenues_query
                               (filters_of location event_type min_price max_price min_capacity))
       <-> (key, value) ∈ filters_of location event_type min_price max_price min_capacity
           /\ value <> "")
  /\ sublist
       (map fst (fetchVenues_params
                   (filters_of location event_type min_price max_price min_capacity)))
       filter_keys
  /\ fetchVenues_query (filters_of "Austin" "wedding" "" "" "")
     = "location=Austin&event_type=wedding".
Proof.
  unfold fetchVenues_query. rewrite parse_toString, toString_concat.
  rewrite !fetchVenues_params_filter.
  split; [reflexivity|]. split; [reflexivity|]. split; [reflexivity|].
  split.
  { intros key value. rewrite list_elem_of_filter. cbn [snd].
    split; intros [H1 H2].
    - split; [exact H2|]. destruct value; [discriminate|congruence].
    - split; [|exact H1]. destruct value; [congruence|reflexivity]. }
  split; [|reflexivity].
  change filter_keys
    with (map fst (filters_of location event_type min_price max_price min_capacity)).
  apply sublist_map, sublist_filter.
Qed.

End QueryFacts.

(** The scenario of the specification, with the filters typed into the
    page. *)
Lemma austin_wedding_query :
  Query.handleFilterChange "event_type" "wedding"
    (Query.handleFilterChange "location" "Austin" Query.initial_filters)
  = Query.filters_of "Austin" "wedding" "" "" ""
  /\ Query.fetchVenues_url Sample.backend (Query.filters_of "Austin" "wedding" "" "" "")
     = "http://localhost:8001/api/venues?location=Austin&event_type=wedding"
  /\ Query.handleSearch "Austin" "wedding" = "/venues?location=Austin&event_type=wedding"
  /\ Query.fetchVenues_query (Query.filters_of "New York" "" "" "500" "")
     = "location=New+York&max_price=500"
  /\ Query.fetchVenues_query (Query.filters_of "Q&A=café" "" "" "" "")
     = "location=Q%26A%3Dcaf%C3%A9"
  /\ Query.fetchVenues_query Query.initial_filters = "".
Proof. repeat split. Qed.

(** ** Products of binary64 numbers

    The product of a number that is neither zero nor [NaN] with 4 is not
    zero: rounding shifts the mantissa of the exact product by fewer bits
    than it has. *)

Section FloatProduct.

#[local] Open Scope Z_scope.

Lemma digits2_pos_bounds p :
  2 ^ (Z.pos (digits2_pos p) - 1) <= Z.pos p < 2 ^ Z.pos (digits2_pos p).
Proof.
  induction p as [p IH|p IH|]; cbn [digits2_pos]; [| |cbn; lia];
    rewrite Pos2Z.inj_succ;
    replace (Z.succ (Z.pos (digits2_pos p)) - 1) with (Z.succ (Z.pos (digits2_pos p) - 1)) by lia;
    rewrite !Z.pow_succ_r by lia; lia.
Qed.

Lemma shr_1_halves mrs :
  0 <= shr_m mrs -> shr_m (shr_1 mrs) = shr_m mrs / 2 /\ 0 <= shr_m (shr_1 mrs).
Proof.
  destruct mrs as [m r s]. cbn [shr_m]. intros Hm.
  destruct m as [|[p|p|]|p]; cbn [shr_1 shr_m]; try lia;
    (split; [|lia]); try rewrite (Pos2Z.inj_xI p); try rewrite (Pos2Z.inj_xO p);
    Z.div_mod_to_equations; lia.
Qed.

Lemma iter_shr_1 p mrs :
  0 <= shr_m mrs ->
  shr_m (SpecFloat.iter_pos shr_1 p mrs) = shr_m mrs / 2 ^ Z.pos p
  /\ 0 <= shr_m (SpecFloat.iter_pos shr_1 p mrs).
Proof.
  revert mrs. induction p as [p IH|p IH|]; intros mrs Hm; cbn [SpecFloat.iter_pos].
  - destruct (shr_1_halves mrs Hm) as [E1 P1].
    destruct (IH _ P1) as [E2 P2]. destruct (IH _ P2) as [E3 P3].
    split; [|exact P3]. rewrite E3, E2, E1.
    rewrite !Z.div_div by (try apply Z.pow_pos_nonneg; lia).
    f_equal. rewrite (Pos2Z.inj_xI p).
    replace (2 * Z.pos p + 1) with (1 + Z.pos p + Z.pos p) by lia.
    rewrite !Z.pow_add_r by lia. lia.
  - destruct (IH _ Hm) as [E2 P2]. destruct (IH _ P2) as [E3 P3].
    split; [|exact P3]. rewrite E3, E2.
    rewrite !Z.div_div by (try apply Z.pow_pos_nonneg; lia).
    f_equal. rewrite (Pos2Z.inj_xO p).
    replace (2 * Z.pos p) with (Z.pos p + Z.pos p) by lia.
    rewrite !Z.pow_add_r by lia. lia.
  - apply shr_1_halves. exact Hm.
Qed.


(** One stage of rounding keeps a positive mantissa positive, provided the
    number is not below the smallest subnormal. *)
Lemma shr_fexp_positive M ex l :
  0 < M -> SpecFloat.emin prec emax < Zdigits2 M + ex ->
  0 < shr_m (fst (shr_fexp prec emax M ex l))
  /\ SpecFloat.emin prec emax <= snd (shr_fexp prec emax M ex l).
Proof.
  intros HM Hd. unfold shr_fexp, shr, fexp in *.
  change (SpecFloat.emin prec emax) with (-1074) in *. change prec with 53 in *.
  assert (Hrec : shr_m (shr_record_of_loc M l) = M) by (destruct l as [|[]]; reflexivity).
  destruct M as [|p|p]; try lia. cbn [Zdigits2] in *.
  pose proof (digits2_pos_bounds p) as [Hlo Hhi].
  set (d := Z.pos (digits2_pos p)) in *.
  destruct (Z.max (d + ex - 53) (-1074) - ex) as [|n|n] eqn:En; cbn [fst snd].
  - rewrite Hrec. lia.
  - destruct (iter_shr_1 n (shr_record_of_loc (Z.pos p) l)) as [E _]; [rewrite Hrec; lia|].
    rewrite E, Hrec. split; [|lia].
    apply Z.div_str_pos. split; [apply Z.pow_pos_nonneg; lia|].
    apply Z.le_trans with (2 ^ (d - 1)); [|exact Hlo].
    apply Z.pow_le_mono_r; lia.
  - rewrite Hrec. lia.
Qed.

Lemma round_nearest_even_positive m l : 0 < m -> 0 < round_nearest_even m l.
Proof.
  intros Hm. destruct l as [|[]]; cbn [round_nearest_even]; try lia.
  destruct (Z.even m); lia.
Qed.

Lemma Zdigits2_positive m : 0 < m -> 0 < Zdigits2 m.
Proof. destruct m; cbn; lia. Qed.

(** Rounding a positive mantissa never gives zero or [NaN]. *)
Lemma binary_round_aux_nonzero s M ex l :
  0 < M -> SpecFloat.emin prec emax < Zdigits2 M + ex ->
  SFeqb (binary_round_aux prec emax s M ex l) (S754_zero false) = false.
Proof.
  intros HM Hd. unfold binary_round_aux.
  pose proof (shr_fexp_positive M ex l HM Hd) as [H1 H1e].
  destruct (shr_fexp prec emax M ex l) as [mrs' e']. cbn [fst snd] in *.
  pose proof (round_nearest_even_positive _ (loc_of_shr_record mrs') H1) as H2.
  pose proof (Zdigits2_positive _ H2) as H2d.
  pose proof (shr_fexp_positive _ e' loc_Exact H2 ltac:(lia)) as [H3 _].
  destruct (shr_fexp prec emax _ e' loc_Exact) as [mrs'' e'']. cbn [fst snd] in *.
  destruct (shr_m mrs'') as [|m|m]; try lia.
  destruct (e'' <=? emax - prec); destruct s; reflexivity.
Qed.

Lemma valid_exponent s m e :
  valid_binary (S754_finite s m e) = true -> (-1074 <= e)%Z.
Proof.
  cbn. unfold bounded, canonical_mantissa, fexp.
  change (SpecFloat.emin prec emax) with (-1074)%Z.
  intros H. apply andb_true_iff in H as [H _]. apply Z.eqb_eq in H. lia.
Qed.

(** A number that is neither zero nor [NaN] times four is not zero. *)
Lemma SFmul_four_nonzero x :
  valid_binary x = true ->
  SFeqb x x = true -> SFeqb x (S754_zero false) = false ->
  SFeqb (SF64mul x (S754_finite false 4503599627370496 (-50))) (S754_zero false) = false.
Proof.
  intros Hv Hn Hz. destruct x as [s|s| |s m e]; try discriminate.
  - destruct s; reflexivity.
  - unfold SF64mul, SFmul. apply binary_round_aux_nonzero; [lia|].
    apply valid_exponent in Hv.
    change (SpecFloat.emin prec emax) with (-1074)%Z. cbn [Zdigits2].
    pose proof (digits2_pos_bounds (m * 4503599627370496)) as [_ Hhi].
    assert (52 < Z.pos (digits2_pos (m * 4503599627370496)))%Z; [|lia].
    apply (Z.pow_lt_mono_r_iff 2); [lia|lia|].
    eapply Z.le_lt_trans; [|exact Hhi].
    rewrite Pos2Z.inj_mul. change (2 ^ 52)%Z with 4503599627370496%Z. lia.
Qed.

Lemma product_by_four_nonzero (x : float) :
  PrimFloat.is_zero x = false -> PrimFloat.is_nan x = false ->
  PrimFloat.is_zero (x * 4)%float = false.
Proof.
  unfold PrimFloat.is_zero, PrimFloat.is_nan.
  rewrite !FloatAxioms.eqb_spec, mul_spec. intros Hz Hn.
  apply negb_false_iff in Hn.
  change (Prim2SF 4) with (S754_finite false 4503599627370496 (-50)).
  change (Prim2SF 0) with (S754_zero false) in *.
  apply SFmul_four_nonzero; [apply Prim2SF_valid|exact Hn|exact Hz].
Qed.

End FloatProduct.

(** ** Booking arithmetic *)

Section BookingFacts.

Import Booking.

#[local] Open Scope float_scope.

(** Multiplication of binary64 numbers is commutative. *)
Lemma SFmul_comm prec emax x y : SFmul prec emax x y = SFmul prec emax y x.
Proof.
  destruct x as [sx|sx| |sx mx ex], y as [sy|sy| |sy my ey]; cbn;
    rewrite ?(xorb_comm sy sx); try reflexivity.
  rewrite (Pos.mul_comm my mx), (Z.add_comm ey ex). reflexivity.
Qed.

Lemma float_mul_comm (x y : float) : x * y = y * x.
Proof. apply Prim2SF_inj. rewrite !mul_spec. apply SFmul_comm. Qed.

(** The fallback chain, case by case. *)
Lemma pricePerHour_cases venue :
  (forall x, price_per_hour venue = Js.Val x -> Js.truthy_number x = true ->
             pricePerHour venue = x)
  /\ (Js.truthy_field (price_per_hour venue) = false ->
      forall y, price_per_day venue = Js.Val y -> Js.truthy_number y = true ->
                pricePerHour venue = y)
  /\ (Js.truthy_field (price_per_hour venue) = false ->
      Js.truthy_field (price_per_day venue) = false ->
      pricePerHour venue = 100).
Proof.
  unfold pricePerHour, or_field, or_number.
  split; [|split].
  - intros x -> Hx. cbn. rewrite Hx. cbn. rewrite Hx. reflexivity.
  - intros -> y -> Hy. cbn. rewrite Hy. reflexivity.
  - intros -> Hd. destruct (price_per_day venue) as [| |y]; try reflexivity.
    cbn in Hd. rewrite Hd. reflexivity.
Qed.

(** The price that comes out of the chain is never falsy. *)
Lemma pricePerHour_truthy venue : Js.truthy_number (pricePerHour venue) = true.
Proof.
  unfold pricePerHour, or_field, or_number.
  destruct (price_per_hour venue) as [| |x]; cbn.
  1, 2: destruct (price_per_day venue) as [| |y]; try reflexivity;
        destruct (Js.truthy_number y) eqn:Hy; [exact Hy|reflexivity].
  destruct (Js.truthy_number x) eqn:Hx.
  - cbn. rewrite Hx. exact Hx.
  - destruct (price_per_day venue) as [| |y]; try reflexivity.
    destruct (Js.truthy_number y) eqn:Hy; [exact Hy|reflexivity].
Qed.

(** [nearest] is the rounding [toFixed] asks for: the integer closest to
    [m * 2^e * 10^f], the larger one of two that are equally close. *)
Lemma nearest_spec f m e :
  (0 <= nearest f m e)%Z
  /\ ((0 <= e)%Z -> nearest f m e = (Z.pos m * 10 ^ Z.of_nat f * 2 ^ e)%Z)
  /\ ((e < 0)%Z ->
      (- 2 ^ (- e) < 2 * (nearest f m e * 2 ^ (- e) - Z.pos m * 10 ^ Z.of_nat f)
       <= 2 ^ (- e))%Z).
Proof.
  unfold nearest. set (S := (Z.pos m * 10 ^ Z.of_nat f)%Z).
  assert (HS : (0 < S)%Z).
  { unfold S. apply Z.mul_pos_pos; [lia|]. apply Z.pow_pos_nonneg; lia. }
  destruct (Z.leb_spec 0 e) as [He|He].
  - split; [|split; [reflexivity|lia]].
    pose proof (Z.pow_pos_nonneg 2 e ltac:(lia) He). nia.
  - set (d := (2 ^ (- e))%Z).
    assert (Hd : (0 < d)%Z) by (apply Z.pow_pos_nonneg; lia).
    replace (2 ^ (1 - e))%Z with (2 * d)%Z
      by (unfold d; replace (1 - e)%Z with (Z.succ (- e)) by lia;
          rewrite Z.pow_succ_r by lia; reflexivity).
    pose proof (Z.div_mod (2 * S + d) (2 * d) ltac:(lia)) as Hdm.
    pose proof (Z.mod_pos_bound (2 * S + d) (2 * d) ltac:(lia)) as Hr.
    split; [apply Z.div_pos; lia|].
    split; [lia|]. intros _. lia.
Qed.

(** [toFixed] on a finite, non-zero number below [10^21]. *)
Lemma toFixed_finite f x s m e :
  Prim2SF x = S754_finite s m e -> huge m e = false ->
  toFixed f x
  = Text ((if s then "-" else "") +:+ point f (digits (nearest f m e)))%string.
Proof. intros Hx Hh. unfold toFixed. rewrite Hx, Hh. reflexivity. Qed.

(** [toFixed] on sample numbers, as a JavaScript engine prints them. *)
Lemma toFixed_examples :
  toFixed 2 (100 * 4) = Text "400.00"
  /\ toFixed 2 (100 * 4 * 0.025) = Text "10.00"
  /\ toFixed 2 (100 * 4 * 1.025) = Text "410.00"
  /\ toFixed 2 1.005 = Text "1.00"
  /\ toFixed 2 0.005 = Text "0.01"
  /\ toFixed 2 5.125 = Text "5.13"
  /\ toFixed 2 (-0.001) = Text "-0.00"
  /\ toFixed 2 (-0) = Text "0.00"
  /\ toFixed 2 123456789.125 = Text "123456789.13"
  /\ toFixed 0 2.5 = Text "3"
  /\ toFixed 2 nan = Text "NaN"
  /\ toFixed 2 infinity = Text "Infinity"
  /\ toFixed 2 1e21 = NumberToString 1e21.
Proof. repeat split. Qed.

(** C3. With [P] the effective hourly price (the hourly price, else the
    daily price, else 100), the posted booking has [total_amount = 4 P],
    [service_fee = 4 P 0.025] and [owner_payout = 4 P 0.975], in the
    binary64 arithmetic of JavaScript and with the products taken from left
    to right, and the form shows [4 P 1.025] rounded to two decimals as the
    total estimate: the nearest multiple of 0.01 whenever the product is
    finite, non-zero and below [10^21]. An hourly price of 100 gives
    400, 10 and 390, and a total estimate of [410.00]. *)
Theorem booking_amounts_follow_the_formula venue formData :
  booked_price_per_hour (handleSubmit venue formData) = pricePerHour venue
  /\ total_amount (handleSubmit venue formData) = 4 * pricePerHour venue
  /\ service_fee (handleSubmit venue formData) = 4 * pricePerHour venue * 0.025
  /\ owner_payout (handleSubmit venue formData) = 4 * pricePerHour venue * 0.975
  /\ total_estimate venue = toFixed 2 (4 * pricePerHour venue * 1.025)
  /\ (forall s m e,
       Prim2SF (4 * pricePerHour venue * 1.025) = S754_finite s m e ->
       huge m e = false ->
       total_estimate venue
       = Text ((if s then "-" else "") +:+ point 2 (digits (nearest 2 m e)))%string
       /\ ((0 <= e)%Z -> nearest 2 m e = (Z.pos m * 100 * 2 ^ e)%Z)
       /\ ((e < 0)%Z ->
           (- 2 ^ (- e) < 2 * (nearest 2 m e * 2 ^ (- e) - Z.pos m * 100) <= 2 ^ (- e))%Z))
  /\ (forall x, price_per_hour venue = Js.Val x -> Js.truthy_number x = true ->
                pricePerHour venue = x)
  /\ (Js.truthy_field (price_per_hour venue) = false ->
      forall y, price_per_day venue = Js.Val y -> Js.truthy_number y = true ->
                pricePerHour venue = y)
  /\ (Js.truthy_field (price_per_hour venue) = false ->
      Js.truthy_field (price_per_day venue) = false ->
      pricePerHour venue = 100)
  /\ (price_per_hour venue = Js.Val 100 ->
       total_amount (handleSubmit venue formData) = 400
       /\ service_fee (handleSubmit venue formData) = 10
       /\ owner_payout (handleSubmit venue formData) = 390
       /\ total_estimate venue = Text "410.00").
Proof.
  unfold total_estimate, handleSubmit; cbn [booked_price_per_hour total_amount
    service_fee owner_payout].
  rewrite (float_mul_comm 4 (pricePerHour venue)).
  do 5 (split; [reflexivity|]).
  split.
  { intros s m e Hx Hh. split; [apply (toFixed_finite _ _ _ _ _ Hx Hh)|].
    destruct (nearest_spec 2 m e) as (_ & H1 & H2). split; assumption. }
  do 3 (split; [apply pricePerHour_cases|]).
  intros H100.
  destruct (pricePerHour_cases venue) as (Hp & _).
  rewrite (Hp 100 H100 eq_refl). repeat split.
Qed.

(** C10. A falsy hourly price (0, [-0], [NaN], [null] or a missing field)
    counts as absent: the effective hourly price, the one shown by the venue
    page and the one put in the booking, is then the daily price, and 100
    when the daily price is falsy too. The price used is therefore never 0,
    so that the booking total is never computed as [0 * 4], and the total
    itself is never 0. *)
Theorem falsy_hourly_price_falls_through venue formData :
  Js.truthy_field (price_per_hour venue) = false ->
  (forall y, price_per_day venue = Js.Val y -> Js.truthy_number y = true ->
             pricePerHour venue = y)
  /\ (Js.truthy_field (price_per_day venue) = false -> pricePerHour venue = 100)
  /\ Js.truthy_number (pricePerHour venue) = true
  /\ PrimFloat.is_zero (pricePerHour venue) = false
  /\ starting_price venue = pricePerHour venue
  /\ booked_price_per_hour (handleSubmit venue formData) = pricePerHour venue
  /\ total_amount (handleSubmit venue formData) = pricePerHour venue * 4
  /\ PrimFloat.is_zero (total_amount (handleSubmit venue formData)) = false.
Proof.
  intros Hh. destruct (pricePerHour_cases venue) as (_ & Hd & H100).
  split; [exact (Hd Hh)|]. split; [exact (H100 Hh)|].
  pose proof (pricePerHour_truthy venue) as Ht.
  split; [exact Ht|].
  unfold Js.truthy_number in Ht. apply negb_true_iff, orb_false_iff in Ht.
  destruct Ht as [Hz Hn].
  split; [exact Hz|]. do 3 (split; [reflexivity|]).
  apply product_by_four_nonzero; assumption.
Qed.

(** The values the hypothesis of C10 covers. *)
Lemma falsy_prices :
  Js.truthy_field (Js.Val 0) = false
  /\ Js.truthy_field (Js.Val (-0)) = false
  /\ Js.truthy_field (Js.Val nan) = false
  /\ Js.truthy_field Js.Null = false
  /\ Js.truthy_field Js.Missing = false
  /\ Js.truthy_field (Js.Val 100) = true
  /\ Js.truthy_field (Js.Val (-1)) = true.
Proof. repeat split. Qed.

End BookingFacts.

Lemma falsy_hourly_price_falls_through_witness :
  Booking.pricePerHour (Booking.mkVenue "v-1" "Hall" (Js.Val 0%float) (Js.Val 250%float))
  = 250%float
  /\ Booking.pricePerHour (Booking.mkVenue "v-2" "Barn" (Js.Val 0%float) Js.Null)
     = 100%float
  /\ Booking.total_amount
       (Booking.handleSubmit (Booking.mkVenue "v-2" "Barn" (Js.Val 0%float) Js.Null)
          (Booking.mkFormData "Ann" "ann@example.com" "2026-12-31" "wedding" "80" ""))
     = 400%float.
Proof.
  pose proof (falsy_hourly_price_falls_through
                (Booking.mkVenue "v-1" "Hall" (Js.Val 0%float) (Js.Val 250%float))
                (Booking.mkFormData "Ann" "ann@example.com" "2026-12-31" "wedding" "80" "")
                eq_refl) as (H1 & _).
  pose proof (falsy_hourly_price_falls_through
                (Booking.mkVenue "v-2" "Barn" (Js.Val 0%float) Js.Null)
                (Booking.mkFormData "Ann" "ann@example.com" "2026-12-31" "wedding" "80" "")
                eq_refl) as (_ & H2 & _ & _ & _ & _ & H3 & _).
  split; [apply (H1 250%float); reflexivity|].
  split; [apply H2; reflexivity|].
  rewrite H3, (H2 eq_refl). reflexivity.
Defined.

(** * Further properties of the session manager *)

Section SessionInvariants.

Import Auth.

Variable BACKEND_URL : string.

(** A fulfilled profile fetch in a committed world sets the user and
    nothing else of the session. *)
Lemma handle_fulfilled w data :
  deps w = Some (token w) ->
  Auth.handle BACKEND_URL (ProfileSettled (Fulfilled data)) w
  = setUser (Some data) (set_pending (Nat.pred (pending w)) w).
Proof.
  intros Hd. unfold Auth.handle, Auth.commit.
  cbn [fetchUserInfo_settled setUser set_pending deps token].
  rewrite Hd. rewrite decide_True by reflexivity. reflexivity.
Qed.

(** An event is its handler followed by the commit. *)
Lemma handle_handler e w :
  Auth.handle BACKEND_URL e w = Auth.commit BACKEND_URL (Auth.handler e w).
Proof. destruct e; reflexivity. Qed.

(** In every later commit the effect of the provider finds the header as the
    handler left it: [login] and [logout] write it themselves. *)
Lemma effect_keeps_defaults ls h w e :
  Auth.reachable BACKEND_URL ls h w ->
  defaults (Auth.handle BACKEND_URL e w) = defaults (Auth.handler e w).
Proof.
  intros Hr. pose proof (reachable_deps _ _ _ _ Hr) as Hd.
  destruct e as [td| |[data|err]|m url]; cbn [Auth.handler].
  - rewrite (handle_login _ _ _ Hd).
    destruct (decide _); [reflexivity|].
    destruct (Js.truthy_string _); reflexivity.
  - rewrite handle_logout. reflexivity.
  - rewrite (handle_fulfilled _ _ Hd). reflexivity.
  - rewrite handle_rejected. reflexivity.
  - rewrite (handle_request _ _ _ _ Hd). reflexivity.
Qed.

(** X2. The default [Authorization] header follows the token in memory, but
    only from the first effect of the provider on. While a page loads with
    a persisted token, the token is in memory from the first render, yet the
    requests that the page issues from its own effects leave first and carry
    the headers of the start, without [Authorization]; the profile fetch of
    the provider is the first request with the header. In every state
    between two events after that, a non-empty token is the bearer of the
    header, a header that is set is the bearer of the current token, never
    of an earlier one, and without a token there is no header; a request
    issued then leaves with exactly these headers, and the effect of a later
    commit never changes what the handler before it wrote. *)
Theorem authorization_header_mirrors_token ls h w :
  h !! "Authorization" = None ->
  Auth.reachable BACKEND_URL ls h w ->
  (forall t, token w = Some t -> Js.truthy_string t = true ->
             defaults w !! "Authorization" = Some (Bearer t))
  /\ (forall x, defaults w !! "Authorization" = Some x ->
                exists t, token w = Some t /\ x = Bearer t)
  /\ (token w = None -> defaults w !! "Authorization" = None)
  /\ (forall m url,
        sent (Auth.handle BACKEND_URL (Request m url) w)
        = (sent w ++ [mkRequest m url (defaults w)])%list)
  /\ (forall e, defaults (Auth.handle BACKEND_URL e w) = defaults (Auth.handler e w))
  /\ (forall children t,
        ls !! "token" = Some t -> Js.truthy_string t = true ->
        token (Auth.initial ls h) = Some t
        /\ defaults (Auth.child_effects children (Auth.initial ls h)) = h
        /\ sent (Auth.load BACKEND_URL children ls h)
           = (map (fun r => mkRequest (fst r) (snd r) h) children
              ++ [profile_request BACKEND_URL (<["Authorization" := Bearer t]> h)])%list
        /\ Forall (fun r => req_headers r !! "Authorization" = None)
             (sent (Auth.child_effects children (Auth.initial ls h)))).
Proof.
  intros Hh Hr.
  cut ((forall t, token w = Some t -> Js.truthy_string t = true ->
                  defaults w !! "Authorization" = Some (Bearer t))
       /\ (forall x, defaults w !! "Authorization" = Some x ->
                     exists t, token w = Some t /\ x = Bearer t)
       /\ (token w = None -> defaults w !! "Authorization" = None)).
  { intros (H1 & H2 & H3). do 3 (split; [assumption|]).
    split.
    { intros m url. rewrite (handle_request _ _ _ _ (reachable_deps _ _ _ _ Hr)).
      reflexivity. }
    split; [intros e; apply (effect_keeps_defaults ls h); exact Hr|].
    intros children t Hls Ht.
    split; [exact Hls|].
    rewrite child_effects_spec.
    split; [reflexivity|].
    split; [rewrite (load_truthy _ _ _ _ _ Hls Ht); reflexivity|].
    cbn. apply Forall_map, Forall_forall. intros r _. exact Hh. }
  split; [intros t; apply (reachable_bearer BACKEND_URL ls h w t Hr)|].
  assert (Hmirror : forall x, defaults w !! "Authorization" = Some x ->
                              exists t, token w = Some t /\ x = Bearer t).
  { induction Hr as [children|w e Hw IH He]; intros x Hx.
    - destruct (Js.truthy_nullable (ls !! "token")) eqn:Hp.
      + destruct (ls !! "token") as [t|] eqn:Hls; [|discriminate]. cbn in Hp.
        rewrite (load_truthy BACKEND_URL children ls h t Hls Hp) in *. cbn in *.
        rewrite lookup_insert_eq in Hx. injection Hx as <-. eauto.
      + rewrite (load_falsy BACKEND_URL children ls h Hp) in Hx. cbn in Hx. congruence.
    - pose proof (reachable_deps _ _ _ _ Hw) as Hd.
      destruct e as [td| |[data|err]|m url].
      + exists (access_token td). split.
        * unfold Auth.handle. rewrite commit_token. reflexivity.
        * rewrite (handle_login _ _ _ Hd) in Hx.
          destruct (decide _); [|destruct (Js.truthy_string _)]; cbn in Hx;
            rewrite lookup_insert_eq in Hx; congruence.
      + rewrite handle_logout in Hx. cbn in Hx.
        rewrite lookup_delete_eq in Hx. discriminate.
      + rewrite (handle_fulfilled _ _ Hd) in *. apply IH. exact Hx.
      + rewrite handle_rejected in Hx. cbn in Hx.
        rewrite lookup_delete_eq in Hx. discriminate.
      + rewrite (handle_request _ _ _ _ Hd) in *. apply IH. exact Hx. }
  split; [exact Hmirror|].
  intros Hn. destruct (defaults w !! "Authorization") as [x|] eqn:Hx; [|reflexivity].
  destruct (Hmirror x eq_refl) as (t & Ht & _). congruence.
Qed.

(** X3. [login] and [logout] write the [token] entry of the storage and the
    [Authorization] header and nothing else there: every other entry and
    every other default header stays, and neither issues a request. *)
Theorem login_logout_leave_the_rest w tokenData k :
  (k <> "token" ->
   localStorage (login tokenData w) !! k = localStorage w !! k
   /\ localStorage (logout w) !! k = localStorage w !! k
   /\ localStorage (Auth.handle BACKEND_URL (Login tokenData) w) !! k = localStorage w !! k
   /\ localStorage (Auth.handle BACKEND_URL Logout w) !! k = localStorage w !! k)
  /\ (k <> "Authorization" ->
      defaults (login tokenData w) !! k = defaults w !! k
      /\ defaults (logout w) !! k = defaults w !! k
      /\ defaults (Auth.handle BACKEND_URL (Login tokenData) w) !! k = defaults w !! k
      /\ defaults (Auth.handle BACKEND_URL Logout w) !! k = defaults w !! k)
  /\ sent (login tokenData w) = sent w
  /\ sent (logout w) = sent w.
Proof.
  split; [|split; [|split; reflexivity]].
  - intros Hk. unfold Auth.handle. rewrite !commit_localStorage. cbn.
    rewrite lookup_insert_ne, lookup_delete_ne by congruence. auto.
  - intros Hk.
    assert (Hc : forall v,
               defaults (Auth.commit BACKEND_URL v) !! k = defaults v !! k).
    { intros v. unfold Auth.commit, Auth.effect.
      destruct (deps v) as [d|]; [destruct (decide (d = token v)); [reflexivity|]|];
        cbn [token set_deps]; destruct (token v) as [t|]; try reflexivity;
        (destruct (Js.truthy_string t); [|reflexivity]); cbn;
        apply lookup_insert_ne; congruence. }
    unfold Auth.handle. rewrite !Hc. cbn.
    rewrite lookup_insert_ne, lookup_delete_ne by congruence. auto.
Qed.

(** X4. A profile that arrives after a logout is still stored: the user is set
    although the token is gone, so the session is not authenticated and yet
    the dashboard shows a view instead of the redirect. The logout leaves
    the fetch outstanding, so the late answer can arrive. *)
Theorem late_profile_survives_logout w data :
  pending (Auth.handle BACKEND_URL Logout w) = pending w
  /\ user (Auth.handle BACKEND_URL (ProfileSettled (Fulfilled data))
             (Auth.handle BACKEND_URL Logout w)) = Some data
  /\ token (Auth.handle BACKEND_URL (ProfileSettled (Fulfilled data))
              (Auth.handle BACKEND_URL Logout w)) = None
  /\ Auth.isAuthenticated
       (Auth.handle BACKEND_URL (ProfileSettled (Fulfilled data))
          (Auth.handle BACKEND_URL Logout w)) = false
  /\ Router.Dashboard
       (user (Auth.handle BACKEND_URL (ProfileSettled (Fulfilled data))
                (Auth.handle BACKEND_URL Logout w)))
     = Router.Dashboard (Some data)
  /\ Router.Dashboard (Some data) <> Router.Navigate "/login".
Proof.
  rewrite handle_logout, handle_fulfilled by reflexivity.
  repeat split.
  unfold Router.Dashboard.
  destruct (Js.strict_equals _ _); [discriminate|].
  destruct (Js.strict_equals _ _); discriminate.
Qed.

(** X1. The storage always holds the token of the session: in every state
    the provider can reach, the persisted token is the token in memory, so
    that a reload of the page at any moment starts with the same token, is
    authenticated exactly when the session was, and has no user until the
    profile has been fetched again. *)
Theorem token_survives_reload ls h w h' :
  Auth.reachable BACKEND_URL ls h w ->
  localStorage w !! "token" = token w
  /\ token (Auth.mount BACKEND_URL (localStorage w) h') = token w
  /\ Auth.isAuthenticated (Auth.mount BACKEND_URL (localStorage w) h')
     = Auth.isAuthenticated w
  /\ user (Auth.mount BACKEND_URL (localStorage w) h') = None.
Proof.
  intros Hr. pose proof (reachable_persisted _ _ _ _ Hr) as Hp.
  split; [exact Hp|].
  unfold Auth.isAuthenticated, Auth.mount. rewrite commit_token, commit_user. cbn.
  rewrite Hp. auto.
Qed.

End SessionInvariants.

Lemma token_survives_reload_witness :
  Auth.token
    (Auth.mount Sample.backend
       (Auth.localStorage
          (Auth.handle Sample.backend (Auth.Login Sample.ann_login)
             (Auth.mount Sample.backend ∅ Sample.fresh_headers)))
       Sample.fresh_headers)
  = Some "abc".
Proof.
  destruct (token_survives_reload Sample.backend ∅ Sample.fresh_headers
              (Auth.handle Sample.backend (Auth.Login Sample.ann_login)
                 (Auth.mount Sample.backend ∅ Sample.fresh_headers))
              Sample.fresh_headers
              (Auth.reach_step Sample.backend ∅ Sample.fresh_headers _
                 (Auth.Login Sample.ann_login)
                 (Auth.reach_mount Sample.backend ∅ Sample.fresh_headers []) I))
    as (_ & H & _).
  rewrite H. reflexivity.
Defined.

(** A reload of the home page with a stored token: the list of venues is
    requested without the header, the profile after it with the header; a
    request issued once the page has loaded carries it. *)
Lemma authorization_header_mirrors_token_witness :
  Sample.fresh_headers !! "Authorization" = None
  /\ Auth.sent
       (Auth.load Sample.backend [(Auth.GET, "http://localhost:8001/api/venues")]
          Sample.stored Sample.fresh_headers)
     = [Auth.mkRequest Auth.GET "http://localhost:8001/api/venues" Sample.fresh_headers;
        Auth.mkRequest Auth.GET "http://localhost:8001/api/auth/me"
          (<["Authorization" := "Bearer abc"]> Sample.fresh_headers)]
  /\ Auth.sent
       (Auth.handle Sample.backend
          (Auth.Request Auth.GET "http://localhost:8001/api/venues?")
          (Auth.load Sample.backend [] Sample.stored Sample.fresh_headers))
     = [Auth.mkRequest Auth.GET "http://localhost:8001/api/auth/me"
          (<["Authorization" := "Bearer abc"]> Sample.fresh_headers);
        Auth.mkRequest Auth.GET "http://localhost:8001/api/venues?"
          (<["Authorization" := "Bearer abc"]> Sample.fresh_headers)].
Proof.
  destruct (authorization_header_mirrors_token Sample.backend Sample.stored
              Sample.fresh_headers
              (Auth.load Sample.backend [] Sample.stored Sample.fresh_headers)
              eq_refl
              (Auth.reach_mount Sample.backend Sample.stored Sample.fresh_headers []))
    as (_ & _ & _ & Hreq & _ & Hload).
  destruct (Hload [(Auth.GET, "http://localhost:8001/api/venues")] "abc" eq_refl eq_refl)
    as (_ & _ & Hsent & _).
  split; [reflexivity|].
  split; [rewrite Hsent; reflexivity|].
  rewrite Hreq. reflexivity.
Defined.

(** * The sign-in pages *)

Section PagesFacts.

Import Pages.

Variable BACKEND_URL : string.

Lemma or_value_truthy a s :
  Js.truthy_string s = true -> ToBoolean (or_value a (Scalar (Js.VString s))) = true.
Proof.
  intros Hs. unfold or_value. destruct (ToBoolean a) eqn:Ha; [exact Ha|exact Hs].
Qed.

Lemma fallback_truthy k : Js.truthy_string (fallback k) = true.
Proof. destruct k; reflexivity. Qed.

(** The box of a page whose error is truthy. *)
Lemma error_box_truthy p :
  ToBoolean (error p) = true ->
  error_box p = Some match children (error p) with
                     | Some content => Box content
                     | None => Crash
                     end.
Proof. unfold error_box. intros ->. reflexivity. Qed.

(** X6. A rejected sign-in or registration leaves the session and the route as
    they are and re-enables the form; the error becomes the [detail] of the
    response when that is truthy and the fixed text of the page otherwise
    (no response, no body, no or a falsy [detail]), and the red box is
    there. What the box holds depends on the [detail]: a non-empty string
    is shown as it is, a number as that number, the fixed text when the
    [detail] is falsy; a [detail] that is [true] or an empty list leaves
    the box empty; and a [detail] that is an object, or a list that starts
    with one, as the body of a validation error has it, makes the render
    throw. Submitting again takes the box away and leaves token and user
    alone. *)
Theorem failed_sign_in_keeps_session_and_reports (p : page) (e : api_error) :
  session (handleSubmit_settled BACKEND_URL (Failed e) p) = session p
  /\ location (handleSubmit_settled BACKEND_URL (Failed e) p) = location p
  /\ loading (handleSubmit_settled BACKEND_URL (Failed e) p) = false
  /\ is_Some (error_box (handleSubmit_settled BACKEND_URL (Failed e) p))
  /\ (ToBoolean (detail_of e) = true ->
      error (handleSubmit_settled BACKEND_URL (Failed e) p) = detail_of e)
  /\ (ToBoolean (detail_of e) = false ->
      error (handleSubmit_settled BACKEND_URL (Failed e) p)
      = Scalar (Js.VString (fallback (kind p)))
      /\ error_box (handleSubmit_settled BACKEND_URL (Failed e) p)
         = Some (Box [TextNode (fallback (kind p))]))
  /\ (forall s, detail_of e = Scalar (Js.VString s) -> Js.truthy_string s = true ->
      error_box (handleSubmit_settled BACKEND_URL (Failed e) p) = Some (Box [TextNode s]))
  /\ (forall x, detail_of e = Scalar (Js.VNumber x) -> Js.truthy_number x = true ->
      error_box (handleSubmit_settled BACKEND_URL (Failed e) p) = Some (Box [NumberNode x]))
  /\ (detail_of e = Scalar (Js.VBool true) ->
      error_box (handleSubmit_settled BACKEND_URL (Failed e) p) = Some (Box []))
  /\ (detail_of e = Array [] ->
      error_box (handleSubmit_settled BACKEND_URL (Failed e) p) = Some (Box []))
  /\ (forall members, detail_of e = Object members ->
      error_box (handleSubmit_settled BACKEND_URL (Failed e) p) = Some Crash)
  /\ (forall members items, detail_of e = Array (Object members :: items) ->
      error_box (handleSubmit_settled BACKEND_URL (Failed e) p) = Some Crash)
  /\ error_box (handleSubmit BACKEND_URL p) = None
  /\ loading (handleSubmit BACKEND_URL p) = true
  /\ Auth.token (session (handleSubmit BACKEND_URL p)) = Auth.token (session p)
  /\ Auth.user (session (handleSubmit BACKEND_URL p)) = Auth.user (session p).
Proof.
  assert (Hbox : forall d,
             detail_of e = d -> ToBoolean d = true ->
             error_box (handleSubmit_settled BACKEND_URL (Failed e) p)
             = Some match children d with
                    | Some content => Box content
                    | None => Crash
                    end).
  { intros d Hd Ht.
    assert (He : error (handleSubmit_settled BACKEND_URL (Failed e) p) = d).
    { cbn [handleSubmit_settled error]. unfold or_value. rewrite Hd, Ht. reflexivity. }
    rewrite error_box_truthy; rewrite He; [reflexivity|exact Ht]. }
  do 3 (split; [reflexivity|]).
  split.
  { rewrite error_box_truthy; [eexists; reflexivity|].
    cbn [handleSubmit_settled error]. apply or_value_truthy, fallback_truthy. }
  split; [intros Ht; cbn [handleSubmit_settled error]; unfold or_value; rewrite Ht;
          reflexivity|].
  split.
  { intros Hf.
    assert (He : error (handleSubmit_settled BACKEND_URL (Failed e) p)
                 = Scalar (Js.VString (fallback (kind p)))).
    { cbn [handleSubmit_settled error]. unfold or_value. rewrite Hf. reflexivity. }
    split; [exact He|].
    rewrite error_box_truthy; rewrite He; [reflexivity|apply fallback_truthy]. }
  split; [intros s Hd Hs; rewrite (Hbox _ Hd Hs); reflexivity|].
  split; [intros x Hd Hx; rewrite (Hbox _ Hd Hx); reflexivity|].
  split; [intros Hd; rewrite (Hbox _ Hd eq_refl); reflexivity|].
  split; [intros Hd; rewrite (Hbox _ Hd eq_refl); reflexivity|].
  split; [intros members Hd; rewrite (Hbox _ Hd eq_refl); reflexivity|].
  split; [intros members items Hd; rewrite (Hbox _ Hd eq_refl); reflexivity|].
  do 2 (split; [reflexivity|]).
  cbn [handleSubmit session]. unfold Auth.handle.
  rewrite commit_token, commit_user. split; reflexivity.
Qed.

(** X5. A successful sign-in or registration goes to [/dashboard], where the
    view of the role in the response is shown at once, from the payload and
    before the profile has been fetched; if that follow-up fetch is
    rejected, the dashboard turns into the redirect to [/login]. *)
Theorem sign_in_shows_dashboard_from_payload (p : page) (data : Auth.TokenData)
    (err : Auth.failure) :
  location (handleSubmit_settled BACKEND_URL (Succeeded data) p) = "/dashboard"
  /\ loading (handleSubmit_settled BACKEND_URL (Succeeded data) p) = false
  /\ Router.Dashboard
       (Auth.user (session (handleSubmit_settled BACKEND_URL (Succeeded data) p)))
     = Router.Dashboard (Some (Auth.td_user data))
  /\ Router.Dashboard (Some (Auth.td_user data)) <> Router.Navigate "/login"
  /\ Router.Dashboard
       (Auth.user
          (Auth.handle BACKEND_URL (Auth.ProfileSettled (Auth.Rejected err))
             (session (handleSubmit_settled BACKEND_URL (Succeeded data) p))))
     = Router.Navigate "/login".
Proof.
  cbn [handleSubmit_settled session location loading].
  do 2 (split; [reflexivity|]).
  split; [unfold Auth.handle; rewrite commit_user; reflexivity|].
  split.
  { unfold Router.Dashboard.
    destruct (Js.strict_equals _ _); [discriminate|].
    destruct (Js.strict_equals _ _); discriminate. }
  rewrite handle_rejected. reflexivity.
Qed.

End PagesFacts.

(** The answers of the API to a failed sign-in: a wrong password, with a
    text as [detail], and a malformed address, with a list of validation
    errors. *)
Lemma sign_in_error_boxes :
  Pages.error_box
    (Pages.handleSubmit_settled Sample.backend
       (Pages.Failed (Pages.ErrorResponse 401
                        (Pages.Scalar (Js.VString "Incorrect email or password"))))
       (Pages.handleSubmit Sample.backend
          (Pages.open_page Pages.LoginPage "/login" (Auth.mount Sample.backend ∅ ∅))))
  = Some (Pages.Box [Pages.TextNode "Incorrect email or password"])
  /\ Pages.error_box
       (Pages.handleSubmit_settled Sample.backend
          (Pages.Failed
             (Pages.ErrorResponse 422
                (Pages.Array
                   [Pages.Object
                      [("loc", Pages.Array [Pages.Scalar (Js.VString "body");
                                            Pages.Scalar (Js.VString "email")]);
                       ("msg", Pages.Scalar (Js.VString "value is not a valid email address"));
                       ("type", Pages.Scalar (Js.VString "value_error"))]])))
          (Pages.handleSubmit Sample.backend
             (Pages.open_page Pages.RegisterPage "/register" (Auth.mount Sample.backend ∅ ∅))))
     = Some Pages.Crash
  /\ Pages.error_box
       (Pages.handleSubmit_settled Sample.backend (Pages.Failed Pages.NoResponse)
          (Pages.handleSubmit Sample.backend
             (Pages.open_page Pages.RegisterPage "/register" (Auth.mount Sample.backend ∅ ∅))))
     = Some (Pages.Box [Pages.TextNode "Registration failed"])
  /\ Pages.error_box
       (Pages.handleSubmit_settled Sample.backend
          (Pages.Failed (Pages.ErrorResponse 500
                           (Pages.Array [Pages.Scalar (Js.VString "a");
                                         Pages.Array [Pages.Scalar (Js.VString "b")]])))
          (Pages.open_page Pages.LoginPage "/login" (Auth.mount Sample.backend ∅ ∅)))
     = Some (Pages.Box [Pages.TextNode "a"; Pages.TextNode "b"]).
Proof. repeat split. Qed.

(** * The search of the home page and the filters of the list *)

Section SearchFacts.

Import Query.

(** X7. [handleSearch] navigates to the path [/venues] with a query that holds
    exactly the non-empty ones of [location] and [event_type], in this
    order: parsing the query gives those pairs back and nothing else. *)
Theorem home_search_query_has_the_nonempty_fields (searchLocation eventType : string) :
  handleSearch searchLocation eventType
  = "/venues?" +:+
    toString (filter (fun entry => Js.truthy_string (snd entry) = true)
                [("location", searchLocation); ("event_type", eventType)])
  /\ cut "?" (handleSearch searchLocation eventType)
     = ("/venues",
        Some (toString
                (filter (fun entry => Js.truthy_string (snd entry) = true)
                   [("location", searchLocation); ("event_type", eventType)])))
  /\ parse (toString
              (filter (fun entry => Js.truthy_string (snd entry) = true)
                 [("location", searchLocation); ("event_type", eventType)]))
     = filter (fun entry => Js.truthy_string (snd entry) = true)
         [("location", searchLocation); ("event_type", eventType)].
Proof.
  split; [|split; [|apply parse_toString]].
  - unfold handleSearch.
    destruct searchLocation, eventType; reflexivity.
  - unfold handleSearch.
    destruct searchLocation, eventType; reflexivity.
Qed.

Lemma replace_other key value o k v :
  k <> key -> ((k, v) ∈ replace key value o <-> (k, v) ∈ o).
Proof.
  intros Hk. induction o as [|[k0 v0] o IH]; cbn [replace]; [reflexivity|].
  destruct (String.eqb k0 key) eqn:E.
  - apply String.eqb_eq in E as ->.
    rewrite !elem_of_cons. split; intros [H|H]; auto; congruence.
  - rewrite !elem_of_cons, IH. reflexivity.
Qed.

(** Where a new array index goes: after the entries it passes, which are
    smaller indices, and before an entry that is a name or an index that is
    not smaller. *)
Lemma insert_index_split n key value o :
  exists before after,
    o = (before ++ after)%list
    /\ insert_index n key value o = (before ++ (key, value) :: after)%list
    /\ Forall (fun entry => exists m, array_index (fst entry) = Some m /\ (m < n)%N) before
    /\ match after with
       | [] => True
       | entry :: _ => forall m, array_index (fst entry) = Some m -> (n <= m)%N
       end.
Proof.
  induction o as [|[k v] o (before & after & Ho & Hi & Hb & Ha)]; cbn [insert_index].
  - exists [], []. repeat split; constructor.
  - destruct (array_index k) as [m|] eqn:Ek.
    + destruct (N.ltb_spec m n) as [Hlt|Hge].
      * exists ((k, v) :: before), after. rewrite Ho at 1. rewrite Hi.
        repeat split; [|exact Ha].
        apply Forall_cons. split; [cbn; eauto|exact Hb].
      * exists [], ((k, v) :: o). repeat split; [constructor|].
        cbn. intros m' Hm'. congruence.
    + exists [], ((k, v) :: o). repeat split; [constructor|].
      cbn. intros m' Hm'. congruence.
Qed.

(** Before names only, a new array index goes first. *)
Lemma insert_index_names n key value o :
  Forall (fun entry => array_index (fst entry) = None) o ->
  insert_index n key value o = (key, value) :: o.
Proof.
  destruct o as [|[k v] o]; cbn [insert_index]; [reflexivity|].
  intros H. apply Forall_cons in H as [H _]. cbn [fst] in H. rewrite H. reflexivity.
Qed.

Lemma assign_other key value o k v :
  k <> key -> ((k, v) ∈ assign key value o <-> (k, v) ∈ o).
Proof.
  intros Hk. unfold assign. destruct (has key o); [apply replace_other, Hk|].
  destruct (array_index key) as [n|].
  - destruct (insert_index_split n key value o) as (before & after & Ho & -> & _).
    rewrite Ho. rewrite !elem_of_app, elem_of_cons.
    split; [intros [H|[H|H]]|intros [H|H]]; auto. congruence.
  - rewrite elem_of_app, list_elem_of_singleton. split; [intros [H|H]|]; auto.
    congruence.
Qed.

Lemma assign_fresh key value o :
  key ∉ map fst o -> array_index key = None ->
  assign key value o = (o ++ [(key, value)])%list.
Proof. intros Hn Hk. rewrite (assign_absent _ _ _ Hn), Hk. reflexivity. Qed.

Lemma key_of_entry (k v : string) (o : object) : (k, v) ∈ o -> k ∈ map fst o.
Proof.
  intros H. apply list_elem_of_In, in_map_iff.
  exists (k, v). split; [reflexivity|]. apply list_elem_of_In, H.
Qed.

Lemma assign_unique key value o v :
  NoDup (map fst o) -> (key, v) ∈ assign key value o -> v = value.
Proof.
  intros Hnd Hin. destruct (decide (key ∈ map fst o)) as [Hk|Hk].
  - rewrite (assign_present _ _ _ Hk) in Hin. clear Hk.
    induction o as [|[k0 v0] o IH]; cbn [replace map fst] in *; [inversion Hin|].
    apply NoDup_cons in Hnd as [Hk0 Hnd].
    destruct (String.eqb k0 key) eqn:E.
    + apply String.eqb_eq in E as ->.
      apply elem_of_cons in Hin as [Hin|Hin]; [congruence|].
      exfalso. apply Hk0. apply (key_of_entry _ _ _ Hin).
    + apply elem_of_cons in Hin as [Hin|Hin]; [|apply IH; assumption].
      injection Hin as -> _. rewrite String.eqb_refl in E. discriminate.
  - assert (Hnot : (key, v) ∉ o) by (intros H; apply Hk, (key_of_entry _ _ _ H)).
    rewrite (assign_absent _ _ _ Hk) in Hin.
    destruct (array_index key) as [n|].
    + destruct (insert_index_split n key value o) as (before & after & Ho & Hi & _).
      rewrite Hi in Hin. rewrite Ho in Hnot.
      rewrite elem_of_app, elem_of_cons in Hin. rewrite elem_of_app in Hnot.
      destruct Hin as [H|[H|H]]; [tauto|congruence|tauto].
    + rewrite elem_of_app, list_elem_of_singleton in Hin.
      destruct Hin as [H|H]; [tauto|congruence].
Qed.

(** X8. [handleFilterChange] changes one entry of the filters: afterwards the
    key holds the new value (and no other, the keys being unique) and every
    other entry is as before. A key the object has keeps its place, so the
    keys keep their order; this is the case of every input of the page,
    whose filters keep their five keys. A key the object lacks is added at
    the end when it is a name, and after the smaller array indices, before
    every name, when it is an array index. *)
Theorem filter_change_updates_one_entry (key value : string) (prev : object) :
  (key, value) ∈ handleFilterChange key value prev
  /\ (forall k v, k <> key ->
        ((k, v) ∈ handleFilterChange key value prev <-> (k, v) ∈ prev))
  /\ (key ∈ map fst prev ->
      map fst (handleFilterChange key value prev) = map fst prev)
  /\ (filters_state prev -> key ∈ filter_keys ->
      map fst (handleFilterChange key value prev) = filter_keys)
  /\ (key ∉ map fst prev -> array_index key = None ->
      handleFilterChange key value prev = (prev ++ [(key, value)])%list)
  /\ (key ∉ map fst prev -> forall n, array_index key = Some n ->
      exists before after,
        prev = (before ++ after)%list
        /\ handleFilterChange key value prev = (before ++ (key, value) :: after)%list
        /\ Forall (fun entry => exists m, array_index (fst entry) = Some m /\ (m < n)%N)
             before
        /\ match after with
           | [] => True
           | entry :: _ => forall m, array_index (fst entry) = Some m -> (n <= m)%N
           end)
  /\ (key ∉ map fst prev -> is_Some (array_index key) ->
      Forall (fun entry => array_index (fst entry) = None) prev ->
      handleFilterChange key value prev = (key, value) :: prev)
  /\ (NoDup (map fst prev) ->
      forall v, (key, v) ∈ handleFilterChange key value prev -> v = value).
Proof.
  unfold handleFilterChange.
  split.
  { destruct (decide (key ∈ map fst prev)) as [Hin|Hn].
    - apply assign_lookup. exact Hin.
    - rewrite (assign_absent _ _ _ Hn). destruct (array_index key) as [n|].
      + destruct (insert_index_split n key value prev) as (before & after & _ & -> & _).
        apply elem_of_app. right. apply list_elem_of_here.
      + apply elem_of_app. right. apply list_elem_of_here. }
  split; [intros k v Hk; apply assign_other; exact Hk|].
  split; [apply assign_keys|].
  split.
  { intros Hs Hk. apply filters_state_keys.
    apply (filters_changed key value prev Hs Hk). }
  split; [apply assign_fresh|].
  split.
  { intros Hn n Hk. rewrite (assign_absent _ _ _ Hn), Hk. apply insert_index_split. }
  split.
  { intros Hn [n Hk] Hnames. rewrite (assign_absent _ _ _ Hn), Hk.
    apply insert_index_names, Hnames. }
  intros Hnd v. apply assign_unique. exact Hnd.
Qed.

End SearchFacts.

(** A key such as [0] is an array index, [00], [-1] and [location] are
    names: added to filters that hold names, the index is enumerated first,
    and so comes first in the query. *)
Lemma array_index_goes_first :
  Query.array_index "0" = Some 0%N
  /\ Query.array_index "4294967294" = Some 4294967294%N
  /\ Query.array_index "4294967295" = None
  /\ Query.array_index "00" = None
  /\ Query.array_index "-1" = None
  /\ Query.array_index "location" = None
  /\ Query.handleFilterChange "0" "x" [("location", "Austin")]
     = [("0", "x"); ("location", "Austin")]
  /\ Query.handleFilterChange "2" "z"
       (Query.handleFilterChange "10" "y"
          (Query.handleFilterChange "0" "x" [("location", "Austin")]))
     = [("0", "x"); ("2", "z"); ("10", "y"); ("location", "Austin")]
  /\ Query.fetchVenues_query
       (Query.handleFilterChange "0" "x" [("location", "Austin")])
     = "0=x&location=Austin"
  /\ Query.handleFilterChange "sort" "price" [("location", "Austin")]
     = [("location", "Austin"); ("sort", "price")].
Proof. repeat split. Qed.

(** * The venue list *)

Section ListingFacts.

Import Listing.

Variable BACKEND_URL : string.

(** The filter bar cannot fill [min_capacity]: the query of such filters
    never names it. *)
Lemma no_min_capacity_in_query (location event_type min_price max_price v : string) :
  ("min_capacity", v)
  ∉ Query.parse (Query.fetchVenues_query
                   (Query.filters_of location event_type min_price max_price "")).
Proof.
  unfold Query.fetchVenues_query. rewrite parse_toString, fetchVenues_params_filter.
  rewrite list_elem_of_filter. intros [Hv Hin]. cbn [snd] in Hv.
  unfold Query.filters_of in Hin.
  repeat (apply elem_of_cons in Hin as [Hin|Hin]; [try discriminate|]).
  - injection Hin as ->. discriminate.
  - inversion Hin.
Qed.

Lemma list_invariant_handle e s :
  list_invariant BACKEND_URL s -> list_invariant BACKEND_URL (handle BACKEND_URL e s).
Proof.
  intros [(l & et & p & q & Hf) Hreq].
  destruct e as [i value| |[data|err]]; cbn [handle fetchVenues]; split;
    cbn [filters requested]; eauto 6.
  - rewrite Hf. destruct i; cbn; eauto 6.
  - apply Forall_app. split; [exact Hreq|].
    apply Forall_cons. split; [|constructor]. rewrite Hf. eauto 6.
Qed.

Lemma list_invariant_run es s :
  list_invariant BACKEND_URL s -> list_invariant BACKEND_URL (run BACKEND_URL es s).
Proof.
  revert s. induction es as [|e es IH]; intros s Hs; [exact Hs|].
  apply IH, list_invariant_handle, Hs.
Qed.

(** X9. Whatever is typed and applied, the list never sends [min_capacity]:
    every URL it requests is the venues URL of filters whose [min_capacity]
    is empty, so that no parsed query has that key. The first request, on
    mount, is the unfiltered one. *)
Theorem venue_list_never_sends_min_capacity (es : list event) :
  Forall
    (fun url =>
       exists location event_type min_price max_price,
         url = Query.fetchVenues_url BACKEND_URL
                 (Query.filters_of location event_type min_price max_price "")
         /\ forall v,
              ("min_capacity", v)
              ∉ Query.parse (Query.fetchVenues_query
                               (Query.filters_of location event_type min_price max_price "")))
    (requested (run BACKEND_URL es (mount BACKEND_URL)))
  /\ requested (mount BACKEND_URL) = [Auth.API BACKEND_URL +:+ "/venues?"].
Proof.
  split; [|reflexivity].
  assert (Hm : list_invariant BACKEND_URL (mount BACKEND_URL)).
  { split; cbn.
    - exists "", "", "", "". reflexivity.
    - apply Forall_cons. split; [|constructor]. exists "", "", "", "". reflexivity. }
  destruct (list_invariant_run es _ Hm) as [_ Hreq].
  eapply Forall_impl; [exact Hreq|].
  intros url (l & et & p & q & ->). exists l, et, p, q.
  split; [reflexivity|]. intros v. apply no_min_capacity_in_query.
Qed.

(** X10. A rejected fetch is shown like a response that repeats the list on the
    page: the spinner goes away, the venues stay, and on the first load the
    page reads "No venues found", as it does for an empty result. *)
Theorem failed_venue_fetch_looks_like_the_old_list (s : state) (err : Auth.failure) :
  venues (handle BACKEND_URL (Settled (Auth.Rejected err)) s) = venues s
  /\ render (handle BACKEND_URL (Settled (Auth.Rejected err)) s)
     = render (handle BACKEND_URL (Settled (Auth.Fulfilled (venues s))) s)
  /\ render (handle BACKEND_URL (Settled (Auth.Rejected err)) s) <> Spinner
  /\ render (handle BACKEND_URL (Settled (Auth.Rejected err)) (mount BACKEND_URL))
     = Grid [] true
  /\ render (handle BACKEND_URL ApplyFilters
               (handle BACKEND_URL (Settled (Auth.Rejected err)) s)) = Spinner.
Proof. repeat split. discriminate. Qed.

End ListingFacts.

(** * The venue page *)

Section DetailFacts.

Import Detail.

Variable BACKEND_URL : string.

Lemma run_app es1 es2 s :
  run BACKEND_URL (es1 ++ es2) s = run BACKEND_URL es2 (run BACKEND_URL es1 s).
Proof. unfold run. apply fold_left_app. Qed.

Lemma run_cons e es s :
  run BACKEND_URL (e :: es) s = run BACKEND_URL es (handle BACKEND_URL e s).
Proof. reflexivity. Qed.

(** Once a response has arrived the spinner never comes back. *)
Lemma settled_stays es s :
  loading s = false -> loading (run BACKEND_URL es s) = false.
Proof.
  revert s. induction es as [|e es IH]; intros s Hs; [exact Hs|].
  apply IH. destruct e as [i|[data|err]| |]; cbn [handle loading]; try exact Hs;
    try reflexivity.
  destruct (String.eqb i (id s)); exact Hs.
Qed.

Lemma not_found_stays es s :
  loading s = false -> error s = "Venue not found" ->
  loading (run BACKEND_URL es s) = false
  /\ error (run BACKEND_URL es s) = "Venue not found".
Proof.
  revert s. induction es as [|e es IH]; intros s Hl He; [auto|].
  apply IH; destruct e as [i|[data|err]| |]; cbn [handle loading error];
    try assumption; try reflexivity;
    destruct (String.eqb i (id s)); assumption.
Qed.

(** X11. The error of the venue page is never cleared: after one rejected fetch
    the page shows "Venue not found" for good, whatever happens next, a
    later fetch that succeeds for another [id] included. *)
Theorem venue_page_error_is_sticky (id0 : string) (es1 es2 : list event)
    (err : Auth.failure) :
  render (run BACKEND_URL (es1 ++ Settled (Auth.Rejected err) :: es2)
            (mount BACKEND_URL id0))
  = NotFound "Venue not found".
Proof.
  rewrite run_app, run_cons.
  destruct (not_found_stays es2
              (handle BACKEND_URL (Settled (Auth.Rejected err))
                 (run BACKEND_URL es1 (mount BACKEND_URL id0)))
              eq_refl eq_refl) as [Hl He].
  unfold render. rewrite Hl, He.
  destruct (venue _); reflexivity.
Qed.

Lemma unsettled_run es s :
  Forall not_settled es ->
  loading (run BACKEND_URL es s) = loading s
  /\ venue (run BACKEND_URL es s) = venue s
  /\ error (run BACKEND_URL es s) = error s.
Proof.
  revert s. induction es as [|e es IH]; intros s Hes; [auto|].
  apply Forall_cons in Hes as [He Hes].
  destruct (IH (handle BACKEND_URL e s) Hes) as (Hl & Hv & Her).
  rewrite run_cons, Hl, Hv, Her.
  destruct e as [i|r| |]; cbn [not_settled] in He; try contradiction;
    cbn [handle]; try (destruct (String.eqb i (id s))); auto.
Qed.

Lemma unrejected_run es s :
  Forall not_rejected es -> error s = "" -> error (run BACKEND_URL es s) = "".
Proof.
  revert s. induction es as [|e es IH]; intros s Hes Hs; [exact Hs|].
  apply Forall_cons in Hes as [He Hes].
  apply IH; [exact Hes|].
  destruct e as [i|[data|err]| |]; cbn [not_rejected] in He; try contradiction;
    cbn [handle error]; try exact Hs.
  destruct (String.eqb i (id s)); exact Hs.
Qed.

(** X12. The venue page shows the spinner exactly until the first response: no
    later fetch brings it back. While no fetch has been rejected, the page
    then shows the venue of the latest fulfilled response, also after the
    [id] of the route has changed and the fetch for the new [id] is still
    under way. *)
Theorem venue_page_shows_latest_answer (id0 : string) (es1 es2 : list event)
    (data : Booking.Venue) :
  Forall not_rejected es1 -> Forall not_settled es2 ->
  render (run BACKEND_URL es2 (mount BACKEND_URL id0)) = Loading
  /\ (forall r es, render (run BACKEND_URL (es1 ++ Settled r :: es)
                             (mount BACKEND_URL id0)) <> Loading)
  /\ exists booking_form,
       render (run BACKEND_URL (es1 ++ Settled (Auth.Fulfilled data) :: es2)
                 (mount BACKEND_URL id0))
       = Details data booking_form.
Proof.
  intros H1 H2. split; [|split].
  - destruct (unsettled_run es2 (mount BACKEND_URL id0) H2) as (Hl & _ & _).
    unfold render. rewrite Hl. reflexivity.
  - intros r es. rewrite run_app, run_cons.
    unfold render.
    rewrite (settled_stays es)
      by (destruct r; reflexivity).
    destruct (venue _); [destruct (Js.truthy_string _)|]; discriminate.
  - rewrite run_app, run_cons.
    set (s1 := run BACKEND_URL es1 (mount BACKEND_URL id0)).
    assert (He1 : error s1 = "") by (apply unrejected_run; [exact H1|reflexivity]).
    destruct (unsettled_run es2 (handle BACKEND_URL (Settled (Auth.Fulfilled data)) s1) H2)
      as (Hl & Hv & Her).
    unfold render. rewrite Hl, Hv, Her. cbn [handle loading venue error].
    rewrite He1. cbn. eauto.
Qed.

End DetailFacts.

Lemma venue_page_shows_latest_answer_witness :
  exists booking_form,
    Detail.render
      (Detail.run Sample.backend
         [Detail.Settled (Auth.Fulfilled
                            (Booking.mkVenue "v-1" "Hall" (Js.Val 100%float) Js.Missing));
          Detail.RouteId "v-2"]
         (Detail.mount Sample.backend "v-1"))
    = Detail.Details (Booking.mkVenue "v-1" "Hall" (Js.Val 100%float) Js.Missing)
        booking_form
    /\ Detail.id
         (Detail.run Sample.backend
            [Detail.Settled (Auth.Fulfilled
                               (Booking.mkVenue "v-1" "Hall" (Js.Val 100%float) Js.Missing));
             Detail.RouteId "v-2"]
            (Detail.mount Sample.backend "v-1")) = "v-2".
Proof.
  destruct (venue_page_shows_latest_answer Sample.backend "v-1" [] [Detail.RouteId "v-2"]
              (Booking.mkVenue "v-1" "Hall" (Js.Val 100%float) Js.Missing))
    as (_ & _ & b & Hb).
  - constructor.
  - repeat constructor.
  - exists b. split; [exact Hb|reflexivity].
Defined.

(** * What the cards and the venue page show for missing data *)

Section DisplayFacts.

#[local] Arguments String.append !s1 s2 : simpl nomatch.

Lemma or_number_spec (a : Js.field float) (d : float) :
  Js.truthy_number d = true ->
  Js.truthy_number (Booking.or_number a d) = true
  /\ (forall x, a = Js.Val x -> Js.truthy_number x = true -> Booking.or_number a d = x)
  /\ (Js.truthy_field a = false -> Booking.or_number a d = d).
Proof.
  intros Hd. unfold Booking.or_number.
  destruct a as [| |x]; cbn [Js.truthy_field].
  1, 2: split; [exact Hd|split; [discriminate|reflexivity]].
  destruct (Js.truthy_number x) eqn:Hx.
  - split; [exact Hx|]. split; [congruence|discriminate].
  - split; [exact Hd|]. split; [|reflexivity]. intros y [= <-]. congruence.
Qed.

(** X14. A card never shows a falsy rating or review count: a rating of 0 (or
    [NaN], [null], none) is shown as 4.5 and a review count of 0 as 12; a
    truthy value is shown as it is. The venue page shows a capacity of 0 as
    "Contact for details". *)
Theorem cards_replace_falsy_numbers (rating total_reviews capacity : Js.field float) :
  Js.truthy_number (Listing.rating_shown rating) = true
  /\ (forall x, rating = Js.Val x -> Js.truthy_number x = true ->
                Listing.rating_shown rating = x)
  /\ (Js.truthy_field rating = false -> Listing.rating_shown rating = 4.5%float)
  /\ Js.truthy_number (Listing.reviews_shown total_reviews) = true
  /\ (forall x, total_reviews = Js.Val x -> Js.truthy_number x = true ->
                Listing.reviews_shown total_reviews = x)
  /\ (Js.truthy_field total_reviews = false ->
      Listing.reviews_shown total_reviews = 12%float)
  /\ (forall x, capacity = Js.Val x -> Js.truthy_number x = true ->
                Detail.capacity_label capacity = inl x)
  /\ (Js.truthy_field capacity = false ->
      Detail.capacity_label capacity = inr "Contact for details").
Proof.
  destruct (or_number_spec rating 4.5%float eq_refl) as (R1 & R2 & R3).
  destruct (or_number_spec total_reviews 12%float eq_refl) as (T1 & T2 & T3).
  do 6 (split; [assumption|]).
  unfold Detail.capacity_label. split.
  - intros x -> Hx. rewrite Hx. reflexivity.
  - destruct capacity as [| |x]; cbn; try reflexivity. intros ->. reflexivity.
Qed.

Lemma concat_empty (l : list string) :
  String.concat ", " l = "" <-> l = [] \/ l = [""].
Proof.
  split.
  - destruct l as [|x [|y l]]; cbn [String.concat]; intros H; [auto|subst; auto|].
    destruct x; cbn in H; discriminate.
  - intros [->| ->]; reflexivity.
Qed.

(** X15. The venue page lists the event types joined by [", "], and reads "All
    events" exactly when there is nothing to show: the field is missing or
    [null], the list is empty, or its only element is the empty string. *)
Theorem event_types_label_falls_back (event_types : Js.field (list string)) :
  (forall l, event_types = Js.Val l -> l <> [] -> l <> [""] ->
             Detail.event_types_label event_types = String.concat ", " l
             /\ Detail.event_types_label event_types <> "")
  /\ (event_types = Js.Missing \/ event_types = Js.Null
      \/ event_types = Js.Val [] \/ event_types = Js.Val [""] ->
      Detail.event_types_label event_types = "All events").
Proof.
  split.
  - intros l -> H1 H2. unfold Detail.event_types_label.
    destruct (String.concat ", " l) eqn:E.
    + apply concat_empty in E. tauto.
    + cbn. split; [reflexivity|discriminate].
  - intros [->|[->|[->| ->]]]; reflexivity.
Qed.

End DisplayFacts.

(** * The dashboards *)

Section DashboardFacts.

Import Dashboards.

Variable timeValue : Js.value -> option Z.
Variable clock : nat -> Z.

Lemma stat_not_nan {D : Type} (field : D -> Js.field float) (data : option D) :
  PrimFloat.is_nan (stat field data) = false.
Proof.
  unfold stat, Booking.or_number.
  destruct (match data with Some d => field d | None => Js.Missing end) as [| |x];
    try reflexivity.
  destruct (Js.truthy_number x) eqn:Hx; [|reflexivity].
  unfold Js.truthy_number in Hx. apply negb_true_iff, orb_false_iff in Hx. tauto.
Qed.

(** X19. The status badge is green for the status ['paid'] and for nothing else:
    any other string, also in another case, and a missing status give the
    yellow badge. *)
Theorem only_paid_is_green (payment_status : Js.value) :
  (payment_badge payment_status = "bg-green-100 text-green-800"
   <-> payment_status = Js.VString "paid")
  /\ (payment_status <> Js.VString "paid" ->
      payment_badge payment_status = "bg-yellow-100 text-yellow-800").
Proof.
  unfold payment_badge.
  destruct (Js.strict_equals payment_status (Js.VString "paid")) eqn:E.
  - apply strict_equals_string in E. split; [tauto|congruence].
  - split; [|reflexivity]. split; [discriminate|].
    intros H. apply strict_equals_string in H. congruence.
Qed.

(** X16. A user dashboard whose fetch is rejected is not an error page: it shows
    the counters 0, 0 and 0 and an empty table, exactly what it shows for an
    account without any booking. *)
Theorem failed_user_dashboard_shows_zeros (err : Auth.failure) :
  UserDashboard timeValue clock (settled (Auth.Rejected err) mount)
  = UserPage 0 0 0 []
  /\ UserDashboard timeValue clock (settled (Auth.Rejected err) mount)
     = UserDashboard timeValue clock
         (settled (Auth.Fulfilled (mkUserData (Js.Val 0%float) (Js.Val 0%float) (Js.Val [])))
            mount)
  /\ UserDashboard timeValue clock (settled (Auth.Rejected err) mount)
     = UserDashboard timeValue clock
         (settled (Auth.Fulfilled (mkUserData Js.Missing Js.Missing Js.Missing)) mount).
Proof. repeat split. Qed.

Lemma upcoming_from_spec k l :
  sublist (upcoming_from timeValue clock k l) l
  /\ Forall (fun b => exists t, timeValue (ub_event_date b) = Some t)
       (upcoming_from timeValue clock k l).
Proof.
  revert k. induction l as [|b l IH]; intros k; cbn [upcoming_from].
  - split; constructor.
  - destruct (IH (S k)) as [Hs Hf].
    destruct (is_upcoming timeValue (clock k) b) eqn:E.
    + split; [apply sublist_skip, Hs|]. apply Forall_cons. split; [|exact Hf].
      unfold is_upcoming in E. destruct (timeValue (ub_event_date b)); [eauto|discriminate].
    + split; [apply sublist_cons, Hs|exact Hf].
Qed.

Lemma is_upcoming_spec now b :
  is_upcoming timeValue now b = true
  <-> exists t, timeValue (ub_event_date b) = Some t /\ (now < t)%Z.
Proof.
  unfold is_upcoming. destruct (timeValue (ub_event_date b)) as [t|].
  - rewrite Z.ltb_lt. split; [eauto|]. intros (t' & Ht & Hlt). congruence.
  - split; [discriminate|]. intros (t' & Ht & _). discriminate.
Qed.

Lemma sorted_map_S (l : list nat) :
  StronglySorted lt l -> StronglySorted lt (map S l).
Proof.
  induction 1 as [|i l Hs IH Hi]; cbn [map]; constructor; [exact IH|].
  apply Forall_map. eapply Forall_impl; [exact Hi|]. cbn. lia.
Qed.

(** The bookings that [filter] keeps are those at the positions where the
    date is valid and later than the clock read for that position. *)
Lemma upcoming_from_positions k l :
  exists positions : list nat,
    StronglySorted lt positions
    /\ (forall i, i ∈ positions
                  <-> exists b t, l !! i = Some b
                                  /\ timeValue (ub_event_date b) = Some t
                                  /\ (clock (k + i) < t)%Z)
    /\ Forall2 (fun b i => l !! i = Some b) (upcoming_from timeValue clock k l) positions.
Proof.
  revert k. induction l as [|b l IH]; intros k; cbn [upcoming_from].
  - exists []. split; [constructor|]. split; [|constructor].
    intros i. split; [inversion 1|]. intros (b & t & Hb & _). discriminate.
  - destruct (IH (S k)) as (ps & Hsorted & Hmem & Hall).
    assert (Htail : forall i, S i ∈ map S ps
                              <-> exists b0 t, (b :: l) !! S i = Some b0
                                               /\ timeValue (ub_event_date b0) = Some t
                                               /\ (clock (k + S i) < t)%Z).
    { intros i. rewrite Nat.add_succ_r. cbn [lookup list_lookup].
      rewrite <- (Hmem i). rewrite list_elem_of_fmap. split.
      - intros (j & Hj & Hin). injection Hj as ->. exact Hin.
      - intros Hin. exists i. auto. }
    assert (Hzero : 0 ∉ map S ps).
    { rewrite list_elem_of_fmap. intros (j & Hj & _). discriminate. }
    assert (Hall' : Forall2 (fun b0 i => (b :: l) !! i = Some b0)
                      (upcoming_from timeValue clock (S k) l) (map S ps)).
    { apply Forall2_fmap_r. eapply Forall2_impl; [exact Hall|]. auto. }
    destruct (is_upcoming timeValue (clock k) b) eqn:E.
    + exists (0 :: map S ps). split; [|split].
      * constructor; [apply sorted_map_S, Hsorted|].
        apply Forall_map, Forall_forall. intros; cbn; lia.
      * intros [|i].
        -- split; [|intros _; apply list_elem_of_here].
           intros _. apply is_upcoming_spec in E as (t & Ht & Hlt).
           exists b, t. rewrite Nat.add_0_r. auto.
        -- rewrite <- Htail, elem_of_cons. split; [intros [H|H]; [discriminate|exact H]|auto].
      * constructor; [reflexivity|exact Hall'].
    + exists (map S ps). split; [apply sorted_map_S, Hsorted|]. split; [|exact Hall'].
      intros [|i]; [|apply Htail].
      split; [intros H; contradiction|].
      intros (b0 & t & Hb & Ht & Hlt). exfalso.
      injection Hb as <-. rewrite Nat.add_0_r in Hlt.
      assert (is_upcoming timeValue (clock k) b = true) by (apply is_upcoming_spec; eauto).
      congruence.
Qed.

(** X17. The table of the user dashboard has one row per booking, in the order
    of the response. The number of upcoming events is the number of
    positions of the response at which the date of the booking is valid and
    strictly later than the clock as it is read for that booking: the
    bookings counted are exactly the ones at these positions, in their
    order. So the number never exceeds the number of rows, a booking whose
    date is invalid, or not later than the clock, is never counted, and the
    number is zero when no date is later. No counter is ever [NaN]. *)
Theorem user_dashboard_counts (data : UserData) (l : list UserBooking) :
  ud_bookings data = Js.Val l ->
  user_rows (Some data) = map user_row l
  /\ map fst (user_rows (Some data)) = l
  /\ (exists positions : list nat,
        StronglySorted lt positions
        /\ (forall i, i ∈ positions
                      <-> exists b t, l !! i = Some b
                                      /\ timeValue (ub_event_date b) = Some t
                                      /\ (clock i < t)%Z)
        /\ Forall2 (fun b i => l !! i = Some b) (upcoming_from timeValue clock 0 l) positions
        /\ upcoming_events timeValue clock (Some data) = length positions)
  /\ sublist (upcoming_from timeValue clock 0 l) l
  /\ upcoming_events timeValue clock (Some data) <= length (user_rows (Some data))
  /\ ((forall i b t, l !! i = Some b -> timeValue (ub_event_date b) = Some t ->
                     (t <= clock i)%Z) ->
      upcoming_events timeValue clock (Some data) = 0)
  /\ PrimFloat.is_nan (stat ud_total_bookings (Some data)) = false
  /\ PrimFloat.is_nan (stat ud_total_spent (Some data)) = false.
Proof.
  intros Hl. unfold user_rows, upcoming_events. rewrite Hl.
  destruct (upcoming_from_spec 0 l) as [Hs Hf].
  destruct (upcoming_from_positions 0 l) as (ps & Hsorted & Hmem & Hall).
  split; [reflexivity|].
  split; [rewrite map_map; cbn; apply map_id|].
  split.
  { exists ps. split; [exact Hsorted|]. split; [exact Hmem|]. split; [exact Hall|].
    apply (Forall2_length _ _ _ Hall). }
  split; [exact Hs|].
  split; [rewrite length_map; apply sublist_length, Hs|].
  split; [|split; apply stat_not_nan].
  intros Hpast. rewrite (Forall2_length _ _ _ Hall).
  destruct ps as [|i ps]; [reflexivity|]. exfalso.
  destruct (proj1 (Hmem i) (list_elem_of_here _ _)) as (b & t & Hb & Ht & Hlt).
  specialize (Hpast i b t Hb Ht). cbn in Hlt. lia.
Qed.

Lemma find_venue_name_spec venues venue_id :
  (forall v, v ∈ venues -> Js.strict_equals (ov_id v) venue_id = false) ->
  find_venue_name venues venue_id = Js.VUndefined.
Proof.
  induction venues as [|v venues IH]; intros H; [reflexivity|].
  cbn [find_venue_name]. rewrite (H v) by apply list_elem_of_here.
  apply IH. intros v' Hv'. apply H, list_elem_of_further, Hv'.
Qed.

(** X18. The owner's table shows the first ten bookings of the response in their
    order, each with the name of the first venue whose [id] is strictly
    equal to its [venue_id] ([undefined] when there is none). Without a
    [venues] list the render throws as soon as there is a booking to show,
    and only then. *)
Theorem owner_table_rows (data : OwnerData) (l : list OwnerBooking) :
  od_bookings data = Js.Val l ->
  (forall venues, od_venues data = Js.Val venues ->
     exists rows,
       owner_rows (Some data) = Some rows
       /\ map row_booking rows = take 10 l
       /\ length rows <= 10
       /\ Forall
            (fun r =>
               row_venue_name r = find_venue_name venues (ob_venue_id (row_booking r))
               /\ row_badge r = payment_badge (ob_payment_status (row_booking r)))
            rows)
  /\ (od_venues data = Js.Missing \/ od_venues data = Js.Null ->
      (l = [] -> owner_rows (Some data) = Some [])
      /\ (l <> [] -> owner_rows (Some data) = None
                     /\ OwnerDashboard (mkState (Some data) false) = OwnerCrash))
  /\ (forall venues v before after venue_id,
        venues = (before ++ v :: after)%list ->
        Js.strict_equals (ov_id v) venue_id = true ->
        (forall u, u ∈ before -> Js.strict_equals (ov_id u) venue_id = false) ->
        find_venue_name venues venue_id = ov_name v).
Proof.
  intros Hl. split; [|split].
  - intros venues Hv. unfold owner_rows. rewrite Hl, Hv.
    exists (map (fun b => mkOwnerRow b (find_venue_name venues (ob_venue_id b))
                            (payment_badge (ob_payment_status b)))
              (take 10 l)).
    split; [destruct (take 10 l); reflexivity|].
    split; [rewrite map_map; cbn; apply map_id|].
    split; [rewrite length_map, length_take; lia|].
    apply Forall_forall. intros r Hr.
    apply list_elem_of_In, in_map_iff in Hr as (b & <- & _). auto.
  - intros Hv. unfold OwnerDashboard, owner_rows. cbn [dashboardData loading].
    rewrite Hl. split.
    + intros ->. reflexivity.
    + intros Hne. destruct l as [|b l]; [congruence|]. cbn [take].
      destruct Hv as [-> | ->]; auto.
  - intros venues v before after venue_id -> Hv Hb.
    induction before as [|u before IH]; cbn [app find_venue_name].
    + rewrite Hv. reflexivity.
    + rewrite (Hb u) by apply list_elem_of_here.
      apply IH. intros u' Hu'. apply Hb, list_elem_of_further, Hu'.
Qed.

End DashboardFacts.

(** Three bookings on 1 November 2026: one in 2030, which counts, one in
    2020 and one with a date that cannot be read, which do not; and a
    booking dated at the very reading of the clock, which does not. *)
Lemma user_dashboard_counts_witness :
  Dashboards.upcoming_events Sample.timeValue Sample.clock
    (Some (Dashboards.mkUserData (Js.Val 3%float) Js.Missing
             (Js.Val [Dashboards.mkUserBooking (Js.VNumber 1%float)
                        (Js.VString "2030-01-01") (Js.VNumber 400%float)
                        (Js.VString "paid");
                      Dashboards.mkUserBooking (Js.VNumber 2%float)
                        (Js.VString "2020-01-01") (Js.VNumber 400%float)
                        (Js.VString "paid");
                      Dashboards.mkUserBooking (Js.VNumber 3%float)
                        (Js.VString "next week") (Js.VNumber 400%float)
                        (Js.VString "pending")]))) = 1
  /\ Dashboards.upcoming_events Sample.timeValue Sample.clock
       (Some (Dashboards.mkUserData (Js.Val 2%float) Js.Missing
                (Js.Val [Dashboards.mkUserBooking (Js.VNumber 1%float)
                           (Js.VString "2026-11-01") (Js.VNumber 400%float)
                           (Js.VString "paid");
                         Dashboards.mkUserBooking (Js.VNumber 2%float)
                           (Js.VString "2020-01-01") (Js.VNumber 400%float)
                           (Js.VString "paid")]))) = 0.
Proof.
  split.
  - destruct (user_dashboard_counts Sample.timeValue Sample.clock
                (Dashboards.mkUserData (Js.Val 3%float) Js.Missing
                   (Js.Val [Dashboards.mkUserBooking (Js.VNumber 1%float)
                              (Js.VString "2030-01-01") (Js.VNumber 400%float)
                              (Js.VString "paid");
                            Dashboards.mkUserBooking (Js.VNumber 2%float)
                              (Js.VString "2020-01-01") (Js.VNumber 400%float)
                              (Js.VString "paid");
                            Dashboards.mkUserBooking (Js.VNumber 3%float)
                              (Js.VString "next week") (Js.VNumber 400%float)
                              (Js.VString "pending")]))
                _ eq_refl) as (_ & _ & (ps & _ & _ & Hall & ->) & _).
    rewrite <- (Forall2_length _ _ _ Hall). reflexivity.
  - apply (user_dashboard_counts Sample.timeValue Sample.clock
             (Dashboards.mkUserData (Js.Val 2%float) Js.Missing
                (Js.Val [Dashboards.mkUserBooking (Js.VNumber 1%float)
                           (Js.VString "2026-11-01") (Js.VNumber 400%float)
                           (Js.VString "paid");
                         Dashboards.mkUserBooking (Js.VNumber 2%float)
                           (Js.VString "2020-01-01") (Js.VNumber 400%float)
                           (Js.VString "paid")]))
             _ eq_refl).
    intros [|[|i]] b t Hb Ht; [| |discriminate];
      injection Hb as <-; injection Ht as <-; vm_compute; discriminate.
Defined.

Lemma owner_table_rows_witness :
  Dashboards.owner_rows
    (Some (Dashboards.mkOwnerData Js.Missing Js.Missing Js.Missing Js.Missing Js.Missing
             (Js.Val [Dashboards.mkOwnerBooking (Js.VNumber 1%float) (Js.VNumber 7%float)
                        (Js.VNumber 400%float) (Js.VNumber 390%float)
                        (Js.VString "paid")]))) = None.
Proof.
  destruct (owner_table_rows
              (Dashboards.mkOwnerData Js.Missing Js.Missing Js.Missing Js.Missing Js.Missing
                 (Js.Val [Dashboards.mkOwnerBooking (Js.VNumber 1%float) (Js.VNumber 7%float)
                            (Js.VNumber 400%float) (Js.VNumber 390%float)
                            (Js.VString "paid")]))
              _ eq_refl) as (_ & H & _).
  destruct (H (or_introl eq_refl)) as (_ & Hc).
  apply Hc. discriminate.
Defined.

(** * The booking form *)

Section BookingFormFacts.

Import BookingUI.

Variable venue : Booking.Venue.
Variable valid_email : string -> bool.

#[local] Abbreviation handle := (BookingUI.handle venue).
#[local] Abbreviation run := (BookingUI.run venue).
#[local] Abbreviation enabled := (BookingUI.enabled valid_email).
#[local] Abbreviation reachable := (BookingUI.reachable venue valid_email).
#[local] Abbreviation complete := (BookingUI.complete venue valid_email).

Lemma booking_run_cons e es s : run (e :: es) s = run es (handle e s).
Proof. reflexivity. Qed.

(** An event posts at most the booking of a validation that passed. *)
Lemma posted_step e s :
  enabled e s -> Forall complete (posted s) -> Forall complete (posted (handle e s)).
Proof.
  intros He H. unfold BookingUI.handle, BookingUI.enabled in *.
  destruct e as [| |field value|valid|[u|err]|[u|err]], (shown s) as [f|];
    try exact H; cbn [posted].
  - destruct (success f); exact H.
  - destruct (success f || loading f || negb valid) eqn:E; [exact H|]. cbn [posted].
    apply orb_false_iff in E as [_ E]. apply negb_false_iff in E. subst valid.
    destruct He as [Hr Hv].
    apply Forall_app. split; [exact H|].
    apply Forall_cons. split; [|constructor]. repeat split; assumption.
  - destruct (loading f); exact H.
  - destruct (loading f); exact H.
  - destruct (orphans s); exact H.
  - destruct (orphans s); exact H.
Qed.

Lemma reachable_posted s : reachable s -> Forall complete (posted s).
Proof.
  induction 1 as [|s e _ IH He]; [constructor|]. apply posted_step; assumption.
Qed.

Lemma reachable_run es s :
  reachable s -> BookingUI.enabled_all venue valid_email es s -> reachable (run es s).
Proof.
  revert s. induction es as [|e es IH]; intros s Hs Hes; [exact Hs|].
  destruct Hes as [He Hes]. rewrite booking_run_cons.
  apply IH; [apply reach_step; assumption|exact Hes].
Qed.

(** X20. Every booking the dialog posts is the payload of [handleSubmit] for the
    fields as they were at that submit, and those fields have a name, an
    address that passes the check of the browser, a date and an event type.
    Nothing is posted by a submit while a request of the form is under way,
    by one the validation of the browser stops, nor by any submit while a
    required field is empty or the address does not pass the check; a submit
    that passes the validation of a form at rest posts exactly one booking
    and disables the button. *)
Theorem booking_form_posts_only_complete_requests (s : state) (f : form) :
  reachable s -> shown s = Some f ->
  Forall complete (posted s)
  /\ (forall valid, loading f = true -> handle (Submit valid) s = s)
  /\ handle (Submit false) s = s
  /\ (forall valid, enabled (Submit valid) s ->
        required_filled (formData f) = false
        \/ valid_email (Booking.form_email (formData f)) = false ->
        handle (Submit valid) s = s)
  /\ (enabled (Submit true) s -> success f = false -> loading f = false ->
      posted (handle (Submit true) s)
      = (posted s ++ [Booking.handleSubmit venue (formData f)])%list
      /\ render (handle (Submit true) s) = Form (formData f) true
      /\ Forall complete (posted (handle (Submit true) s))).
Proof.
  intros Hr Hf.
  split; [apply reachable_posted, Hr|].
  split; [|split; [|split]].
  - intros valid Hl. unfold BookingUI.handle. rewrite Hf, Hl, orb_true_r. reflexivity.
  - unfold BookingUI.handle. rewrite Hf, orb_true_r. reflexivity.
  - unfold BookingUI.handle, BookingUI.enabled. rewrite Hf.
    intros [|] He Hbad; [|rewrite orb_true_r; reflexivity].
    destruct He as [H1 H2]. destruct Hbad; congruence.
  - intros He Hs Hl.
    assert (Hc : Forall complete (posted (handle (Submit true) s)))
      by (apply posted_step; [exact He|apply reachable_posted, Hr]).
    split; [|split; [|exact Hc]];
      unfold BookingUI.handle, render; rewrite Hf, Hs, Hl; reflexivity.
Qed.

(** While the confirmation is mounted nothing is posted and it stays. *)
Lemma confirmation_stays es s f :
  shown s = Some f -> success f = true -> loading f = false ->
  Forall keeps_form es ->
  render (run es s) = BookingRequestSent /\ posted (run es s) = posted s.
Proof.
  revert s. induction es as [|e es IH]; intros s Hf Hs Hl Hes.
  - unfold render. cbn. rewrite Hf, Hs. auto.
  - apply Forall_cons in Hes as [He Hes]. rewrite booking_run_cons.
    assert (H : shown (handle e s) = Some f /\ posted (handle e s) = posted s).
    { unfold BookingUI.handle. rewrite Hf.
      destruct e as [| |field value|valid|[u|err]|[u|err]]; cbn in He;
        rewrite ?Hs, ?Hl; cbn; try contradiction; auto.
      destruct (orphans s); cbn; auto. }
    destruct H as [H1 H2]. rewrite <- H2. apply (IH _ H1 Hs Hl Hes).
Qed.

(** X21. The answer to the request of the mounted form. A rejection raises one
    alert, keeps the fields and enables the button again, so that a further
    submit that passes the validation posts the fields once more. A success
    shows the confirmation, and as long as this form is mounted nothing
    more is posted and the confirmation stays. Closing the dialog unmounts
    the form: opening it again gives a blank form, which can post again. A
    form closed while its request is under way leaves the request behind:
    a rejection of it still raises the alert, but no answer to it changes
    the form that is mounted then. *)
Theorem booking_form_after_the_answer (s : state) (f : form) (err : Auth.failure)
    (es : list event) :
  shown s = Some f -> loading f = true -> success f = false ->
  handle (Settled (Auth.Rejected err)) s
  = mkState (Some (mkForm (formData f) false false)) (S (alerts s)) (posted s) (orphans s)
  /\ render (handle (Settled (Auth.Rejected err)) s) = Form (formData f) false
  /\ (enabled (Submit true) (handle (Settled (Auth.Rejected err)) s) ->
      posted (handle (Submit true) (handle (Settled (Auth.Rejected err)) s))
      = (posted s ++ [Booking.handleSubmit venue (formData f)])%list)
  /\ render (handle (Settled (Auth.Fulfilled tt)) s) = BookingRequestSent
  /\ alerts (handle (Settled (Auth.Fulfilled tt)) s) = alerts s
  /\ (Forall keeps_form es ->
      render (run es (handle (Settled (Auth.Fulfilled tt)) s)) = BookingRequestSent
      /\ posted (run es (handle (Settled (Auth.Fulfilled tt)) s)) = posted s)
  /\ render (handle Close (handle (Settled (Auth.Fulfilled tt)) s)) = Hidden
  /\ handle Open (handle Close (handle (Settled (Auth.Fulfilled tt)) s))
     = mkState (Some blank) (alerts s) (posted s) (orphans s)
  /\ handle Close s = mkState None (alerts s) (posted s) (S (orphans s))
  /\ (forall r, shown (handle (Late r) (handle Open (handle Close s))) = Some blank)
  /\ alerts (handle (Late (Auth.Rejected err)) (handle Open (handle Close s)))
     = S (alerts s)
  /\ alerts (handle (Late (Auth.Fulfilled tt)) (handle Open (handle Close s))) = alerts s.
Proof.
  intros Hf Hl Hs.
  assert (Hrej : handle (Settled (Auth.Rejected err)) s
                 = mkState (Some (mkForm (formData f) false false)) (S (alerts s))
                     (posted s) (orphans s)).
  { unfold BookingUI.handle. rewrite Hf, Hl, Hs. reflexivity. }
  assert (Hful : handle (Settled (Auth.Fulfilled tt)) s
                 = mkState (Some (mkForm (formData f) false true)) (alerts s)
                     (posted s) (orphans s)).
  { unfold BookingUI.handle. rewrite Hf, Hl. reflexivity. }
  assert (Hclose : handle Close s = mkState None (alerts s) (posted s) (S (orphans s))).
  { unfold BookingUI.handle. rewrite Hf, Hl. reflexivity. }
  rewrite Hrej, Hful, Hclose.
  do 2 (split; [reflexivity|]).
  split; [intros _; reflexivity|].
  do 2 (split; [reflexivity|]).
  split.
  { intros Hes.
    destruct (confirmation_stays es
                (mkState (Some (mkForm (formData f) false true)) (alerts s) (posted s)
                   (orphans s))
                (mkForm (formData f) false true) eq_refl eq_refl eq_refl Hes) as [H1 H2].
    split; [exact H1|exact H2]. }
  do 3 (split; [reflexivity|]).
  split; [intros [u|e]; reflexivity|].
  split; reflexivity.
Qed.

End BookingFormFacts.

(** A visitor fills in the form with the address [ann], which the browser
    does not accept: whatever the click, nothing is posted. With
    [ann@example.com] the click posts one booking. *)
Lemma booking_form_posts_only_complete_requests_witness :
  Sample.valid_email "ann" = false
  /\ Sample.valid_email "ann@example.com" = true
  /\ (forall valid,
        BookingUI.enabled Sample.valid_email (BookingUI.Submit valid)
          (BookingUI.run (Booking.mkVenue "v-1" "Hall" (Js.Val 100%float) Js.Missing)
             [BookingUI.Open; BookingUI.Edit BookingUI.Name "Ann";
              BookingUI.Edit BookingUI.Email "ann";
              BookingUI.Edit BookingUI.EventDate "2026-12-31";
              BookingUI.Edit BookingUI.EventType "wedding"]
             BookingUI.closed) ->
        BookingUI.posted
          (BookingUI.run (Booking.mkVenue "v-1" "Hall" (Js.Val 100%float) Js.Missing)
             [BookingUI.Open; BookingUI.Edit BookingUI.Name "Ann";
              BookingUI.Edit BookingUI.Email "ann";
              BookingUI.Edit BookingUI.EventDate "2026-12-31";
              BookingUI.Edit BookingUI.EventType "wedding"; BookingUI.Submit valid]
             BookingUI.closed) = [])
  /\ BookingUI.posted
       (BookingUI.run (Booking.mkVenue "v-1" "Hall" (Js.Val 100%float) Js.Missing)
          [BookingUI.Open; BookingUI.Edit BookingUI.Name "Ann";
           BookingUI.Edit BookingUI.Email "ann@example.com";
           BookingUI.Edit BookingUI.EventDate "2026-12-31";
           BookingUI.Edit BookingUI.EventType "wedding"; BookingUI.Submit true]
          BookingUI.closed)
     = [Booking.handleSubmit (Booking.mkVenue "v-1" "Hall" (Js.Val 100%float) Js.Missing)
          (Booking.mkFormData "Ann" "ann@example.com" "2026-12-31" "wedding" "" "")].
Proof.
  split; [reflexivity|]. split; [reflexivity|]. split.
  - intros valid He.
    destruct (booking_form_posts_only_complete_requests
                (Booking.mkVenue "v-1" "Hall" (Js.Val 100%float) Js.Missing)
                Sample.valid_email
                (BookingUI.run (Booking.mkVenue "v-1" "Hall" (Js.Val 100%float) Js.Missing)
                   [BookingUI.Open; BookingUI.Edit BookingUI.Name "Ann";
                    BookingUI.Edit BookingUI.Email "ann";
                    BookingUI.Edit BookingUI.EventDate "2026-12-31";
                    BookingUI.Edit BookingUI.EventType "wedding"]
                   BookingUI.closed)
                (BookingUI.mkForm
                   (Booking.mkFormData "Ann" "ann" "2026-12-31" "wedding" "" "") false false))
      as (_ & _ & _ & Hblocked & _).
    + apply reachable_run; [constructor|]. cbn. tauto.
    + reflexivity.
    + change (BookingUI.run ?v [?a; ?b; ?c; ?d; ?e; BookingUI.Submit valid] BookingUI.closed)
        with (BookingUI.handle v (BookingUI.Submit valid)
                (BookingUI.run v [a; b; c; d; e] BookingUI.closed)).
      rewrite (Hblocked valid He (or_intror eq_refl)). reflexivity.
  - destruct (booking_form_posts_only_complete_requests
                (Booking.mkVenue "v-1" "Hall" (Js.Val 100%float) Js.Missing)
                Sample.valid_email
                (BookingUI.run (Booking.mkVenue "v-1" "Hall" (Js.Val 100%float) Js.Missing)
                   [BookingUI.Open; BookingUI.Edit BookingUI.Name "Ann";
                    BookingUI.Edit BookingUI.Email "ann@example.com";
                    BookingUI.Edit BookingUI.EventDate "2026-12-31";
                    BookingUI.Edit BookingUI.EventType "wedding"]
                   BookingUI.closed)
                (BookingUI.mkForm
                   (Booking.mkFormData "Ann" "ann@example.com" "2026-12-31" "wedding" "" "")
                   false false))
      as (_ & _ & _ & _ & Hpost).
    + apply reachable_run; [constructor|]. cbn. tauto.
    + reflexivity.
    + destruct (Hpost (conj eq_refl eq_refl) eq_refl eq_refl) as [Hp _].
      change (BookingUI.run ?v [?a; ?b; ?c; ?d; ?e; BookingUI.Submit true] BookingUI.closed)
        with (BookingUI.handle v (BookingUI.Submit true)
                (BookingUI.run v [a; b; c; d; e] BookingUI.closed)).
      rewrite Hp. reflexivity.
Defined.

(** A booking is sent and rejected, sent again and accepted; the dialog is
    closed and opened again, and shows a blank form. *)
Lemma booking_form_after_the_answer_witness :
  BookingUI.render
    (BookingUI.run (Booking.mkVenue "v-1" "Hall" (Js.Val 100%float) Js.Missing)
       [BookingUI.Settled (Auth.Rejected Auth.NetworkError); BookingUI.Submit true;
        BookingUI.Settled (Auth.Fulfilled tt); BookingUI.Close; BookingUI.Open]
       (BookingUI.mkState
          (Some (BookingUI.mkForm
                   (Booking.mkFormData "Ann" "ann@example.com" "2026-12-31" "wedding" "" "")
                   true false))
          0 [] 0))
  = BookingUI.Form (Booking.mkFormData "" "" "" "" "" "") false
  /\ BookingUI.alerts
       (BookingUI.handle (Booking.mkVenue "v-1" "Hall" (Js.Val 100%float) Js.Missing)
          (BookingUI.Settled (Auth.Rejected Auth.NetworkError))
          (BookingUI.mkState
             (Some (BookingUI.mkForm
                      (Booking.mkFormData "Ann" "ann@example.com" "2026-12-31" "wedding" "" "")
                      true false))
             0 [] 0)) = 1.
Proof.
  destruct (booking_form_after_the_answer
              (Booking.mkVenue "v-1" "Hall" (Js.Val 100%float) Js.Missing)
              Sample.valid_email
              (BookingUI.mkState
                 (Some (BookingUI.mkForm
                          (Booking.mkFormData "Ann" "ann@example.com" "2026-12-31" "wedding" "" "")
                          true false))
                 0 [] 0)
              (BookingUI.mkForm
                 (Booking.mkFormData "Ann" "ann@example.com" "2026-12-31" "wedding" "" "")
                 true false)
              Auth.NetworkError [] eq_refl eq_refl eq_refl) as (Hrej & _).
  split; [reflexivity|]. rewrite Hrej. reflexivity.
Defined.

(** * The numbers of a booking *)

Section PayloadNumbers.

#[local] Open Scope Z_scope.

Lemma shr_fexp_nonnegative M ex l :
  0 <= M -> 0 <= shr_m (fst (shr_fexp prec emax M ex l)).
Proof.
  intros HM. unfold shr_fexp, shr.
  assert (Hrec : shr_m (shr_record_of_loc M l) = M) by (destruct l as [|[]]; reflexivity).
  destruct (fexp prec emax (Zdigits2 M + ex) - ex) as [|n|n]; cbn [fst];
    try (rewrite Hrec; exact HM).
  apply iter_shr_1. rewrite Hrec. exact HM.
Qed.

Lemma round_nearest_even_nonnegative m l : 0 <= m -> 0 <= round_nearest_even m l.
Proof.
  intros Hm. destruct l as [|[]]; cbn [round_nearest_even]; try lia.
  destruct (Z.even m); lia.
Qed.

(** Rounding a positive mantissa gives zero, a finite number or an
    infinity, never [NaN]. *)
Lemma binary_round_aux_not_nan s M ex l :
  0 < M -> binary_round_aux prec emax s M ex l <> S754_nan.
Proof.
  intros HM. unfold binary_round_aux.
  pose proof (shr_fexp_nonnegative M ex l ltac:(lia)) as H1.
  destruct (shr_fexp prec emax M ex l) as [mrs' e']. cbn [fst] in H1.
  pose proof (round_nearest_even_nonnegative _ (loc_of_shr_record mrs') H1) as H2.
  pose proof (shr_fexp_nonnegative _ e' loc_Exact H2) as H3.
  destruct (shr_fexp prec emax _ e' loc_Exact) as [mrs'' e'']. cbn [fst] in H3.
  destruct (shr_m mrs'') as [|m|m]; try lia; [discriminate|].
  destruct (e'' <=? emax - prec); discriminate.
Qed.

Lemma SFeqb_refl x : x <> S754_nan -> SFeqb x x = true.
Proof.
  intros Hx. unfold SFeqb, SFcompare.
  destruct x as [s|s| |s m e]; try congruence; try (destruct s; reflexivity).
  destruct s; rewrite Z.compare_refl, Pos.compare_cont_refl; reflexivity.
Qed.

Lemma truthy_regular (x : float) :
  Js.truthy_number x = true -> Floating.regular (Prim2SF x).
Proof.
  unfold Js.truthy_number, PrimFloat.is_zero, PrimFloat.is_nan.
  rewrite !FloatAxioms.eqb_spec. intros H.
  apply negb_true_iff, orb_false_iff in H as [Hz Hn].
  apply negb_false_iff in Hn.
  change (Prim2SF 0) with (S754_zero false) in Hz.
  destruct (Prim2SF x) as [s|s| |s m e]; cbn in *; try discriminate; exact I.
Qed.

Lemma regular_times_four x :
  valid_binary x = true -> Floating.regular x ->
  Floating.regular (SF64mul x (S754_finite false 4503599627370496 (-50))).
Proof.
  intros Hv Hr.
  assert (Hz : SFeqb (SF64mul x (S754_finite false 4503599627370496 (-50)))
                 (S754_zero false) = false).
  { apply SFmul_four_nonzero; [exact Hv| |].
    - apply SFeqb_refl. destruct x; cbn in Hr; try contradiction; discriminate.
    - destruct x as [s|s| |s m e]; cbn in Hr; try contradiction; destruct s; reflexivity. }
  assert (Hn : SF64mul x (S754_finite false 4503599627370496 (-50)) <> S754_nan).
  { destruct x as [s|s| |s m e]; cbn in Hr; try contradiction; [discriminate|].
    apply binary_round_aux_not_nan. lia. }
  destruct (SF64mul x _) as [s|s| |s m e]; cbn in *; try exact I; try congruence;
    destruct s; discriminate.
Qed.

Lemma regular_times_finite x s m e :
  Floating.regular x -> SF64mul x (S754_finite s m e) <> S754_nan.
Proof.
  intros Hr. destruct x as [sx|sx| |sx mx ex]; cbn in Hr; try contradiction;
    [discriminate|].
  apply binary_round_aux_not_nan. lia.
Qed.

Lemma not_nan_is_nan (x : float) :
  Prim2SF x <> S754_nan -> PrimFloat.is_nan x = false.
Proof.
  intros H. unfold PrimFloat.is_nan. rewrite FloatAxioms.eqb_spec.
  rewrite SFeqb_refl by exact H. reflexivity.
Qed.

(** With two decimals, [toFixed] prints a point; so it prints "NaN" for
    [NaN] only. *)
Lemma toFixed_never_reads_NaN (x : float) :
  Prim2SF x <> S754_nan -> Booking.toFixed 2 x <> Booking.Text "NaN".
Proof.
  intros Hx. unfold Booking.toFixed.
  destruct (Prim2SF x) as [s|s| |s m e]; try congruence; try (destruct s; discriminate).
  destruct (Booking.huge m e); [discriminate|].
  intros [= H]. apply (f_equal (Query.occurs ".")) in H.
  unfold Booking.point in H. rewrite !occurs_append in H.
  change (Query.occurs "." ".") with true in H.
  rewrite !orb_true_r in H. cbn in H. discriminate.
Qed.

(** X13. No number of a booking is ever [NaN], whatever the prices of the venue
    are: not the hourly price, the total, the service fee or the owner's
    payout of the payload, nor the product behind the total estimate, and
    none of the three lines of the estimate reads "NaN". *)
Theorem booking_numbers_are_never_nan (venue : Booking.Venue)
    (formData : Booking.FormData) :
  PrimFloat.is_nan (Booking.booked_price_per_hour (Booking.handleSubmit venue formData))
  = false
  /\ PrimFloat.is_nan (Booking.total_amount (Booking.handleSubmit venue formData)) = false
  /\ PrimFloat.is_nan (Booking.service_fee (Booking.handleSubmit venue formData)) = false
  /\ PrimFloat.is_nan (Booking.owner_payout (Booking.handleSubmit venue formData)) = false
  /\ PrimFloat.is_nan (Booking.pricePerHour venue * 4 * 1.025)%float = false
  /\ Booking.base_rate venue <> Booking.Text "NaN"
  /\ Booking.fee_estimate venue <> Booking.Text "NaN"
  /\ Booking.total_estimate venue <> Booking.Text "NaN".
Proof.
  pose proof (truthy_regular _ (pricePerHour_truthy venue)) as HP.
  assert (H4 : Floating.regular (Prim2SF (Booking.pricePerHour venue * 4)%float)).
  { rewrite mul_spec.
    change (Prim2SF 4) with (S754_finite false 4503599627370496 (-50)).
    apply regular_times_four; [apply Prim2SF_valid|exact HP]. }
  assert (Hmul : forall c s m e, Prim2SF c = S754_finite s m e ->
            Prim2SF (Booking.pricePerHour venue * 4 * c)%float <> S754_nan).
  { intros c s m e Hc. rewrite mul_spec, Hc. apply regular_times_finite, H4. }
  cbn [Booking.handleSubmit Booking.booked_price_per_hour Booking.total_amount
       Booking.service_fee Booking.owner_payout].
  split.
  { apply not_nan_is_nan. destruct (Prim2SF (Booking.pricePerHour venue));
      cbn in HP; try contradiction; discriminate. }
  split.
  { apply not_nan_is_nan. destruct (Prim2SF (Booking.pricePerHour venue * 4)%float);
      cbn in H4; try contradiction; discriminate. }
  split; [apply not_nan_is_nan, (Hmul _ false 7205759403792794%positive (-58)); reflexivity|].
  split; [apply not_nan_is_nan, (Hmul _ false 8782019273372467%positive (-53)); reflexivity|].
  split; [apply not_nan_is_nan, (Hmul _ false 4616189618054758%positive (-52)); reflexivity|].
  unfold Booking.base_rate, Booking.fee_estimate, Booking.total_estimate.
  split.
  { apply toFixed_never_reads_NaN.
    destruct (Prim2SF (Booking.pricePerHour venue * 4)%float);
      cbn in H4; try contradiction; discriminate. }
  split; [apply toFixed_never_reads_NaN,
            (Hmul _ false 7205759403792794%positive (-58)); reflexivity|].
  apply toFixed_never_reads_NaN, (Hmul _ false 4616189618054758%positive (-52)).
  reflexivity.
Qed.

End PayloadNumbers.

(** * The bytes of the query *)

Section WireFacts.

Import Wire.

#[local] Arguments String.append !s1 s2 : simpl nomatch.

Lemma all_bytes_append p a b :
  all_bytes p (a +:+ b) = all_bytes p a && all_bytes p b.
Proof.
  induction a as [|c a IH]; cbn; [reflexivity|].
  rewrite IH. apply andb_assoc.
Qed.

Lemma encode_byte_safe c : all_bytes query_byte (Query.encode_byte c) = true.
Proof. destruct c as [[] [] [] [] [] [] [] []]; reflexivity. Qed.

Lemma urlencode_safe s : all_bytes query_byte (Query.urlencode s) = true.
Proof.
  induction s as [|c s IH]; cbn [Query.urlencode]; [reflexivity|].
  rewrite all_bytes_append, encode_byte_safe, IH. reflexivity.
Qed.

Lemma tuple_text_safe t : all_bytes query_byte (Query.tuple_text t) = true.
Proof.
  unfold Query.tuple_text. rewrite !all_bytes_append, !urlencode_safe. reflexivity.
Qed.

Lemma toString_safe tuples : all_bytes query_byte (Query.toString tuples) = true.
Proof.
  rewrite toString_concat.
  induction tuples as [|t [|t' tuples] IH]; cbn [map String.concat] in *;
    [reflexivity|apply tuple_text_safe|].
  rewrite !all_bytes_append, tuple_text_safe, IH. reflexivity.
Qed.

(** X22. Whatever is typed into the filters or the search, the query string is
    made of letters, digits, [*], [-], [.], [_], [%], [+], [=] and [&] only:
    no space, apostrophe, [<], [#], [?], [/] or byte above 127 reaches the
    URL, and every such byte of the input is escaped. *)
Theorem query_is_url_safe (filters : Query.object) (searchLocation eventType : string) :
  all_bytes query_byte (Query.fetchVenues_query filters) = true
  /\ (exists q, Query.handleSearch searchLocation eventType = "/venues?" +:+ q
                /\ all_bytes query_byte q = true)
  /\ (forall c, query_byte c = true ->
                c <> " "%char /\ c <> "#"%char /\ c <> "?"%char /\ c <> "/"%char
                /\ c <> "'"%char /\ c <> "<"%char /\ (N_of_ascii c < 128)%N).
Proof.
  split; [apply toString_safe|]. split.
  - unfold Query.handleSearch. eexists. split; [reflexivity|]. apply toString_safe.
  - intros c. destruct c as [[] [] [] [] [] [] [] []]; cbn; intros H;
      try discriminate; repeat split; try discriminate; reflexivity.
Qed.

End WireFacts.
